(** * Active discovery: probe catalog, response analyzer, configuration
      and calibration, embedded from the Python sources.

    Python [float] is IEEE-754 binary64; it is embedded as Rocq's primitive
    [float], so every arithmetic step below rounds exactly as the interpreter
    does.  Python [int] is [Z].  Calls into numpy/scipy and into the absent
    [hlb] package are taken through the interfaces [NumLib] and [Hlb]. *)

From Stdlib Require Import ZArith String DecimalString List Bool Floats Reals Lra Lia.
Import ListNotations.
#[local] Set Warnings "-inexact-float".
#[local] Open Scope string_scope.
#[local] Open Scope list_scope.

(* ================================================================== *)
(** ** Python runtime: exceptions, logging, results *)

Module Py.

Inductive exn : Type :=
| ValueError (msg : string)
| RuntimeError (msg : string)
| ZeroDivisionError (msg : string)
| OverflowError (msg : string)
| IndexError (msg : string)
| TypeError (msg : string)
| KeyError (msg : string).

Inductive result (A : Type) : Type :=
| Ok (a : A)
| Raise (e : exn).
Arguments Ok {A} a.
Arguments Raise {A} e.

Definition rbind {A B} (r : result A) (k : A -> result B) : result B :=
  match r with
  | Ok a => k a
  | Raise e => Raise e
  end.

(** Records sent to [logging.getLogger(__name__)]: level, the message
    template, and the values interpolated into it. *)
Inductive level : Type := INFO | WARNING | ERROR.

Inductive fmt_arg : Type :=
| AInt (z : Z)
| AFloat (x : float).

Record log_record : Type := mkLog {
  lvl : level;
  template : string;
  args : list fmt_arg
}.

(** A computation that may log and may raise. *)
Definition M (A : Type) : Type := (list log_record * result A)%type.

Definition ret {A} (a : A) : M A := ([], Ok a).

Definition raise {A} (e : exn) : M A := ([], Raise e).

Definition bind {A B} (m : M A) (k : A -> M B) : M B :=
  match m with
  | (l, Ok a) => let (l', r) := k a in ((l ++ l')%list, r)
  | (l, Raise e) => (l, Raise e)
  end.

Definition lift {A} (r : result A) : M A := ([], r).

Definition log (lv : level) (t : string) (a : list fmt_arg) : M unit :=
  ([mkLog lv t a], Ok tt).

Definition logged {A} (m : M A) : list log_record := fst m.
Definition outcome {A} (m : M A) : result A := snd m.

Definition level_eqb (a b : level) : bool :=
  match a, b with
  | INFO, INFO | WARNING, WARNING | ERROR, ERROR => true
  | _, _ => false
  end.

(** Some record of level [lv] was emitted. *)
Definition emitted (lv : level) (l : list log_record) : bool :=
  existsb (fun r => level_eqb (lvl r) lv) l.

End Py.
Import Py.

Declare Scope py_scope.
Delimit Scope py_scope with py.
Notation "x <- m ;; k" := (Py.bind m (fun x => k))
  (at level 61, m at next level, right associativity) : py_scope.
Notation "m ;;; k" := (Py.bind m (fun _ => k))
  (at level 61, right associativity) : py_scope.
Notation "x <-! r ;; k" := (Py.rbind r (fun x => k))
  (at level 61, r at next level, right associativity) : py_scope.

(** Values that end up in the dicts handed to [json.dumps]. *)
#[warnings="-register-all"]
Inductive jval : Type :=
| JNone
| JBool (b : bool)
| JInt (z : Z)
| JFloat (x : float)
| JStr (s : string)
| JDict (d : list (string * jval)).

(** [d[key]] on such a dict. *)
Definition jget (d : list (string * jval)) (key : string) : option jval :=
  option_map snd (find (fun kv => String.eqb (fst kv) key) d).

(* ================================================================== *)
(** ** Python numbers *)

Module PyFloat.
#[local] Open Scope float_scope.

(** A correctly rounded result beyond the binary64 range. *)
Definition overflows (x : spec_float) : bool :=
  match x with
  | S754_infinity _ => true
  | _ => false
  end.

(** An integer rounded to binary64: the nearest value, ties to even. *)
Definition int_round (z : Z) : spec_float :=
  binary_normalize prec emax z 0 false.

(** The binary64 value nearest to an integer; an infinity beyond the
    binary64 range.  This is how numpy converts the elements of an integer
    array. *)
Definition of_Z (z : Z) : float := SF2Prim (int_round z).

(** The conversion Python applies to an int operand of mixed int/float
    arithmetic: the nearest binary64 value, and [OverflowError] beyond the
    binary64 range. *)
Definition of_int (z : Z) : result float :=
  if overflows (int_round z)
  then Raise (OverflowError "int too large to convert to float")
  else Ok (of_Z z).

(** [z * x] for a Python int [z] and a float [x]. *)
Definition int_mul (z : Z) (x : float) : result float :=
  Py.rbind (of_int z) (fun f => Ok (f * x)).

(** [x * z] for a float [x] and a Python int [z]. *)
Definition mul_int (x : float) (z : Z) : result float :=
  Py.rbind (of_int z) (fun f => Ok (x * f)).

(** [int(x)]: truncation toward zero; NaN and the infinities raise. *)
Definition to_int (x : float) : result Z :=
  match Prim2SF x with
  | S754_zero _ => Ok 0%Z
  | S754_finite s m e =>
      let v := (if (0 <=? e)%Z then Z.shiftl (Zpos m) e
                else Z.shiftr (Zpos m) (- e))%Z in
      Ok (if s then (- v)%Z else v)
  | S754_infinity _ =>
      Raise (OverflowError "cannot convert float infinity to integer")
  | S754_nan =>
      Raise (ValueError "cannot convert float NaN to integer")
  end.

(** The square [x * x], as numpy's [multiply(x, x)] and [square] compute
    it. *)
Definition sq (x : float) : float := x * x.

(** The builtin [min(a, b)]: [b] when [b < a], else [a]. *)
Definition min (a b : float) : float := if b <? a then b else a.

(** An int as an unrounded binary float. *)
Definition int_SF (z : Z) : spec_float :=
  match z with
  | Z0 => S754_zero false
  | Zpos p => S754_finite false p 0
  | Zneg p => S754_finite true p 0
  end.

(** The quotient of two Python ints as [a / b] returns it: the exact
    quotient rounded once to binary64, whatever the size of [a] and [b]. *)
Definition int_div (a b : Z) : spec_float :=
  SFdiv prec emax (int_SF a) (int_SF b).

Definition int_quotient (a b : Z) : float := SF2Prim (int_div a b).

(** [a / b] on two Python ints (true division): [b = 0] raises, and so
    does a quotient beyond the binary64 range. *)
Definition int_truediv (a b : Z) : result float :=
  if (b =? 0)%Z then Raise (ZeroDivisionError "division by zero")
  else if overflows (int_div a b)
  then Raise (OverflowError "integer division result too large for a float")
  else Ok (int_quotient a b).

(** [z < x] for a Python int and a float: Python compares the exact
    values. *)
Definition int_lt (z : Z) (x : float) : bool :=
  match Prim2SF x with
  | S754_zero _ => (z <? 0)%Z
  | S754_finite s m e =>
      let v := if s then Zneg m else Zpos m in
      if (0 <=? e)%Z then (z <? Z.shiftl v e)%Z
      else (Z.shiftl z (- e) <? v)%Z
  | S754_infinity s => negb s
  | S754_nan => false
  end.

(** [a / b] on two Python floats; a zero divisor raises. *)
Definition truediv (a b : float) : result float :=
  if b =? 0 then Raise (ZeroDivisionError "float division by zero")
  else Ok (a / b).

End PyFloat.

(* ================================================================== *)
(** ** numpy arrays and the numerical library interface *)

Definition complex : Type := (float * float)%type.

Module Cplx.
#[local] Open Scope float_scope.
Definition of_real (x : float) : complex := (x, 0).
Definition j : complex := (0, 1).
Definition add (a b : complex) : complex :=
  (fst a + fst b, snd a + snd b).
Definition mul (a b : complex) : complex :=
  (fst a * fst b - snd a * snd b, fst a * snd b + snd a * fst b).
End Cplx.

(** One-dimensional arrays as the analyzer meets them: raw interleaved
    int8 bytes ([dtype == np.int8]) or an already complex signal. *)
Inductive ndarray : Type :=
| Int8Array (data : list Z)
| ComplexArray (data : list complex).

(** An input of the documented type "interleaved IQ int8 samples or complex
    float": an int8 buffer holds whole (I, Q) pairs. *)
Definition interleaved (iq : ndarray) : Prop :=
  match iq with
  | Int8Array d => Nat.even (length d) = true
  | ComplexArray _ => True
  end.

(** [a[0::2]]; [a[1::2]] is [stride2 (tl a)]. *)
Fixpoint stride2 {A} (l : list A) : list A :=
  match l with
  | [] => []
  | x :: tl =>
      x :: match tl with
           | [] => []
           | _ :: tl' => stride2 tl'
           end
  end.

(** Element-wise binary operation on two 1-D arrays under numpy's
    broadcasting rule: equal lengths pair up, a length-1 operand is
    stretched, anything else raises. *)
Definition broadcast2 {A B C} (f : A -> B -> C) (xs : list A) (ys : list B)
  : result (list C) :=
  if (length xs =? length ys)%nat then Ok (map (fun p => f (fst p) (snd p)) (combine xs ys))
  else match xs, ys with
       | _, [y] => Ok (map (fun x => f x y) xs)
       | [x], _ => Ok (map (fun y => f x y) ys)
       | _, _ => Raise (ValueError "operands could not be broadcast together")
       end.

(** numpy, scipy and libm entry points used by the sources and not
    defined in them. *)
Class NumLib : Type := {
  (** [np.mean] of a 1-D float array *)
  np_mean : list float -> float;
  (** [np.percentile(a, q)] *)
  np_percentile : list float -> float -> float;
  (** [np.log10] of a scalar *)
  np_log10 : float -> float;
  (** modulus of one complex number, as [np.abs] computes it *)
  np_hypot : float -> float -> float;
  (** entry [[0, 1]] of [np.corrcoef(x, y)] *)
  np_corrcoef01 : list float -> list float -> float;
  (** the PSD returned by [scipy.signal.welch(x, fs, nperseg,
      scaling='density')], or the exception it raises *)
  signal_welch : list complex -> Z -> Z -> result (list float);
  (** [np.sin] of a scalar, and [np.pi] *)
  np_sin : float -> float;
  np_pi : float;
  (** [x ** n] for a float64 scalar and an int exponent *)
  np_power : float -> Z -> float;
  (** [x ** n] for a Python float and an int exponent: libm's [pow]
      behind [float.__pow__], which raises [OverflowError] when the result
      is out of range *)
  float_pow : float -> Z -> result float
}.

Section Numpy.
Context {NL : NumLib}.
#[local] Open Scope float_scope.
#[local] Open Scope py_scope.

(** [np.std]: square root of the mean squared deviation from the mean. *)
Definition np_std (xs : list float) : float :=
  let arrmean := np_mean xs in
  PrimFloat.sqrt (np_mean (map (fun x => PyFloat.sq (x - arrmean)) xs)).

Definition np_abs (xs : list complex) : list float :=
  map (fun c => np_hypot (fst c) (snd c)) xs.

(** [np.argmax]: index of the first maximum, a NaN counting as the
    maximum; an empty array raises. *)
Fixpoint argmax_from (mp : float) (best i : nat) (xs : list float) : nat :=
  match xs with
  | [] => best
  | x :: tl =>
      if is_nan mp then best
      else if negb (x <=? mp) then argmax_from x i (S i) tl
      else argmax_from mp best (S i) tl
  end.

Definition np_argmax (xs : list float) : result nat :=
  match xs with
  | [] => Raise (ValueError "attempt to get argmax of an empty sequence")
  | x :: tl => Ok (argmax_from x 0%nat 1%nat tl)
  end.

(** [np.fft.fftfreq(n, d)]: the integers [0 .. (n-1)//2] followed by
    [-(n//2) .. -1], each times [1.0 / (n * d)]. *)
Definition np_fft_fftfreq (n : Z) (d : float) : result (list float) :=
  val <-! PyFloat.truediv 1 (PyFloat.of_Z n * d) ;;
  let N := ((n - 1) / 2 + 1)%Z in
  let p1 := map Z.of_nat (seq 0 (Z.to_nat N)) in
  let p2 := map (fun k => (Z.of_nat k - n / 2)%Z) (seq 0 (Z.to_nat (n / 2))) in
  Ok (map (fun k => PyFloat.of_Z k * val) (p1 ++ p2)%list).

Definition np_zeros (n : Z) : result (list float) :=
  if (n <? 0)%Z then Raise (ValueError "negative dimensions are not allowed")
  else Ok (repeat 0 (Z.to_nat n)).

End Numpy.

(* ================================================================== *)
(** ** response_analyzer.py *)

Module response_analyzer.
Section WithNumLib.
Context {NL : NumLib}.
#[local] Open Scope float_scope.
#[local] Open Scope py_scope.

Record ResponseMetrics : Type := mkMetrics {
  probe_id : Z;
  power_mean : float;
  power_std : float;
  snr_db : float;
  anomaly_score : float;
  correlation : float;
  peak_freq : option float;
  peak_power : float;
  is_anomaly : bool;
  raw_iq : option ndarray
}.

(** The analyzer's attributes; [None] baselines are [None] in Python. *)
Record ResponseAnalyzer : Type := mkAnalyzer {
  sr : Z;
  anomaly_threshold : float;
  baseline_mean : option float;
  baseline_std : option float
}.

(** [ResponseAnalyzer.__init__] with its defaults spelled out. *)
Definition init (sample_rate : Z) (anomaly_threshold : float)
           (baseline_mean baseline_std : option float) : ResponseAnalyzer :=
  mkAnalyzer sample_rate anomaly_threshold baseline_mean baseline_std.

Definition default_sample_rate : Z := 2000000.
Definition default_anomaly_threshold : float := 3.0.

(** [_compute_power_spectrum]: int8 input is de-interleaved and scaled
    by 127, then Welch's estimate with [nperseg = min(1024, len)], whose
    exceptions pass through. *)
Definition _compute_power_spectrum (self : ResponseAnalyzer)
           (iq_samples : ndarray) : result (list float) :=
  complex_signal <-!
    match iq_samples with
    | Int8Array d =>
        let i := map (fun z => PyFloat.of_Z z / 127.0) (stride2 d) in
        let q := map (fun z => PyFloat.of_Z z / 127.0) (stride2 (tl d)) in
        broadcast2 (fun x c => Cplx.add (Cplx.of_real x) c)
                   i (map (fun y => Cplx.mul Cplx.j (Cplx.of_real y)) q)
    | ComplexArray c => Ok c
    end ;;
  signal_welch complex_signal (sr self)
               (Z.min 1024 (Z.of_nat (length complex_signal))).

(** [_find_peak] *)
Definition _find_peak (self : ResponseAnalyzer) (psd : list float)
  : result (option float * float) :=
  peak_idx <-! np_argmax psd ;;
  peak_power <-!
    match nth_error psd peak_idx with
    | Some p => Ok p
    | None => Raise (IndexError "index out of bounds")
    end ;;
  let n_freqs := Z.of_nat (length psd) in
  d <-! PyFloat.int_truediv 1 (sr self) ;;
  all_bins <-! np_fft_fftfreq (n_freqs * 2) d ;;
  let freq_bins := firstn (length psd) all_bins in
  let peak_freq :=
    if (peak_idx <? length freq_bins)%nat then nth_error freq_bins peak_idx
    else None in
  Ok (peak_freq, peak_power).

(** The decode step of [_compute_correlation]: no scaling here. *)
Definition to_complex (iq : ndarray) : result (list complex) :=
  match iq with
  | Int8Array d =>
      let i := map PyFloat.of_Z (stride2 d) in
      let q := map PyFloat.of_Z (stride2 (tl d)) in
      broadcast2 (fun x c => Cplx.add (Cplx.of_real x) c)
                 i (map (fun y => Cplx.mul Cplx.j (Cplx.of_real y)) q)
  | ComplexArray c => Ok c
  end.

(** [_compute_correlation] *)
Definition _compute_correlation (self : ResponseAnalyzer)
           (response_iq probe_iq : ndarray) : result float :=
  response_complex <-! to_complex response_iq ;;
  probe_complex <-! to_complex probe_iq ;;
  let min_len := Nat.min (length response_complex) (length probe_complex) in
  let response_complex := firstn min_len response_complex in
  let probe_complex := firstn min_len probe_complex in
  let response_mag := np_abs response_complex in
  let probe_mag := np_abs probe_complex in
  if (np_std response_mag <? 1e-12) || (np_std probe_mag <? 1e-12)
  then Ok 0.0
  else
    let correlation := np_corrcoef01 response_mag probe_mag in
    Ok (if negb (is_nan correlation) then correlation else 0.0).

Definition no_baseline_warning : string :=
  "No baseline set. Anomaly detection disabled.".

(** [analyze] *)
Definition analyze (self : ResponseAnalyzer) (probe_id : Z)
           (response_iq : ndarray) (probe_iq : option ndarray)
           (save_raw : bool) : M ResponseMetrics :=
  psd <- lift (_compute_power_spectrum self response_iq) ;;
  let power_mean := np_mean psd in
  let power_std := np_std psd in
  pk <- lift (_find_peak self psd) ;;
  let peak_freq := fst pk in
  let peak_power := snd pk in
  let noise_floor := np_percentile psd 25 in
  let snr_linear := peak_power / (noise_floor + 1e-12) in
  let snr_db :=
    if 0 <? snr_linear then 10 * np_log10 snr_linear else neg_infinity in
  an <- match baseline_mean self, baseline_std self with
        | Some bm, Some bs =>
            let anomaly_score := (power_mean - bm) / (bs + 1e-12) in
            let is_anomaly := anomaly_threshold self <? anomaly_score in
            ret (anomaly_score, is_anomaly)
        | _, _ =>
            log WARNING no_baseline_warning [] ;;;
            ret (0.0, false)
        end ;;
  correlation <- match probe_iq with
                 | Some p => lift (_compute_correlation self response_iq p)
                 | None => ret 0.0
                 end ;;
  ret (mkMetrics probe_id power_mean power_std snr_db (fst an) correlation
         peak_freq peak_power (snd an)
         (if save_raw then Some response_iq else None)).

(** [compute_llr_from_metrics], in Python float arithmetic: the two
    powers go through [float.__pow__] and the division raises on a zero
    divisor. *)
Definition compute_llr_from_metrics (self : ResponseAnalyzer)
           (metrics : ResponseMetrics) : M float :=
  match baseline_mean self, baseline_std self with
  | Some bm, Some bs =>
      let y := power_mean metrics in
      let h1_mean := bm + anomaly_threshold self * bs in
      variance <- lift (float_pow bs 2) ;;
      let mu_diff := h1_mean - bm in
      mu_diff_sq <- lift (float_pow mu_diff 2) ;;
      llr <- lift (PyFloat.truediv (y * mu_diff - 0.5 * mu_diff_sq)
                                   (variance + 1e-12)) ;;
      ret llr
  | _, _ =>
      log WARNING "No baseline. LLR set to 0." [] ;;;
      ret 0.0
  end.

(** The loop of [set_baseline]: one mean-PSD value per capture. *)
Fixpoint power_samples_of (self : ResponseAnalyzer) (l : list ndarray)
  : result (list float) :=
  match l with
  | [] => Ok []
  | iq :: tl =>
      power <-! _compute_power_spectrum self iq ;;
      rest <-! power_samples_of self tl ;;
      Ok (np_mean power :: rest)
  end.

(** [p] is the mean PSD of the capture [iq]. *)
Definition mean_psd_of (self : ResponseAnalyzer) (iq : ndarray) (p : float) : Prop :=
  exists psd, _compute_power_spectrum self iq = Ok psd /\ p = np_mean psd.

(** [set_baseline]: returns the analyzer with both baseline attributes
    assigned. *)
Definition set_baseline (self : ResponseAnalyzer) (iq_samples_list : list ndarray)
  : M ResponseAnalyzer :=
  power_samples <- lift (power_samples_of self iq_samples_list) ;;
  let bm := np_mean power_samples in
  let bs := np_std power_samples in
  log INFO "Baseline computed: mean={:.3e}, std={:.3e}" [AFloat bm; AFloat bs] ;;;
  ret (mkAnalyzer (sr self) (anomaly_threshold self) (Some bm) (Some bs)).

(** Truth value of an [Optional[float]]: [None] and both zeros are false,
    every other float, NaN included, is true. *)
Definition truthy_opt (x : option float) : bool :=
  match x with
  | None => false
  | Some v => negb (v =? 0)
  end.

(** [ResponseMetrics.to_dict] *)
Definition to_dict (self : ResponseMetrics) : list (string * jval) :=
  [ ("probe_id", JInt (probe_id self));
    ("power_mean", JFloat (power_mean self));
    ("power_std", JFloat (power_std self));
    ("snr_db", JFloat (snr_db self));
    ("anomaly_score", JFloat (anomaly_score self));
    ("correlation", JFloat (correlation self));
    ("peak_freq", if truthy_opt (peak_freq self)
                  then match peak_freq self with
                       | Some v => JFloat v
                       | None => JNone
                       end
                  else JNone);
    ("peak_power", JFloat (peak_power self));
    ("is_anomaly", JBool (is_anomaly self)) ].

End WithNumLib.
End response_analyzer.

(* ================================================================== *)
(** ** The [hlb] package (hydrogen-line-beacon), imported by the sources
       but not part of them *)

(** Python values stored in a probe's [parameters] dict. *)
Inductive pyval : Type :=
| VBool (b : bool)
| VInt (z : Z)
| VFloat (x : float)
| VStr (s : string)
| VIntList (l : list Z)
| VWeights (d : list (Z * float))
| VCallable (name : string).

Class Hlb : Type := {
  (** [hlb.constants] *)
  HYDROGEN_LINE_HZ : float;
  PRIMES : list Z;
  RF_SAMPLE_RATE : Z;
  RF_DEFAULT_GAIN : Z;
  (** [hlb.waveforms] *)
  prime_pulse_gate : float -> Z -> list float;
  schumann_envelope : float -> pyval -> Z -> list float;
  chirp : pyval -> pyval -> float -> Z -> list float;
  normalise : list float -> list float
}.

Module hlb_waveforms.
#[local] Open Scope float_scope.

Definition bounded (ch : list float) : bool :=
  forallb (fun x => abs x <=? 1) ch.

Definition peak (ch : list float) : float :=
  fold_left (fun m x => if m <? abs x then abs x else m) ch 0.

Definition fit (ch : list float) : list float :=
  if bounded ch then ch else map (fun x => x / peak ch) ch.

(** One sample at 8-bit signed resolution, range [-127, 127]. *)
Definition quantise (x : float) : Z :=
  match PyFloat.to_int (x * 127) with
  | Ok z => Z.max (-127) (Z.min 127 z)
  | Raise _ => 0%Z
  end.

Fixpoint interleave (i q : list Z) : list Z :=
  match i, q with
  | x :: i', y :: q' => x :: y :: interleave i' q'
  | _, _ => []
  end.

(** Modelled from the spec: [hlb.waveforms.to_iq_int8] is not among the
    sources.  Section 4.1: every renderer finishes by independently
    normalising the in-phase and quadrature channels (if not already
    bounded in [-1,1]) and quantising to interleaved 8-bit signed samples
    (section 3: range [-127,127]). *)
Definition to_iq_int8 (i_signal q_signal : list float) : ndarray :=
  Int8Array (interleave (map quantise (fit i_signal))
                        (map quantise (fit q_signal))).

End hlb_waveforms.

(* ================================================================== *)
(** ** config.py *)

Module config.
Section WithHlb.
Context {H : Hlb}.
#[local] Open Scope float_scope.

Record APDConfig : Type := mkConfig {
  sprt_alpha : float;
  sprt_beta : float;
  max_iterations : Z;
  probe_duration : float;
  listen_duration : float;
  inter_probe_delay : float;
  carrier_freq : float;
  sample_rate : Z;
  tx_gain : Z;
  rx_gain : Z;
  bandwidth : Z;
  center_freq_offset : float;
  anomaly_threshold_sigma : float;
  baseline_samples : Z;
  noise_floor_percentile : float;
  log_dir : string;
  temp_dir : string;
  probe_library_seed : option Z;
  probe_types : list string;
  legal_check : bool;
  require_ham_license_confirm : bool
}.

(** The dataclass defaults. *)
Definition default : APDConfig := {|
  sprt_alpha := 0.01;
  sprt_beta := 0.01;
  max_iterations := 100;
  probe_duration := 5.0;
  listen_duration := 15.0;
  inter_probe_delay := 10.0;
  carrier_freq := HYDROGEN_LINE_HZ;
  sample_rate := RF_SAMPLE_RATE;
  tx_gain := RF_DEFAULT_GAIN;
  rx_gain := 40;
  bandwidth := 2000000;
  center_freq_offset := 0.0;
  anomaly_threshold_sigma := 3.0;
  baseline_samples := 5;
  noise_floor_percentile := 25.0;
  log_dir := "./apd_logs";
  temp_dir := "/tmp/apd_active";
  probe_library_seed := None;
  probe_types := ["hydrogen_pulse"; "schumann_am"; "frequency_sweep";
                  "prime_sequence"; "fibonacci_sequence"; "silence"];
  legal_check := true;
  require_ham_license_confirm := true
|}.

(** [dataclasses.replace(self, baseline_samples=n)] *)
Definition with_baseline_samples (self : APDConfig) (n : Z) : APDConfig :=
  mkConfig (sprt_alpha self) (sprt_beta self) (max_iterations self)
    (probe_duration self) (listen_duration self) (inter_probe_delay self)
    (carrier_freq self) (sample_rate self) (tx_gain self) (rx_gain self)
    (bandwidth self) (center_freq_offset self) (anomaly_threshold_sigma self)
    n (noise_floor_percentile self) (log_dir self) (temp_dir self)
    (probe_library_seed self) (probe_types self) (legal_check self)
    (require_ham_license_confirm self).

Definition licence_notice : list string :=
  ["⚠️  WARNING: Operating on 1420 MHz hydrogen line requires amateur radio licence.";
   "   UK: Foundation licence minimum (one-day course, ~£50)";
   "   Set require_ham_license_confirm=False to suppress this check."].

(** [APDConfig.validate]: the lines printed, and either [None] or the
    exception raised (its message without the interpolated value).  The
    checks run in source order; the first that fires raises.  The object
    is never written to. *)
Definition validate (self : APDConfig) : list string * result unit :=
  if negb ((0 <? sprt_alpha self) && (sprt_alpha self <? 1)) then
    ([], Raise (ValueError "sprt_alpha must be in (0,1)"))
  else if negb ((0 <? sprt_beta self) && (sprt_beta self <? 1)) then
    ([], Raise (ValueError "sprt_beta must be in (0,1)"))
  else if (max_iterations self <? 1)%Z then
    ([], Raise (ValueError "max_iterations must be positive"))
  else if probe_duration self <=? 0 then
    ([], Raise (ValueError "probe_duration must be positive"))
  else if listen_duration self <=? 0 then
    ([], Raise (ValueError "listen_duration must be positive"))
  else if legal_check self
          && (abs (carrier_freq self - HYDROGEN_LINE_HZ) <? 1e6) then
    if require_ham_license_confirm self then
      (licence_notice,
       Raise (RuntimeError
         "Unlicensed transmission on 1420 MHz is illegal in most jurisdictions."))
    else ([], Ok tt)
  else ([], Ok tt).

End WithHlb.
End config.

(* ================================================================== *)
(** ** probe_library.py *)

Module probe_library.
Section WithLibs.
Context {NL : NumLib} {H : Hlb}.
#[local] Open Scope float_scope.
#[local] Open Scope py_scope.

Inductive ProbeType : Type :=
| HYDROGEN_PULSE
| SCHUMANN_AM
| FREQUENCY_SWEEP
| PRIME_SEQUENCE
| FIBONACCI_SEQUENCE
| GOLDEN_RATIO
| CHIRP_UP
| CHIRP_DOWN
| SILENCE
| CUSTOM.

(** The enum member's [value]. *)
Definition value (t : ProbeType) : string :=
  match t with
  | HYDROGEN_PULSE => "hydrogen_pulse"
  | SCHUMANN_AM => "schumann_am"
  | FREQUENCY_SWEEP => "frequency_sweep"
  | PRIME_SEQUENCE => "prime_sequence"
  | FIBONACCI_SEQUENCE => "fibonacci_sequence"
  | GOLDEN_RATIO => "golden_ratio"
  | CHIRP_UP => "chirp_up"
  | CHIRP_DOWN => "chirp_down"
  | SILENCE => "silence"
  | CUSTOM => "custom"
  end.

(** The enum member's [name], as [str(member)] prints it after the class
    name. *)
Definition name (t : ProbeType) : string :=
  match t with
  | HYDROGEN_PULSE => "HYDROGEN_PULSE"
  | SCHUMANN_AM => "SCHUMANN_AM"
  | FREQUENCY_SWEEP => "FREQUENCY_SWEEP"
  | PRIME_SEQUENCE => "PRIME_SEQUENCE"
  | FIBONACCI_SEQUENCE => "FIBONACCI_SEQUENCE"
  | GOLDEN_RATIO => "GOLDEN_RATIO"
  | CHIRP_UP => "CHIRP_UP"
  | CHIRP_DOWN => "CHIRP_DOWN"
  | SILENCE => "SILENCE"
  | CUSTOM => "CUSTOM"
  end.

Definition ProbeType_eqb (a b : ProbeType) : bool :=
  String.eqb (value a) (value b).

Definition params : Type := list (string * pyval).

(** [dict.get(key, default)] *)
Definition get (d : params) (key : string) (default : pyval) : pyval :=
  match find (fun kv => String.eqb (fst kv) key) d with
  | Some kv => snd kv
  | None => default
  end.

Record Probe : Type := mkProbe {
  type : ProbeType;
  parameters : params;
  description : string;
  kl_score : float
}.

Record ProbeLibrary : Type := mkLibrary {
  sr : Z;
  seed : option Z
}.

(** [get_standard_library] *)
Definition get_standard_library (self : ProbeLibrary) : list Probe :=
  [ mkProbe HYDROGEN_PULSE
      [("pulsed", VBool true); ("duty_cycle", VFloat 0.5)]
      "Pulsed carrier on hydrogen line (1420.405 MHz)" 2.5;
    mkProbe SCHUMANN_AM
      [("mode_weights", VWeights [(1%Z, 1.0); (2%Z, 0.7); (3%Z, 0.5)])]
      "AM modulated by Schumann resonances (7.83 Hz fundamental)" 3.0;
    mkProbe FREQUENCY_SWEEP
      [("f_start", VInt 1000); ("f_end", VInt 10000); ("sweep_type", VStr "linear")]
      "Linear frequency sweep 1-10 kHz baseband" 2.0;
    mkProbe PRIME_SEQUENCE
      [("primes", VIntList (firstn 10 PRIMES))]
      "Prime number pulse intervals (2, 3, 5, 7...)" 2.8;
    mkProbe FIBONACCI_SEQUENCE
      [("length", VInt 10)]
      "Fibonacci sequence pulse intervals" 2.6;
    mkProbe GOLDEN_RATIO
      [("phi_periods", VInt 5)]
      "Golden ratio (φ) modulated carrier" 2.4;
    mkProbe CHIRP_UP
      [("f_start", VInt 500); ("f_end", VInt 5000)]
      "Upward chirp 500 Hz → 5 kHz" 1.8;
    mkProbe CHIRP_DOWN
      [("f_start", VInt 5000); ("f_end", VInt 500)]
      "Downward chirp 5 kHz → 500 Hz" 1.8;
    mkProbe SILENCE [] "Silent probe (control/baseline)" 0.1 ].

(** *** Dynamic typing helpers *)

Definition truthy (v : pyval) : bool :=
  match v with
  | VBool b => b
  | VInt z => negb (z =? 0)%Z
  | VFloat x => negb (x =? 0)
  | VStr s => negb (String.eqb s "")
  | VIntList l => negb (length l =? 0)%nat
  | VWeights d => negb (length d =? 0)%nat
  | VCallable _ => true
  end.

Definition as_int (v : pyval) : result Z :=
  match v with
  | VInt z => Ok z
  | VBool b => Ok (if b then 1 else 0)%Z
  | _ => Raise (TypeError "an integer is required")
  end.

Definition zeros_like (a : list float) : list float := repeat 0 (length a).

Definition np_ones (n : Z) : result (list float) :=
  if (n <? 0)%Z then Raise (ValueError "negative dimensions are not allowed")
  else Ok (repeat 1 (Z.to_nat n)).

(** [a[start:stop] = v] on a 1-D array, with Python's index clipping. *)
Definition clip_index (n i : Z) : Z :=
  if (i <? 0)%Z then Z.max (i + n) 0 else Z.min i n.

Definition slice_assign (a : list float) (start stop : Z) (v : float)
  : list float :=
  let n := Z.of_nat (length a) in
  let lo := clip_index n start in
  let hi := clip_index n stop in
  map (fun p => if (lo <=? Z.of_nat (fst p))%Z && (Z.of_nat (fst p) <? hi)%Z
                then v else snd p)
      (combine (seq 0 (length a)) a).

(** [np.linspace(start, stop, num, endpoint=False)] *)
Definition np_linspace (start stop : float) (num : Z) : result (list float) :=
  if (num <? 0)%Z then Raise (ValueError "Number of samples must be non-negative")
  else
    let div := PyFloat.of_Z num in
    let delta := stop - start in
    let step := delta / div in
    Ok (map (fun k =>
               let y := PyFloat.of_Z (Z.of_nat k) in
               (if step =? 0 then (y / div) * delta else y * step) + start)
            (seq 0 (Z.to_nat num))).

(** *** Probe generators *)

Definition generator : Type := float -> params -> result ndarray.

Definition _hydrogen_pulse (self : ProbeLibrary) : generator :=
  fun duration params =>
  scaled <-! PyFloat.int_mul (sr self) duration ;;
  n_samples <-! PyFloat.to_int scaled ;;
  let pulsed := get params "pulsed" (VBool true) in
  let duty_cycle := get params "duty_cycle" (VFloat 0.5) in
  gate <-! (if truthy pulsed then Ok (prime_pulse_gate duration (sr self))
            else np_ones n_samples) ;;
  let i_signal := gate in
  let q_signal := zeros_like gate in
  Ok (hlb_waveforms.to_iq_int8 i_signal q_signal).

Definition _schumann_am (self : ProbeLibrary) : generator :=
  fun duration params =>
  let mode_weights :=
    get params "mode_weights"
        (VWeights [(1%Z, 1.0); (2%Z, 0.7); (3%Z, 0.5); (4%Z, 0.3); (5%Z, 0.2)]) in
  let envelope := schumann_envelope duration mode_weights (sr self) in
  let i_signal := envelope in
  let q_signal := zeros_like envelope in
  Ok (hlb_waveforms.to_iq_int8 i_signal q_signal).

Definition _frequency_sweep (self : ProbeLibrary) : generator :=
  fun duration params =>
  let f_start := get params "f_start" (VInt 1000) in
  let f_end := get params "f_end" (VInt 10000) in
  let sweep := chirp f_start f_end duration (sr self) in
  Ok (hlb_waveforms.to_iq_int8 sweep (zeros_like sweep)).

(** [type(v).__name__] *)
Definition type_name (v : pyval) : string :=
  match v with
  | VBool _ => "bool"
  | VInt _ => "int"
  | VFloat _ => "float"
  | VStr _ => "str"
  | VIntList _ => "list"
  | VWeights _ => "dict"
  | VCallable _ => "function"
  end.

(** A dict literal keeps one entry per key, the last one written. *)
Definition dict_get (d : list (Z * float)) (k : Z) : option float :=
  option_map snd (find (fun kv => (fst kv =? k)%Z) (rev d)).

Definition dict_len (d : list (Z * float)) : nat :=
  length (nodup Z.eq_dec (map fst d)).

(** [len(v)] *)
Definition py_len (v : pyval) : result Z :=
  match v with
  | VStr s => Ok (Z.of_nat (String.length s))
  | VIntList l => Ok (Z.of_nat (length l))
  | VWeights d => Ok (Z.of_nat (dict_len d))
  | _ => Raise (TypeError ("object of type '" ++ type_name v
                           ++ "' has no len()"))
  end.

(** [v[idx]] for an index [idx >= 0]. *)
Definition py_getitem (v : pyval) (idx : nat) : result pyval :=
  match v with
  | VStr s =>
      if (idx <? String.length s)%nat
      then Ok (VStr (String.substring idx 1 s))
      else Raise (IndexError "string index out of range")
  | VIntList l =>
      match nth_error l idx with
      | Some z => Ok (VInt z)
      | None => Raise (IndexError "list index out of range")
      end
  | VWeights d =>
      match dict_get d (Z.of_nat idx) with
      | Some x => Ok (VFloat x)
      | None =>
          Raise (KeyError (NilZero.string_of_int (Z.to_int (Z.of_nat idx))))
      end
  | _ => Raise (TypeError ("'" ++ type_name v
                           ++ "' object is not subscriptable"))
  end.

(** [p / y] for a float [y]. *)
Definition truediv_float (p : pyval) (y : float) : result float :=
  match p with
  | VInt z => x <-! PyFloat.of_int z ;; PyFloat.truediv x y
  | VBool b => PyFloat.truediv (if b then 1 else 0) y
  | VFloat x => PyFloat.truediv x y
  | _ => Raise (TypeError ("unsupported operand type(s) for /: '"
                           ++ type_name p ++ "' and 'float'"))
  end.

(** The running time [t] of [_prime_sequence]: the int [0] at first, then
    whatever [t += p] makes of it. *)
Inductive num : Type :=
| NInt (z : Z)
| NFloat (x : float).

(** [t < duration] *)
Definition num_lt (t : num) (duration : float) : bool :=
  match t with
  | NInt z => PyFloat.int_lt z duration
  | NFloat x => x <? duration
  end.

(** [t * self.sr] *)
Definition num_mul_int (t : num) (z : Z) : result num :=
  match t with
  | NInt a => Ok (NInt (a * z))
  | NFloat x => y <-! PyFloat.mul_int x z ;; Ok (NFloat y)
  end.

(** [int(v)] *)
Definition num_to_int (v : num) : result Z :=
  match v with
  | NInt z => Ok z
  | NFloat x => PyFloat.to_int x
  end.

(** [t + x] for a float [x]. *)
Definition num_add_float (t : num) (x : float) : result float :=
  match t with
  | NInt z => f <-! PyFloat.of_int z ;; Ok (f + x)
  | NFloat y => Ok (y + x)
  end.

(** [t += p] *)
Definition num_add (t : num) (p : pyval) : result num :=
  match t, p with
  | NInt a, VInt b => Ok (NInt (a + b))
  | NInt a, VBool b => Ok (NInt (a + (if b then 1 else 0)))
  | NInt a, VFloat x => f <-! PyFloat.of_int a ;; Ok (NFloat (f + x))
  | NFloat x, VInt b => f <-! PyFloat.of_int b ;; Ok (NFloat (x + f))
  | NFloat x, VBool b => Ok (NFloat (x + (if b then 1 else 0)))
  | NFloat x, VFloat y => Ok (NFloat (x + y))
  | NInt _, _ =>
      Raise (TypeError ("unsupported operand type(s) for +=: 'int' and '"
                        ++ type_name p ++ "'"))
  | NFloat _, _ =>
      Raise (TypeError ("unsupported operand type(s) for +=: 'float' and '"
                        ++ type_name p ++ "'"))
  end.

(** The body of the [while t < duration and idx < len(primes)] loop, run
    while [remaining = len(primes) - idx] is positive and [t < duration]. *)
Fixpoint prime_loop (self : ProbeLibrary) (duration : float) (n_samples : Z)
         (primes : pyval) (remaining idx : nat) (t : num)
         (signal : list float) : result (list float) :=
  match remaining with
  | O => Ok signal
  | S remaining' =>
      if num_lt t duration then
        p <-! py_getitem primes idx ;;
        q <-! truediv_float p 10.0 ;;
        let pulse_duration := PyFloat.min 0.1 q in
        x <-! num_mul_int t (sr self) ;;
        start <-! num_to_int x ;;
        x <-! num_add_float t pulse_duration ;;
        x <-! PyFloat.mul_int x (sr self) ;;
        e <-! PyFloat.to_int x ;;
        let stop := Z.min e n_samples in
        let signal := slice_assign signal start stop 1.0 in
        t <-! num_add t p ;;
        prime_loop self duration n_samples primes remaining' (S idx) t signal
      else Ok signal
  end.

(** The loop from [t = 0] and [idx = 0]: [len(primes)] is evaluated only
    when [t < duration] holds, and cannot fail once it has returned. *)
Definition prime_pulses (self : ProbeLibrary) (duration : float)
           (n_samples : Z) (primes : pyval) (signal : list float)
  : result (list float) :=
  if num_lt (NInt 0) duration then
    len <-! py_len primes ;;
    prime_loop self duration n_samples primes (Z.to_nat len) 0 (NInt 0) signal
  else Ok signal.

Definition _prime_sequence (self : ProbeLibrary) : generator :=
  fun duration params =>
  let primes := get params "primes" (VIntList (firstn 15 PRIMES)) in
  scaled <-! PyFloat.int_mul (sr self) duration ;;
  n_samples <-! PyFloat.to_int scaled ;;
  signal <-! np_zeros n_samples ;;
  signal <-! prime_pulses self duration n_samples primes signal ;;
  Ok (hlb_waveforms.to_iq_int8 signal (zeros_like signal)).

(** [fib = [1, 1]] extended by [k] sums of its last two entries. *)
Fixpoint fib_extend (k : nat) (fib : list Z) : list Z :=
  match k with
  | O => fib
  | S k' => fib_extend k' (fib ++ [last fib 0 + last (removelast fib) 0]%Z)
  end.

(** A list comprehension whose element expression may raise. *)
Fixpoint comprehension {A B} (f : A -> result B) (l : list A)
  : result (list B) :=
  match l with
  | [] => Ok []
  | a :: rest =>
      b <-! f a ;;
      bs <-! comprehension f rest ;;
      Ok (b :: bs)
  end.

Fixpoint fib_loop (self : ProbeLibrary) (duration : float) (n_samples : Z)
         (fib_scaled : list float) (t : float) (signal : list float)
  : result (list float) :=
  match fib_scaled with
  | [] => Ok signal
  | f :: rest =>
      if duration <=? t then Ok signal
      else
        let pulse_duration := PyFloat.min 0.1 (f / 2.0) in
        x <-! PyFloat.mul_int t (sr self) ;;
        start <-! PyFloat.to_int x ;;
        x <-! PyFloat.mul_int (t + pulse_duration) (sr self) ;;
        e <-! PyFloat.to_int x ;;
        let stop := Z.min e n_samples in
        fib_loop self duration n_samples rest (t + f)
                 (slice_assign signal start stop 1.0)
  end.

Definition _fibonacci_sequence (self : ProbeLibrary) : generator :=
  fun duration params =>
  len <-! as_int (get params "length" (VInt 12)) ;;
  let fib := fib_extend (Z.to_nat (len - 2)) [1; 1]%Z in
  let total := fold_left Z.add fib 0%Z in
  fib_scaled <-! comprehension
                   (fun f => q <-! PyFloat.int_truediv f total ;;
                             Ok (q * duration))
                   fib ;;
  scaled <-! PyFloat.int_mul (sr self) duration ;;
  n_samples <-! PyFloat.to_int scaled ;;
  signal <-! np_zeros n_samples ;;
  signal <-! fib_loop self duration n_samples fib_scaled 0 signal ;;
  Ok (hlb_waveforms.to_iq_int8 signal (zeros_like signal)).

(** The [for n in range(1, phi_periods + 1)] loop with its [break].  The
    loop runs after [int(self.sr * duration)] has returned, so [self.sr] is
    within the binary64 range and [self.sr / 2] does not overflow. *)
Fixpoint golden_loop (self : ProbeLibrary) (phi : float) (t : list float)
         (ns : list Z) (signal : list float) : list float :=
  match ns with
  | [] => signal
  | n :: rest =>
      let freq := np_power phi n in
      if PyFloat.int_quotient (sr self) 2 <? freq then signal
      else
        golden_loop self phi t rest
          (map (fun p => fst p + np_sin (2 * np_pi * freq * snd p) / PyFloat.of_Z n)
               (combine signal t))
  end.

Definition _golden_ratio (self : ProbeLibrary) : generator :=
  fun duration params =>
  let phi := (1 + PrimFloat.sqrt 5) / 2 in
  let phi_periods := get params "phi_periods" (VInt 5) in
  scaled <-! PyFloat.int_mul (sr self) duration ;;
  num <-! PyFloat.to_int scaled ;;
  t <-! np_linspace 0 duration num ;;
  let signal := zeros_like t in
  phi_periods <-! as_int phi_periods ;;
  let ns := map (fun k => Z.of_nat k + 1)%Z (seq 0 (Z.to_nat phi_periods)) in
  let signal := golden_loop self phi t ns signal in
  let signal := normalise signal in
  Ok (hlb_waveforms.to_iq_int8 signal (zeros_like signal)).

Definition _chirp_up (self : ProbeLibrary) : generator :=
  fun duration params =>
  let f_start := get params "f_start" (VInt 500) in
  let f_end := get params "f_end" (VInt 5000) in
  let sweep := chirp f_start f_end duration (sr self) in
  Ok (hlb_waveforms.to_iq_int8 sweep (zeros_like sweep)).

Definition _chirp_down (self : ProbeLibrary) : generator :=
  fun duration params =>
  let f_start := get params "f_start" (VInt 5000) in
  let f_end := get params "f_end" (VInt 500) in
  let sweep := chirp f_start f_end duration (sr self) in
  Ok (hlb_waveforms.to_iq_int8 sweep (zeros_like sweep)).

Definition _silence (self : ProbeLibrary) : generator :=
  fun duration params =>
  scaled <-! PyFloat.int_mul (sr self) duration ;;
  n_samples <-! PyFloat.to_int scaled ;;
  i <-! np_zeros n_samples ;;
  q <-! np_zeros n_samples ;;
  Ok (hlb_waveforms.to_iq_int8 i q).

(** The dict built in [__init__]. *)
Definition _probe_generators (self : ProbeLibrary)
  : list (ProbeType * generator) :=
  [ (HYDROGEN_PULSE, _hydrogen_pulse self);
    (SCHUMANN_AM, _schumann_am self);
    (FREQUENCY_SWEEP, _frequency_sweep self);
    (PRIME_SEQUENCE, _prime_sequence self);
    (FIBONACCI_SEQUENCE, _fibonacci_sequence self);
    (GOLDEN_RATIO, _golden_ratio self);
    (CHIRP_UP, _chirp_up self);
    (CHIRP_DOWN, _chirp_down self);
    (SILENCE, _silence self) ].

(** [dict.get(key)] on that dict. *)
Definition lookup (d : list (ProbeType * generator)) (k : ProbeType)
  : option generator :=
  option_map snd (find (fun e => ProbeType_eqb (fst e) k) d).

(** [generate_iq] *)
Definition generate_iq (self : ProbeLibrary) (probe : Probe) (duration : float)
  : result ndarray :=
  match lookup (_probe_generators self) (type probe) with
  | None =>
      Raise (ValueError ("Unknown probe type: ProbeType."
                         ++ name (type probe))%string)
  | Some generator => generator duration (parameters probe)
  end.

(** [custom_probe] *)
Definition custom_probe (self : ProbeLibrary) (waveform_fn : string)
           (duration : float) (description : string) (kl_score : float)
  : Probe :=
  mkProbe CUSTOM
    [("waveform_fn", VCallable waveform_fn); ("duration", VFloat duration)]
    description kl_score.

End WithLibs.
End probe_library.

(* ================================================================== *)
(** ** The [apd] package (active-protocol-discovery), imported by
       [active_beacon.py] but not part of the sources *)

(** What [run] uses of [WaldSPRT(alpha, beta)] and of
    [KLOptimalPolicy(probes, sigma, mu_fn)], the latter always built with
    [mu_fn = lambda p: p.kl_score].  [update] mutates the state in Python;
    here it returns the state afterwards. *)
Class Apd : Type := {
  sprt_state : Type;
  new_state : float -> float -> sprt_state;
  update : float -> float -> sprt_state -> float -> sprt_state;
  is_decided : float -> float -> sprt_state -> bool;
  decision : sprt_state -> option Z;
  steps : sprt_state -> Z;
  state_history : sprt_state -> list float;
  log_likelihood_ratio : sprt_state -> float;
  select : list probe_library.Probe -> float ->
           list (probe_library.Probe * response_analyzer.ResponseMetrics) ->
           probe_library.Probe
}.

(* ================================================================== *)
(** ** active_beacon.py: construction and baseline capture *)

Module active_beacon.
Section WithLibs.
Context {NL : NumLib} {H : Hlb}.
#[local] Open Scope py_scope.

(** The receiver seen from [capture_baseline]: whether it is present, and
    for the [i]-th baseline capture the int8 bytes that
    [np.fromfile(iq_file, dtype=np.int8)] reads, or [None] when
    [capture_iq] reported failure or left no file. *)
Record Monitor : Type := mkMonitor {
  is_available : bool;
  captured : nat -> option (list Z)
}.

Record ActiveBeacon : Type := mkBeacon {
  cfg : config.APDConfig;
  probe_lib : probe_library.ProbeLibrary;
  response_analyzer : response_analyzer.ResponseAnalyzer;
  monitor : Monitor;
  probes : list probe_library.Probe;
  history : list (probe_library.Probe * response_analyzer.ResponseMetrics)
}.

(** What [__init__] does to the outside world, in order. *)
Inductive effect : Type :=
| Printed (line : string)
| LoggingConfigured (verbose : bool)
| DirectoryCreated (path : string)
| RFChannelCreated (carrier_freq : float) (sample_rate tx_gain : Z)
| MonitorCreated (log_dir : string)
| Logged (r : log_record).

(** [ActiveBeacon.__init__]: [config.validate()] runs first; when it
    raises nothing else happens. *)
Definition init (c : config.APDConfig) (verbose : bool) (mon : Monitor)
  : list effect * result ActiveBeacon :=
  match config.validate c with
  | (out, Raise e) => (map Printed out, Raise e)
  | (out, Ok _) =>
      let lib := probe_library.mkLibrary (config.sample_rate c)
                                         (config.probe_library_seed c) in
      let an := response_analyzer.init (config.sample_rate c)
                  (config.anomaly_threshold_sigma c) None None in
      let probes := probe_library.get_standard_library lib in
      (map Printed out ++
       [ LoggingConfigured verbose;
         DirectoryCreated (config.log_dir c);
         DirectoryCreated (config.temp_dir c);
         RFChannelCreated (config.carrier_freq c) (config.sample_rate c)
                          (config.tx_gain c);
         MonitorCreated (config.log_dir c);
         Logged (mkLog INFO "ActiveBeacon initialized. Session: {}" []);
         Logged (mkLog INFO "Carrier: {:.3f} MHz"
                       [AFloat (config.carrier_freq c / 1e6)%float]);
         Logged (mkLog INFO "Probe library: {} probes"
                       [AInt (Z.of_nat (length probes))]) ],
       Ok (mkBeacon c lib an mon probes []))
  end.

(** The [for i in range(n_samples)] loop of [capture_baseline]. *)
Fixpoint capture_loop (mon : Monitor) (n_samples : Z) (idxs : list nat)
  : M (list ndarray) :=
  match idxs with
  | [] => ret []
  | i :: rest =>
      log INFO "  Baseline sample {}/{}"
          [AInt (Z.of_nat i + 1); AInt n_samples] ;;;
      got <- match captured mon i with
             | Some iq_data => ret [Int8Array iq_data]
             | None =>
                 log WARNING "  Failed to capture baseline sample {}"
                     [AInt (Z.of_nat i + 1)] ;;;
                 ret []
             end ;;
      more <- capture_loop mon n_samples rest ;;
      ret (got ++ more)
  end.

(** [capture_baseline]: the returned flag and the beacon afterwards. *)
Definition capture_baseline (self : ActiveBeacon) (n_samples : Z)
  : M (bool * ActiveBeacon) :=
  log INFO "Capturing baseline ({} samples)..." [AInt n_samples] ;;;
  if negb (is_available (monitor self)) then
    log ERROR "RTL-SDR not available. Cannot capture baseline." [] ;;;
    ret (false, self)
  else
    baseline_samples <-
      capture_loop (monitor self) n_samples (seq 0 (Z.to_nat n_samples)) ;;
    if (2 <=? length baseline_samples)%nat then
      an <- response_analyzer.set_baseline (response_analyzer self)
                                           baseline_samples ;;
      log INFO "✓ Baseline established" [] ;;;
      ret (true, mkBeacon (cfg self) (probe_lib self) an (monitor self)
                          (probes self) (history self))
    else
      log ERROR "Failed to capture sufficient baseline samples" [] ;;;
      ret (false, self).

(** The captures that reached [baseline_samples]. *)
Definition valid_captures (mon : Monitor) (n_samples : Z) : list ndarray :=
  flat_map (fun i => match captured mon i with
                     | Some d => [Int8Array d]
                     | None => []
                     end)
           (seq 0 (Z.to_nat n_samples)).

(** *** The session loop *)

Context {AP : Apd}.

(** The status dict of [check_hardware]. *)
Record hw_status : Type := mkStatus {
  hackrf : bool;
  rtlsdr : bool;
  ready : bool
}.

Definition bool_arg (b : bool) : fmt_arg := AInt (if b then 1 else 0).

(** [check_hardware]; [hackrf_ok] is what [RFChannel.is_available()]
    answers. *)
Definition check_hardware (self : ActiveBeacon) (hackrf_ok : bool) : M hw_status :=
  let rtlsdr_ok := is_available (monitor self) in
  let status := mkStatus hackrf_ok rtlsdr_ok (hackrf_ok && rtlsdr_ok) in
  log INFO "Hardware check: HackRF={}, RTL-SDR={}"
      [bool_arg hackrf_ok; bool_arg rtlsdr_ok] ;;;
  (if negb (ready status) then
     log WARNING "Missing required hardware!" [] ;;;
     (if negb hackrf_ok
      then log WARNING "  - HackRF One not found (needed for transmission)" []
      else ret tt) ;;;
     (if negb rtlsdr_ok
      then log WARNING "  - RTL-SDR not found (needed for reception)" []
      else ret tt)
   else ret tt) ;;;
  ret status.

(** [APDResult] as [run] fills it. *)
Record APDResult : Type := mkResult {
  result_decision : option Z;
  result_steps : Z;
  log_odds_history : list float;
  probes_used : list probe_library.Probe
}.

Definition rule : string :=
  "============================================================".

Definition log_decision (d : option Z) : M unit :=
  match d with
  | Some z => log INFO "  Decision: {}" [AInt z]
  | None => log INFO "  Decision: None" []
  end.

(** What the loop carries from one iteration to the next. *)
Record loop_state : Type := mkLoop {
  sprt : sprt_state;
  session_history : list (probe_library.Probe * response_analyzer.ResponseMetrics);
  probe_history : list probe_library.Probe
}.

(** The [for iteration in range(max_iterations)] loop of [run], with its
    [break].  [responses i] is what the capture of iteration [i] read from
    disk, or [None] when the capture failed or left no file.  Writing the
    probe and the log line to disk, the transmitter subprocess and the
    sleeps are outside the model. *)
Fixpoint run_loop (self : ActiveBeacon) (responses : nat -> option (list Z))
         (sigma : float) (iterations : list nat) (st : loop_state)
  : M loop_state :=
  match iterations with
  | [] => ret st
  | iteration :: rest =>
      let c := cfg self in
      let alpha := config.sprt_alpha c in
      let beta := config.sprt_beta c in
      log INFO ("\n" ++ rule)%string [] ;;;
      log INFO "Iteration {}/{}"
          [AInt (Z.of_nat iteration + 1); AInt (config.max_iterations c)] ;;;
      log INFO rule [] ;;;
      let probe := select (probes self) sigma (session_history st) in
      log INFO ("Selected probe: " ++ probe_library.description probe)%string [] ;;;
      log INFO ("  Type: " ++ probe_library.value (probe_library.type probe)
                 ++ ", KL score: {:.2f}")%string
          [AFloat (probe_library.kl_score probe)] ;;;
      probe_iq <- lift (probe_library.generate_iq (probe_lib self) probe
                          (config.probe_duration c)) ;;
      log INFO "Transmitting probe for {}s..." [AFloat (config.probe_duration c)] ;;;
      (if (0 <? config.inter_probe_delay c)%float
       then log INFO "Inter-probe delay: {}s" [AFloat (config.inter_probe_delay c)]
       else ret tt) ;;;
      log INFO "Listening for response for {}s..."
          [AFloat (config.listen_duration c)] ;;;
      response_iq <- match responses iteration with
                     | Some d => ret (Int8Array d)
                     | None =>
                         log ERROR "Response capture failed. Using zero observation." [] ;;;
                         ret (Int8Array (repeat 0%Z 100))
                     end ;;
      metrics <- response_analyzer.analyze (response_analyzer self)
                   (Z.of_nat iteration) response_iq (Some probe_iq) false ;;
      log INFO "Response analysis:" [] ;;;
      log INFO "  Power: {:.3e} ± {:.3e}"
          [AFloat (response_analyzer.power_mean metrics);
           AFloat (response_analyzer.power_std metrics)] ;;;
      log INFO "  SNR: {:.1f} dB" [AFloat (response_analyzer.snr_db metrics)] ;;;
      log INFO "  Anomaly score: {:.2f}σ"
          [AFloat (response_analyzer.anomaly_score metrics)] ;;;
      log INFO "  Correlation: {:.3f}"
          [AFloat (response_analyzer.correlation metrics)] ;;;
      log INFO "  Anomaly detected: {}"
          [bool_arg (response_analyzer.is_anomaly metrics)] ;;;
      llr <- response_analyzer.compute_llr_from_metrics
               (response_analyzer self) metrics ;;
      let state := update alpha beta (sprt st) llr in
      log INFO "SPRT update:" [] ;;;
      log INFO "  LLR: {:.3f}" [AFloat llr] ;;;
      log INFO "  Cumulative log-odds: {:.3f}"
          [AFloat (log_likelihood_ratio state)] ;;;
      log_decision (decision state) ;;;
      let st' := mkLoop state (session_history st ++ [(probe, metrics)])
                        (probe_history st ++ [probe]) in
      if is_decided alpha beta state then
        log INFO ("\n" ++ rule)%string [] ;;;
        log INFO (if match decision state with
                     | Some 1%Z => true
                     | _ => false
                     end
                  then "DECISION REACHED: H1 (Adaptive response detected)"
                  else "DECISION REACHED: H0 (Null hypothesis)") [] ;;;
        log INFO "Steps: {}" [AInt (steps state)] ;;;
        log INFO rule [] ;;;
        ret st'
      else run_loop self responses sigma rest st'
  end.

(** [self.response_analyzer.baseline_std or 1.0] *)
Definition policy_sigma (an : response_analyzer.ResponseAnalyzer) : float :=
  match response_analyzer.baseline_std an with
  | Some s => if (s =? 0)%float then 1.0%float else s
  | None => 1.0%float
  end.

(** [run]: the result and the beacon afterwards.  The devices answer the
    check of [_save_session_summary] as they answered the opening one;
    writing the summary file is outside the model. *)
Definition run (self : ActiveBeacon) (hackrf_ok : bool)
           (responses : nat -> option (list Z)) : M (APDResult * ActiveBeacon) :=
  let c := cfg self in
  log INFO rule [] ;;;
  log INFO "Starting Active Protocol Discovery session" [] ;;;
  log INFO rule [] ;;;
  hw_status <- check_hardware self hackrf_ok ;;
  if negb (ready hw_status) then
    raise (RuntimeError "Required hardware not available. Aborting.")
  else
    cal <- capture_baseline self (config.baseline_samples c) ;;
    if negb (fst cal) then
      raise (RuntimeError "Baseline capture failed. Aborting.")
    else
      let self := snd cal in
      let state := new_state (config.sprt_alpha c) (config.sprt_beta c) in
      let sigma := policy_sigma (response_analyzer self) in
      log INFO "\nStarting probe-listen-adapt loop..." [] ;;;
      log INFO "Max iterations: {}" [AInt (config.max_iterations c)] ;;;
      log INFO "SPRT thresholds: α={}, β={}"
          [AFloat (config.sprt_alpha c); AFloat (config.sprt_beta c)] ;;;
      st <- run_loop self responses sigma
                     (seq 0 (Z.to_nat (config.max_iterations c)))
                     (mkLoop state (history self) []) ;;
      let result := mkResult (decision (sprt st)) (steps (sprt st))
                             (state_history (sprt st)) (probe_history st) in
      check_hardware self hackrf_ok ;;;
      log INFO "Summary saved: {}_summary.json" [] ;;;
      log INFO "\nSession complete." [] ;;;
      ret (result,
           mkBeacon (cfg self) (probe_lib self) (response_analyzer self)
                    (monitor self) (probes self) (session_history st)).

End WithLibs.
End active_beacon.

(* ================================================================== *)
(** ** Sequential test thresholds *)

Module sprt.
#[local] Open Scope R_scope.

(** Modelled from the spec: the [apd] package that provides [WaldSPRT]
    is not among the sources.  Section 4.5: upper bound
    [A = ln((1 - beta) / alpha)]. *)
Definition upper_threshold (alpha beta : R) : R := ln ((1 - beta) / alpha).

(** Modelled from the spec: the [apd] package that provides [WaldSPRT]
    is not among the sources.  Section 4.5: lower bound
    [B = ln(beta / (1 - alpha))]. *)
Definition lower_threshold (alpha beta : R) : R := ln (beta / (1 - alpha)).

End sprt.

(* ================================================================== *)
(** ** Statements taken from the specification, for comparison *)

Module spec.
#[local] Open Scope float_scope.


(** Section 7, configuration error: the parameter ranges listed there,
    the baseline sample count included. *)
Definition out_of_range (c : config.APDConfig) : bool :=
  negb ((0 <? config.sprt_alpha c) && (config.sprt_alpha c <? 1))
  || negb ((0 <? config.sprt_beta c) && (config.sprt_beta c <? 1))
  || (config.max_iterations c <? 1)%Z
  || (config.probe_duration c <=? 0)
  || (config.listen_duration c <=? 0)
  || (config.baseline_samples c <? 2)%Z.

(** The ranges [validate] itself examines. *)
Definition rates_and_durations_ok (c : config.APDConfig) : bool :=
  (0 <? config.sprt_alpha c) && (config.sprt_alpha c <? 1)
  && (0 <? config.sprt_beta c) && (config.sprt_beta c <? 1)
  && (1 <=? config.max_iterations c)%Z
  && negb (config.probe_duration c <=? 0)
  && negb (config.listen_duration c <=? 0).

(** The licence gate at the end of [validate]. *)
Definition licence_gate {H : Hlb} (c : config.APDConfig) : bool :=
  config.legal_check c
  && (abs (config.carrier_freq c - HYDROGEN_LINE_HZ) <? 1e6)
  && config.require_ham_license_confirm c.

(** The nine kinds of the standard library, in catalogue order. *)
Definition standard_kinds : list probe_library.ProbeType :=
  [ probe_library.HYDROGEN_PULSE; probe_library.SCHUMANN_AM;
    probe_library.FREQUENCY_SWEEP; probe_library.PRIME_SEQUENCE;
    probe_library.FIBONACCI_SEQUENCE; probe_library.GOLDEN_RATIO;
    probe_library.CHIRP_UP; probe_library.CHIRP_DOWN;
    probe_library.SILENCE ].

End spec.

(* ================================================================== *)
(** ** em_dogwhistle.py: the mechanical and the RF channel *)

(** What the platform decides: the float remainder behind [%] on an
    array, and the result of converting to a fixed-width integer a float
    that is NaN, infinite or out of range, which C leaves undefined. *)
Class Platform : Type := {
  np_mod : float -> float -> float;
  cast_undefined : float -> Z
}.

Module em_dogwhistle.
Section WithLibs.
Context {NL : NumLib} {PF : Platform}.
#[local] Open Scope float_scope.
#[local] Open Scope py_scope.

Definition SAMPLE_RATE : Z := 44100.
Definition RF_SAMPLE_RATE : Z := 2000000.

(** One element of [np.int8(a)] or [np.int16(a)] on a float array:
    truncation toward zero when the truncated value fits. *)
Definition cast_int (lo hi : Z) (x : float) : Z :=
  match PyFloat.to_int x with
  | Ok z => if (lo <=? z)%Z && (z <=? hi)%Z then z else cast_undefined x
  | Raise _ => cast_undefined x
  end.

Definition np_int8 (x : float) : Z := cast_int (-128) 127 x.
Definition np_int16 (x : float) : Z := cast_int (-32768) 32767 x.

(** [np.cumsum] on a 1-D float array, started from [acc]. *)
Fixpoint cumsum_from (acc : float) (a : list float) : list float :=
  match a with
  | [] => []
  | x :: tl => (acc + x) :: cumsum_from (acc + x) tl
  end.

Definition np_cumsum (a : list float) : list float :=
  match a with
  | [] => []
  | x :: tl => x :: cumsum_from x tl
  end.

(** [np.max]: a NaN anywhere gives NaN; an empty array raises. *)
Definition np_max (a : list float) : result float :=
  match a with
  | [] => Raise (ValueError
                   "zero-size array to reduction operation maximum which has no identity")
  | x :: tl =>
      Ok (fold_left (fun m y => if is_nan m then m
                                else if is_nan y then y
                                else if m <? y then y else m) tl x)
  end.

(** [int(np.ceil(x))] *)
Definition ceil_int (x : float) : result Z :=
  match Prim2SF x with
  | S754_zero _ => Ok 0%Z
  | S754_finite s m e =>
      let v := (if (0 <=? e)%Z then Z.shiftl (Zpos m) e
                else Z.shiftr (Zpos m) (- e))%Z in
      let whole := ((0 <=? e) || (Z.shiftl v (- e) =? Zpos m))%Z in
      Ok (if s then (- v)%Z else if whole then v else (v + 1)%Z)
  | S754_infinity _ =>
      Raise (OverflowError "cannot convert float infinity to integer")
  | S754_nan =>
      Raise (ValueError "cannot convert float NaN to integer")
  end.

(** [np.tile(a, reps)] on a 1-D array. *)
Definition np_tile (a : list float) (reps : Z) : result (list float) :=
  if (reps <? 0)%Z then Raise (ValueError "negative dimensions are not allowed")
  else Ok (concat (repeat a (Z.to_nat reps))).

(** [a[:stop]] *)
Definition slice_to (a : list float) (stop : Z) : list float :=
  if (stop <? 0)%Z then firstn (Z.to_nat (Z.of_nat (length a) + stop)) a
  else firstn (Z.to_nat stop) a.

(** *** MechanicalChannel

    The durations are Python ints, as [argparse] and the literals of
    [_full_programme] deliver them, so [int(self.sr * duration)] is the
    exact product. *)

Record MechanicalChannel : Type := mkMechanical {
  sr : Z
}.

(** [np.linspace(0, duration, int(self.sr * duration), endpoint=False)] *)
Definition time_axis (self : MechanicalChannel) (duration : Z)
  : result (list float) :=
  probe_library.np_linspace 0 (PyFloat.of_Z duration) (sr self * duration).

Definition schumann_fundamental (self : MechanicalChannel) (duration : Z)
  : result (list float) :=
  t <-! time_axis self duration ;;
  Ok (map (fun x => np_sin (2 * np_pi * 7.83 * x)) t).

Definition schumann_second (self : MechanicalChannel) (duration : Z)
  : result (list float) :=
  t <-! time_axis self duration ;;
  Ok (map (fun x => np_sin (2 * np_pi * 14.3 * x)) t).

Definition schumann_combined (self : MechanicalChannel) (duration : Z)
  : result (list float) :=
  a <-! schumann_fundamental self duration ;;
  b <-! schumann_second self duration ;;
  broadcast2 add (map (fun x => 0.7 * x) a) (map (fun x => 0.3 * x) b).

Definition infrasound_chirp (self : MechanicalChannel) (duration : Z)
           (f_start f_end : float) : result (list float) :=
  t <-! time_axis self duration ;;
  let freq := map (fun x => f_start + (f_end - f_start)
                                      * (x / PyFloat.of_Z duration)) t in
  let phase := map (fun c => 2 * np_pi * c / PyFloat.of_Z (sr self))
                   (np_cumsum freq) in
  Ok (map np_sin phase).

Definition breathing_pattern (self : MechanicalChannel) (duration : Z)
           (base_freq breath_rate : float) : result (list float) :=
  t <-! time_axis self duration ;;
  let carrier := map (fun x => np_sin (2 * np_pi * base_freq * x)) t in
  let breath := map (fun x => 0.5 * PyFloat.sq (1 + np_sin (2 * np_pi * breath_rate * x)))
                    t in
  broadcast2 mul carrier breath.

Definition scan_freqs : list float := [7.83; 14.3; 20.8; 27.3; 33.8].

Definition _scan_programme (self : MechanicalChannel) (duration : Z)
  : result (list float) :=
  let freqs := scan_freqs in
  segment_dur <-! PyFloat.int_truediv duration (Z.of_nat (length freqs)) ;;
  scaled <-! PyFloat.int_mul (sr self) segment_dur ;;
  num <-! PyFloat.to_int scaled ;;
  t <-! probe_library.np_linspace 0 segment_dur num ;;
  Ok (concat (map (fun freq => map (fun x => np_sin (2 * np_pi * freq * x)) t)
                  freqs)).

Definition _full_programme (self : MechanicalChannel) (duration : Z)
  : result (list float) :=
  let cycle_duration := Z.min duration 600 in
  q <-! PyFloat.int_truediv duration cycle_duration ;;
  repeats <-! ceil_int q ;;
  s1 <-! schumann_fundamental self 30 ;;
  s2 <-! schumann_second self 30 ;;
  s3 <-! schumann_combined self 60 ;;
  s4 <-! infrasound_chirp self 60 1.0 20.0 ;;
  s5 <-! breathing_pattern self 120 7.83 0.25 ;;
  s6 <-! schumann_combined self 300 ;;
  let cycle := (s1 ++ s2 ++ s3 ++ s4 ++ s5 ++ s6)%list in
  full <-! np_tile cycle repeats ;;
  Ok (slice_to full (sr self * duration)).

(** The [if]/[elif] chain of [generate_programme]. *)
Definition programme_signal (self : MechanicalChannel) (programme : string)
           (duration : Z) : result (list float) :=
  if String.eqb programme "schumann" then schumann_fundamental self duration
  else if String.eqb programme "combined" then schumann_combined self duration
  else if String.eqb programme "chirp" then infrasound_chirp self duration 1.0 20.0
  else if String.eqb programme "breathing"
       then breathing_pattern self duration 7.83 0.25
  else if String.eqb programme "scan" then _scan_programme self duration
  else if String.eqb programme "full" then _full_programme self duration
  else schumann_fundamental self duration.

Definition generate_programme (self : MechanicalChannel) (programme : string)
           (duration : Z) : result (list Z) :=
  signal_data <-! programme_signal self programme duration ;;
  max_val <-! np_max (map abs signal_data) ;;
  let signal_data := if 0 <? max_val
                     then map (fun x => x / max_val * 0.9) signal_data
                     else signal_data in
  Ok (map (fun x => np_int16 (x * 32767)) signal_data).

(** *** RFChannel *)

Record RFChannel : Type := mkRF {
  carrier_freq : float;
  rf_sr : Z
}.

(** [generate_baseband]; the two slice assignments into [iq] pair the
    channels up sample by sample. *)
Definition generate_baseband (self : RFChannel) (duration : Z)
           (mod_freq : float) (mod_type : string) : result (list Z) :=
  let n_samples := (rf_sr self * duration)%Z in
  t <-! probe_library.np_linspace 0 (PyFloat.of_Z duration) n_samples ;;
  iq <-! (if String.eqb mod_type "am" then
            let modulator :=
              map (fun x => 0.5 * (1 + np_sin (2 * np_pi * mod_freq * x))) t in
            ones <-! probe_library.np_ones n_samples ;;
            i <-! broadcast2 mul modulator ones ;;
            q <-! np_zeros n_samples ;;
            Ok (i, q)
          else if String.eqb mod_type "pulse" then
            let envelope := map (fun x => if np_mod x 2 <? 1 then 1.0 else 0.0) t in
            q <-! np_zeros n_samples ;;
            Ok (envelope, q)
          else
            i <-! probe_library.np_ones n_samples ;;
            q <-! np_zeros n_samples ;;
            Ok (i, q)) ;;
  Ok (hlb_waveforms.interleave (map (fun x => np_int8 (x * 127)) (fst iq))
                               (map (fun x => np_int8 (x * 127)) (snd iq))).

End WithLibs.
End em_dogwhistle.

(* ================================================================== *)
(** ** Executable instances of the library interfaces

    The general results below are proved for all instances of [NumLib]
    and [Hlb]; the two instances here serve to run the embedding on
    concrete inputs.  They use sequential summation and simple stand-ins
    where the libraries use routines that are not reproduced here.
    [float_pow] multiplies; at the squares taken in the closed examples
    (of 0.1, 0.30000000000000004 and 0.29999999999999716) the product is
    what libm's [pow] returns. *)

Module sample.
#[local] Open Scope float_scope.

Definition sum (xs : list float) : float := fold_left add xs 0.

Definition mean (xs : list float) : float :=
  sum xs / PyFloat.of_Z (Z.of_nat (length xs)).

Definition pearson (xs ys : list float) : float :=
  let mx := mean xs in
  let my := mean ys in
  let dx := map (fun x => x - mx) xs in
  let dy := map (fun y => y - my) ys in
  sum (map (fun p => fst p * snd p) (combine dx dy))
  / (PrimFloat.sqrt (sum (map PyFloat.sq dx)) * PrimFloat.sqrt (sum (map PyFloat.sq dy))).

Fixpoint power (x : float) (n : nat) : float :=
  match n with
  | O => 1
  | S n' => x * power x n'
  end.

#[local] Instance numlib : NumLib := {|
  np_mean := mean;
  np_percentile := fun xs _ => hd 0 xs;
  np_log10 := fun x => x;
  np_hypot := fun re im => PrimFloat.sqrt (re * re + im * im);
  np_corrcoef01 := pearson;
  signal_welch := fun x fs _ =>
    Ok (map (fun c => (fst c * fst c + snd c * snd c) / PyFloat.of_Z fs) x);
  np_sin := fun x => x;
  np_pi := 3.141592653589793;
  np_power := fun x n => power x (Z.to_nat n);
  float_pow := fun x n =>
    let v := power x (Z.to_nat n) in
    if is_infinity v && is_finite x
    then Raise (OverflowError "(34, 'Numerical result out of range')")
    else Ok v
|}.

#[local] Instance hlb : Hlb := {|
  HYDROGEN_LINE_HZ := 1420405751.768;
  PRIMES := [2; 3; 5; 7; 11; 13; 17; 19; 23; 29; 31; 37; 41; 43; 47]%Z;
  RF_SAMPLE_RATE := 2000000;
  RF_DEFAULT_GAIN := 20;
  prime_pulse_gate := fun duration sr => [];
  schumann_envelope := fun duration weights sr => [];
  chirp := fun f_start f_end duration sr => [];
  normalise := fun xs => xs
|}.

(** The scenario of section 8: baseline mean 1.0, standard deviation 0.1,
    threshold 3.0. *)
Definition scenario_analyzer : response_analyzer.ResponseAnalyzer :=
  response_analyzer.init 2000000 3.0 (Some 1.0) (Some 0.1).

Definition metrics_with_power (y : float) : response_analyzer.ResponseMetrics :=
  response_analyzer.mkMetrics 0 y 0 0 0 0 None y false None.

(** An analyzer on which no baseline was ever set. *)
Definition fresh_analyzer : response_analyzer.ResponseAnalyzer :=
  response_analyzer.init response_analyzer.default_sample_rate
                         response_analyzer.default_anomaly_threshold None None.

(** A configuration on the 433.92 MHz ISM band, as [main] builds it, with
    a single baseline capture requested. *)
Definition ism_config_one_baseline : config.APDConfig :=
  config.mkConfig 0.01 0.01 50 5.0 15.0 10.0 433.92e6 2000000 20 40 2000000
    0.0 3.0 1 25.0 "./apd_logs" "/tmp/apd_active" None
    (config.probe_types config.default) true false.

Definition library : probe_library.ProbeLibrary :=
  probe_library.mkLibrary 2000000 None.

Definition silence_probe : probe_library.Probe :=
  probe_library.mkProbe probe_library.SILENCE []
    "Silent probe (control/baseline)" 0.1.

(** A library at four samples per second, small enough to render whole
    buffers. *)
Definition slow_library : probe_library.ProbeLibrary :=
  probe_library.mkLibrary 4 None.

(** A receiver whose first three baseline captures each deliver two
    full-scale in-phase samples, and whose later captures fail. *)
Definition monitor_three : active_beacon.Monitor :=
  active_beacon.mkMonitor true
    (fun i => if (i <? 3)%nat then Some [127; 0; 127; 0]%Z else None).

Definition beacon : active_beacon.ActiveBeacon :=
  active_beacon.mkBeacon ism_config_one_baseline library fresh_analyzer
                         monitor_three [] [].

(** A platform whose remainder follows the truncated quotient and whose
    undefined conversions give zero. *)
#[local] Instance platform : Platform := {|
  np_mod := fun x y =>
    match PyFloat.to_int (x / y) with
    | Ok z => x - PyFloat.of_Z z * y
    | Raise _ => nan
    end;
  cast_undefined := fun _ => 0%Z
|}.

(** A stand-in for the [apd] package: the state is the list of the
    log-likelihood ratios seen so far, the test decides for H0 once two
    have been seen, and the policy walks through the catalog. *)
#[local] Instance apd : Apd := {|
  sprt_state := list float;
  new_state := fun _ _ => [];
  update := fun _ _ st llr => st ++ [llr];
  is_decided := fun _ _ st => (2 <=? length st)%nat;
  decision := fun st => if (2 <=? length st)%nat then Some 0%Z else None;
  steps := fun st => Z.of_nat (length st);
  state_history := fun st => st;
  log_likelihood_ratio := sum;
  select := fun probes _ history => nth (length history) probes silence_probe
|}.

(** A session at four samples per second on the ISM band: one-second
    probes, three baseline captures, at most three iterations. *)
Definition slow_config : config.APDConfig :=
  config.mkConfig 0.01 0.01 3 1.0 1.0 0.0 433.92e6 4 20 40 2000000
    0.0 3.0 3 25.0 "./apd_logs" "/tmp/apd_active" None
    (config.probe_types config.default) true false.

Definition slow_beacon : active_beacon.ActiveBeacon :=
  active_beacon.mkBeacon slow_config slow_library
                         (response_analyzer.init 4 3.0 None None)
                         monitor_three
                         [silence_probe; silence_probe; silence_probe] [].

(** The first listen window delivers four full-scale samples; the later
    captures fail. *)
Definition responses (i : nat) : option (list Z) :=
  match i with
  | O => Some [127; 0; 127; 0; 127; 0; 127; 0]%Z
  | _ => None
  end.

(** A receiver that is not plugged in. *)
Definition monitor_absent : active_beacon.Monitor :=
  active_beacon.mkMonitor false (fun _ => None).

End sample.

(* ================================================================== *)
(** ** The int8 sample range *)

Module int8.

Definition in_range (z : Z) : Prop := (-128 <= z <= 127)%Z.

(** All 256 values, in increasing order. *)
Definition values : list Z := map (fun k => (Z.of_nat k - 128)%Z) (seq 0 256).

(** Both decoders build one complex sample as [i + 1j * q]. *)
Definition sample (i q : float) : complex :=
  Cplx.add (Cplx.of_real i) (Cplx.mul Cplx.j (Cplx.of_real q)).

Definition same (a b : float) : bool := PrimFloat.Leibniz.eqb a b.

(** [i + 1j * q] is the pair [(i, q)], bit for bit, for the floats of two
    int8 values, unscaled and scaled by 127. *)
Definition sample_exact (i q : Z) : bool :=
  same (fst (sample (PyFloat.of_Z i) (PyFloat.of_Z q))) (PyFloat.of_Z i)
  && same (snd (sample (PyFloat.of_Z i) (PyFloat.of_Z q))) (PyFloat.of_Z q)
  && same (fst (sample (PyFloat.of_Z i / 127) (PyFloat.of_Z q / 127)))
          (PyFloat.of_Z i / 127)
  && same (snd (sample (PyFloat.of_Z i / 127) (PyFloat.of_Z q / 127)))
          (PyFloat.of_Z q / 127).

(** The scaled sample lies in [-128/127, 1], and in [-1, 1] unless the
    byte is -128. *)
Definition scaled_in_range (z : Z) : bool :=
  ((PyFloat.of_Z (-128) / 127 <=? PyFloat.of_Z z / 127)
   && (PyFloat.of_Z z / 127 <=? 1)
   && (Bool.eqb (-1 <=? PyFloat.of_Z z / 127) (negb (z =? -128)%Z)))%float.

End int8.

(** The Fibonacci numbers 1, 1, 2, 3, 5, ... *)
Fixpoint fibonacci (n : nat) : Z :=
  match n with
  | O => 1
  | S n' =>
      match n' with
      | O => 1
      | S n'' => fibonacci n'' + fibonacci n'
      end
  end%Z.

(** A gate sample of a pulse train: at rest (0.0) or on (1.0). *)
Definition gate_sample (x : float) : Prop := (x = 0 \/ x = 1)%float.

(** The repeat count that [_full_programme] computes for a duration [d],
    and whether that many ten-minute cycles cover [d] seconds (a single
    cycle for a negative [d]). *)
Definition full_repeats (d : Z) : result Z :=
  Py.rbind (PyFloat.int_truediv d (Z.min d 600)) em_dogwhistle.ceil_int.

Definition repeats_cover (d : Z) : bool :=
  match full_repeats d with
  | Ok r => ((1 <=? r) && (d <=? 600 * r) && ((0 <? d) || (r =? 1)))%Z
  | Raise _ => false
  end.

(** [P] holds on [count] consecutive integers from [lo] on. *)
Fixpoint all_from (P : Z -> bool) (lo : Z) (count : nat) : bool :=
  match count with
  | O => true
  | S c => P lo && all_from P (lo + 1) c
  end.

(** The programme names that [generate_programme] tells apart. *)
Definition programme_names : list string :=
  ["schumann"; "combined"; "chirp"; "breathing"; "scan"; "full"].

(* ================================================================== *)
(** * Properties *)

(** ** Facts about binary64 comparison and square root *)

Section FloatFacts.
#[local] Open Scope float_scope.

Lemma Prim2SF_zero : Prim2SF 0 = S754_zero false.
Proof. reflexivity. Qed.

Lemma SFltb_irrefl (s : spec_float) : SFltb s s = false.
Proof.
  unfold SFltb, SFcompare.
  destruct s as [sg | sg | | sg m e].
  - reflexivity.
  - destruct sg; reflexivity.
  - reflexivity.
  - destruct sg; rewrite Z.compare_refl, Pos.compare_cont_refl; reflexivity.
Qed.

Lemma ltb_irrefl (x : float) : (x <? x) = false.
Proof. rewrite ltb_spec. apply SFltb_irrefl. Qed.

(** The shapes a binary64 square root can take: NaN, a zero, plus
    infinity, or a finite float with a positive sign. *)
Lemma SFsqrt_shape (s : spec_float) :
  SF64sqrt s = S754_nan
  \/ (exists sg, SF64sqrt s = S754_zero sg)
  \/ SF64sqrt s = S754_infinity false
  \/ (exists m e, SF64sqrt s = S754_finite false m e).
Proof.
  unfold SF64sqrt, SFsqrt.
  destruct s as [sg | sg | | sg m e].
  - right; left; eexists; reflexivity.
  - destruct sg; [left | right; right; left]; reflexivity.
  - left; reflexivity.
  - destruct sg; [left; reflexivity |].
    destruct (SFsqrt_core_binary prec emax (Z.pos m) e) as [[mz ez] lz].
    unfold binary_round_aux.
    destruct (shr_fexp prec emax mz ez lz) as [mrs' e'].
    destruct (shr_fexp prec emax _ e' loc_Exact) as [mrs'' e''].
    destruct (shr_m mrs'') as [| p | p].
    + right; left; eexists; reflexivity.
    + destruct (Z.leb e'' (emax - prec)).
      * right; right; right; do 2 eexists; reflexivity.
      * right; right; left; reflexivity.
    + left; reflexivity.
Qed.

Lemma sqrt_not_negative (x : float) : (PrimFloat.sqrt x <? 0) = false.
Proof.
  rewrite ltb_spec, sqrt_spec, Prim2SF_zero.
  destruct (SFsqrt_shape (Prim2SF x)) as [E | [[sg E] | [E | [m [e E]]]]];
    rewrite E; reflexivity.
Qed.

Lemma sqrt_nonneg (x : float) :
  is_nan (PrimFloat.sqrt x) = false -> (0 <=? PrimFloat.sqrt x) = true.
Proof.
  unfold is_nan. rewrite FloatAxioms.eqb_spec, leb_spec, sqrt_spec, Prim2SF_zero.
  destruct (SFsqrt_shape (Prim2SF x)) as [E | [[sg E] | [E | [m [e E]]]]];
    rewrite E; try reflexivity.
  discriminate.
Qed.

Lemma is_nan_zero : is_nan 0 = false.
Proof. reflexivity. Qed.

End FloatFacts.

(** ** Python ints in float arithmetic *)

Section IntFacts.
#[local] Open Scope Z_scope.

Lemma digits2_pos_bound (p : positive) (k : Z) :
  0 <= k -> Zpos p < 2 ^ k -> Zpos (digits2_pos p) <= k.
Proof.
  revert k. induction p as [p IH | p IH |]; intros k Hk Hp; cbn [digits2_pos].
  - assert (Hk1 : 1 <= k).
    { destruct (Z.eq_dec k 0) as [-> | ]; [cbn in Hp; lia | lia]. }
    specialize (IH (k - 1) ltac:(lia)).
    replace k with (Z.succ (k - 1)) in Hp by lia.
    rewrite Z.pow_succ_r in Hp by lia.
    rewrite Pos2Z.inj_succ. lia.
  - assert (Hk1 : 1 <= k).
    { destruct (Z.eq_dec k 0) as [-> | ]; [cbn in Hp; lia | lia]. }
    specialize (IH (k - 1) ltac:(lia)).
    replace k with (Z.succ (k - 1)) in Hp by lia.
    rewrite Z.pow_succ_r in Hp by lia.
    rewrite Pos2Z.inj_succ. lia.
  - destruct (Z.eq_dec k 0) as [-> | ]; [cbn in Hp; lia | lia].
Qed.

Lemma Zdigits2_bound (m k : Z) : 0 <= k -> 0 <= m < 2 ^ k -> Zdigits2 m <= k.
Proof.
  intros Hk Hm. destruct m as [| p | p]; cbn [Zdigits2]; [lia | | lia].
  apply digits2_pos_bound; lia.
Qed.

Lemma shr_1_div (mrs : shr_record) :
  0 <= shr_m mrs -> shr_m (shr_1 mrs) = shr_m mrs / 2.
Proof.
  destruct mrs as [m r s]. cbn [shr_m]. intro Hm. unfold shr_1.
  destruct m as [| [p | p |] | p]; cbn [shr_m]; try lia.
  - reflexivity.
  - apply (Z.div_unique _ _ _ 1); lia.
  - apply (Z.div_unique _ _ _ 0); lia.
  - reflexivity.
Qed.

Lemma iter_shr_1_div (n : positive) :
  forall mrs, 0 <= shr_m mrs ->
    shr_m (SpecFloat.iter_pos shr_1 n mrs) = shr_m mrs / 2 ^ Zpos n.
Proof.
  induction n as [n IH | n IH |]; intros mrs Hm; cbn [SpecFloat.iter_pos].
  - assert (H1 : 0 <= shr_m (shr_1 mrs)).
    { rewrite shr_1_div by assumption. apply Z.div_pos; lia. }
    assert (H2 : 0 <= shr_m (SpecFloat.iter_pos shr_1 n (shr_1 mrs))).
    { rewrite IH by assumption. apply Z.div_pos; lia. }
    rewrite IH, IH, shr_1_div by assumption.
    assert (Hp : 0 < 2 ^ Z.pos n) by (apply Z.pow_pos_nonneg; lia).
    rewrite !Z.div_div by lia. f_equal.
    assert (E : 2 ^ Z.pos n~1 = 2 * 2 ^ Z.pos n * 2 ^ Z.pos n).
    { replace (Z.pos n~1) with (1 + Z.pos n + Z.pos n) by lia.
      rewrite !Z.pow_add_r by lia. reflexivity. }
    rewrite E. ring.
  - assert (H2 : 0 <= shr_m (SpecFloat.iter_pos shr_1 n mrs)).
    { rewrite IH by assumption. apply Z.div_pos; lia. }
    rewrite IH, IH by assumption.
    assert (Hp : 0 < 2 ^ Z.pos n) by (apply Z.pow_pos_nonneg; lia).
    rewrite !Z.div_div by lia. f_equal.
    assert (E : 2 ^ Z.pos n~0 = 2 ^ Z.pos n * 2 ^ Z.pos n).
    { replace (Z.pos n~0) with (Z.pos n + Z.pos n) by lia.
      rewrite !Z.pow_add_r by lia. reflexivity. }
    rewrite E. ring.
  - rewrite shr_1_div by assumption. reflexivity.
Qed.

Lemma shr_record_of_loc_m (m : Z) (l : location) :
  shr_m (shr_record_of_loc m l) = m.
Proof. destruct l as [| []]; reflexivity. Qed.

(** [m * 2^e <= 2^c], with [e <= c], survives [shr_fexp]. *)
Lemma shr_fexp_bound (c m e : Z) (l : location) :
  -1074 <= c ->
  0 <= m <= 2 ^ (c - e) -> e <= c ->
  0 <= shr_m (fst (shr_fexp prec emax m e l))
       <= 2 ^ (c - snd (shr_fexp prec emax m e l))
  /\ snd (shr_fexp prec emax m e l) <= c.
Proof.
  intros Hc Hm He. unfold shr_fexp, shr.
  assert (Hd : Zdigits2 m <= c - e + 1).
  { apply Zdigits2_bound; [lia |].
    rewrite Z.pow_add_r, Z.pow_1_r by lia. lia. }
  assert (Hf : fexp prec emax (Zdigits2 m + e) <= c).
  { unfold fexp, emin, prec, emax. lia. }
  destruct (fexp prec emax (Zdigits2 m + e) - e) as [| n | n] eqn:En;
    cbn [fst snd]; rewrite ?shr_record_of_loc_m; try (split; [lia | lia]).
  rewrite iter_shr_1_div by (rewrite shr_record_of_loc_m; lia).
  rewrite shr_record_of_loc_m.
  assert (Hn : 0 <= c - (e + Z.pos n)) by lia.
  split; [| lia]. split; [apply Z.div_pos; lia |].
  apply Z.div_le_upper_bound; [lia |].
  rewrite <- Z.pow_add_r by lia.
  replace (Z.pos n + (c - (e + Z.pos n))) with (c - e) by lia. lia.
Qed.

Lemma round_nearest_even_bound (m : Z) (l : location) :
  0 <= m -> 0 <= round_nearest_even m l <= m + 1.
Proof.
  intro Hm. unfold round_nearest_even.
  destruct l as [| []]; try lia. destruct (Z.even m); lia.
Qed.

Lemma binary_round_aux_bounded (sx : bool) (m e : Z) (l : location) :
  0 <= m <= 2 ^ (- e) -> e <= 0 ->
  PyFloat.overflows (binary_round_aux prec emax sx m e l) = false.
Proof.
  intros Hm He. unfold binary_round_aux.
  pose proof (shr_fexp_bound 0 m e l ltac:(lia) Hm He) as H1.
  destruct (shr_fexp prec emax m e l) as [mrs1 e1]. cbn [fst snd] in H1.
  destruct H1 as [Hm1 He1].
  pose proof (round_nearest_even_bound (shr_m mrs1) (loc_of_shr_record mrs1)
                ltac:(lia)) as Hr.
  set (m2 := round_nearest_even (shr_m mrs1) (loc_of_shr_record mrs1)) in *.
  assert (Hm2 : 0 <= m2 <= 2 ^ (1 - e1)).
  { replace (1 - e1) with (1 + (0 - e1)) by lia.
    rewrite Z.pow_add_r, Z.pow_1_r by lia.
    assert (0 < 2 ^ (0 - e1)) by (apply Z.pow_pos_nonneg; lia). lia. }
  pose proof (shr_fexp_bound 1 m2 e1 loc_Exact ltac:(lia) Hm2 ltac:(lia)) as H2.
  destruct (shr_fexp prec emax m2 e1 loc_Exact) as [mrs2 e2].
  cbn [fst snd] in H2. destruct H2 as [_ He2].
  destruct (shr_m mrs2); try reflexivity.
  destruct (Z.leb_spec e2 (emax - prec)) as [_ | Hgt]; [reflexivity |].
  unfold emax, prec in Hgt. lia.
Qed.

(** A quotient of magnitude at most one is within the binary64 range. *)
Lemma int_div_small (a b : Z) :
  Z.abs a <= Z.abs b -> PyFloat.overflows (PyFloat.int_div a b) = false.
Proof.
  intro Hab. unfold PyFloat.int_div, SFdiv.
  destruct a as [| pa | pa]; destruct b as [| pb | pb]; cbn [PyFloat.int_SF];
    try reflexivity; try (cbn in Hab; lia).
  all: unfold SFdiv_core_binary.
  all: set (e' := Z.min _ _).
  all: assert (He : -1074 <= e' <= 0)
    by (subst e'; unfold fexp, emin, prec, emax; lia).
  all: replace (0 - 0 - e') with (- e') by lia.
  all: set (m' := match - e' with Z.pos _ => _ | Z0 => _ | Z.neg _ => _ end).
  all: assert (Hm' : m' = Z.pos pa * 2 ^ (- e')).
  1,3,5,7: subst m'; destruct (- e') as [| s | s] eqn:Es;
      [rewrite Z.pow_0_r; lia | rewrite Z.shiftl_mul_pow2 by lia; reflexivity | lia].
  all: pose proof (Z_div_mod m' (Z.pos pb) ltac:(lia)) as Hdm.
  all: destruct (Z.div_eucl m' (Z.pos pb)) as [q r].
  all: apply binary_round_aux_bounded; [| lia].
  all: assert (Hp : 0 < 2 ^ (- e')) by (apply Z.pow_pos_nonneg; lia).
  all: assert (Hle : Z.pos pa <= Z.pos pb) by (cbn in Hab; lia).
  all: destruct Hdm as [Hq Hr]; split; [nia | nia].
Qed.

(** [a / b] returns whenever the quotient is at most one in magnitude. *)
Lemma int_truediv_small (a b : Z) :
  b <> 0 -> Z.abs a <= Z.abs b ->
  PyFloat.int_truediv a b = Ok (PyFloat.int_quotient a b).
Proof.
  intros Hb Hab. unfold PyFloat.int_truediv.
  destruct (Z.eqb_spec b 0) as [E | _]; [contradiction |].
  rewrite (int_div_small a b Hab). reflexivity.
Qed.

Lemma int_truediv_one (z : Z) :
  z <> 0 -> PyFloat.int_truediv 1 z = Ok (PyFloat.int_quotient 1 z).
Proof. intro Hz. apply int_truediv_small; [exact Hz | lia]. Qed.

(** An infinite factor leaves nothing that [int()] accepts. *)
Lemma to_int_inf_l (s : bool) (x y : float) (n : Z) :
  Prim2SF x = S754_infinity s -> PyFloat.to_int (x * y)%float <> Ok n.
Proof.
  intros Hx. unfold PyFloat.to_int. rewrite mul_spec, Hx.
  unfold SF64mul, SFmul. destruct (Prim2SF y); discriminate.
Qed.

Lemma to_int_inf_r (s : bool) (x y : float) (n : Z) :
  Prim2SF y = S754_infinity s -> PyFloat.to_int (x * y)%float <> Ok n.
Proof.
  intros Hy. unfold PyFloat.to_int. rewrite mul_spec, Hy.
  unfold SF64mul, SFmul. destruct (Prim2SF x); discriminate.
Qed.

Lemma overflows_inv (x : spec_float) :
  PyFloat.overflows x = true ->
  exists s, x = S754_infinity s
            /\ Prim2SF (SF2Prim x) = S754_infinity s.
Proof.
  destruct x as [| s | |]; try discriminate.
  intros _. exists s. split; [reflexivity |]. destruct s; reflexivity.
Qed.

(** [int(z * x)] returns exactly when the product of the rounded [z] and
    [x] converts; the int operand then was within the binary64 range. *)
Lemma int_mul_returns (z : Z) (x : float) (n : Z) :
  PyFloat.to_int (PyFloat.of_Z z * x)%float = Ok n ->
  PyFloat.int_mul z x = Ok (PyFloat.of_Z z * x)%float.
Proof.
  intro E. unfold PyFloat.int_mul, PyFloat.of_int.
  destruct (PyFloat.overflows (PyFloat.int_round z)) eqn:Ho; [| reflexivity].
  destruct (overflows_inv _ Ho) as [s [_ Hs]].
  exfalso. exact (to_int_inf_l s _ x n Hs E).
Qed.

Lemma int_mul_inv (z : Z) (x y : float) :
  PyFloat.int_mul z x = Ok y -> y = (PyFloat.of_Z z * x)%float.
Proof.
  unfold PyFloat.int_mul, PyFloat.of_int.
  destruct (PyFloat.overflows (PyFloat.int_round z)); cbn [Py.rbind];
    [discriminate |].
  intro E. injection E as <-. reflexivity.
Qed.

Lemma mul_int_returns (x : float) (z : Z) (n : Z) :
  PyFloat.to_int (x * PyFloat.of_Z z)%float = Ok n ->
  PyFloat.mul_int x z = Ok (x * PyFloat.of_Z z)%float.
Proof.
  intro E. unfold PyFloat.mul_int, PyFloat.of_int.
  destruct (PyFloat.overflows (PyFloat.int_round z)) eqn:Ho; [| reflexivity].
  destruct (overflows_inv _ Ho) as [s [_ Hs]].
  exfalso. exact (to_int_inf_r s x _ n Hs E).
Qed.

Lemma mul_int_inv (x : float) (z : Z) (y : float) :
  PyFloat.mul_int x z = Ok y -> y = (x * PyFloat.of_Z z)%float.
Proof.
  unfold PyFloat.mul_int, PyFloat.of_int.
  destruct (PyFloat.overflows (PyFloat.int_round z)); cbn [Py.rbind];
    [discriminate |].
  intro E. injection E as <-. reflexivity.
Qed.

(** The sample count [int(z * x)], in one step. *)
Lemma sample_count_returns (z : Z) (x : float) (n : Z) :
  PyFloat.to_int (PyFloat.of_Z z * x)%float = Ok n ->
  Py.rbind (PyFloat.int_mul z x) PyFloat.to_int = Ok n.
Proof.
  intro E. rewrite (int_mul_returns z x n E). exact E.
Qed.

Lemma sample_count_inv (z : Z) (x : float) (n : Z) :
  Py.rbind (PyFloat.int_mul z x) PyFloat.to_int = Ok n ->
  PyFloat.to_int (PyFloat.of_Z z * x)%float = Ok n.
Proof.
  destruct (PyFloat.int_mul z x) as [y | e] eqn:Ey; cbn [Py.rbind];
    [| discriminate].
  rewrite (int_mul_inv z x y Ey). exact (fun E => E).
Qed.

(** [a / b] returned if its quotient took part in a product that [int()]
    accepted. *)
Lemma int_truediv_returns (a b : Z) (x : float) (n : Z) :
  b <> 0 ->
  PyFloat.to_int (x * PyFloat.int_quotient a b)%float = Ok n ->
  PyFloat.int_truediv a b = Ok (PyFloat.int_quotient a b).
Proof.
  intros Hb E. unfold PyFloat.int_truediv.
  destruct (Z.eqb_spec b 0) as [E0 | _]; [contradiction |].
  destruct (PyFloat.overflows (PyFloat.int_div a b)) eqn:Ho; [| reflexivity].
  destruct (overflows_inv _ Ho) as [s [_ Hs]].
  exfalso. exact (to_int_inf_r s x _ n Hs E).
Qed.

End IntFacts.

(** Open [int(z * x)] in a goal about a call that returned. *)
Ltac sample_count n En :=
  match goal with
  | |- context [PyFloat.int_mul ?z ?d] =>
      let x := fresh "x" in
      let ex := fresh "ex" in
      let Ex := fresh "Ex" in
      destruct (PyFloat.int_mul z d) as [x | ex] eqn:Ex; cbn [Py.rbind];
      [apply int_mul_inv in Ex; subst x;
       destruct (PyFloat.to_int (PyFloat.of_Z z * d)) as [n | ex] eqn:En;
       cbn [Py.rbind]; [| discriminate]
      | discriminate]
  end.

(** Run [int(z * x)] in a goal, given its value. *)
Ltac sample_count_is En :=
  rewrite (int_mul_returns _ _ _ En); cbn [Py.rbind]; rewrite En.

(** ** Log-likelihood ratio *)

Section LLRScenario.
#[local] Open Scope float_scope.
Import response_analyzer.
#[local] Existing Instance sample.numlib.

(** C1, evaluated on the code.  With baseline mean 1.0, standard deviation
    0.1 and threshold 3.0, [compute_llr_from_metrics] returns a strictly
    positive value both for [power_mean = 1.3] and for [power_mean = 1.0]:
    the observation is not centred on the baseline mean, so an observation
    exactly at the H0 mean counts as evidence for H1. *)
Theorem llr_scenario_signs :
  exists at_mean above : float,
    compute_llr_from_metrics sample.scenario_analyzer
                             (sample.metrics_with_power 1.0) = ([], Ok at_mean)
    /\ (0 <? at_mean) = true
    /\ (at_mean <? 0) = false
    /\ compute_llr_from_metrics sample.scenario_analyzer
                                (sample.metrics_with_power 1.3) = ([], Ok above)
    /\ (0 <? above) = true.
Proof.
  eexists; eexists.
  split; [vm_compute; reflexivity |].
  split; [vm_compute; reflexivity |].
  split; [vm_compute; reflexivity |].
  split; vm_compute; reflexivity.
Qed.


End LLRScenario.

Section LLR.
Context {NL : NumLib}.
#[local] Open Scope float_scope.
Import response_analyzer.

(** The signs of C1 do not depend on the last bit of the runtime's power:
    they are the same for every [**] that returns a square within one unit
    in the last place. *)
Lemma llr_scenario_any_pow (variance mu_diff_sq y : float) :
  float_pow 0.1 2 = Ok variance ->
  float_pow 0.30000000000000004 2 = Ok mu_diff_sq ->
  In variance [next_down (PyFloat.sq 0.1); PyFloat.sq 0.1;
               next_up (PyFloat.sq 0.1)] ->
  In mu_diff_sq [next_down (PyFloat.sq 0.30000000000000004);
                  PyFloat.sq 0.30000000000000004;
                  next_up (PyFloat.sq 0.30000000000000004)] ->
  In y [1.0; 1.3] ->
  exists v, compute_llr_from_metrics sample.scenario_analyzer
                                     (sample.metrics_with_power y) = ([], Ok v)
            /\ (0 <? v) = true.
Proof.
  intros Hv Hd Iv Id Iy.
  unfold compute_llr_from_metrics.
  cbn [sample.scenario_analyzer init baseline_mean baseline_std
       anomaly_threshold power_mean sample.metrics_with_power].
  change (1 + 3 * 0.1 - 1) with 0.30000000000000004.
  rewrite Hv. cbn [Py.lift Py.bind Py.ret]. rewrite Hd.
  cbn [Py.lift Py.bind Py.ret]. unfold PyFloat.truediv.
  cbn [In] in Iv, Id, Iy.
  destruct Iv as [<- | [<- | [<- | []]]];
    destruct Id as [<- | [<- | [<- | []]]];
    destruct Iy as [<- | [<- | []]];
    eexists; (split; [vm_compute; reflexivity | vm_compute; reflexivity]).
Qed.


End LLR.

Section LLRExamples.
#[local] Open Scope float_scope.
Import response_analyzer.


End LLRExamples.

(** ** Decoding interleaved buffers *)

Section Decoding.
Context {NL : NumLib}.
Import response_analyzer.

Lemma stride2_cons {A} (x : A) (l : list A) :
  stride2 (x :: l) = x :: stride2 (tl l).
Proof. destruct l; reflexivity. Qed.

Lemma stride2_length_double {A} (k : nat) :
  forall l : list A,
    length l = (2 * k)%nat -> length (stride2 l) = length (stride2 (tl l)).
Proof.
  induction k as [| k IH]; intros l E.
  - destruct l; [reflexivity | discriminate].
  - destruct l as [| x [| y l]]; try (simpl in E; lia).
    rewrite stride2_cons. cbn [tl]. rewrite stride2_cons. cbn [length].
    f_equal. apply IH. simpl in E. lia.
Qed.

Lemma stride2_length_even {A} (l : list A) :
  Nat.even (length l) = true -> length (stride2 l) = length (stride2 (tl l)).
Proof.
  intro Hev. apply Nat.even_spec in Hev. destruct Hev as [k Hk].
  apply (stride2_length_double k). exact Hk.
Qed.

Lemma broadcast2_same_length {A B C} (f : A -> B -> C) xs ys :
  length xs = length ys ->
  broadcast2 f xs ys = Ok (map (fun p => f (fst p) (snd p)) (combine xs ys)).
Proof.
  intro E. unfold broadcast2. rewrite E, Nat.eqb_refl. reflexivity.
Qed.

(** A well-formed buffer is always decoded by [_compute_correlation]. *)
Lemma to_complex_interleaved (iq : ndarray) :
  interleaved iq -> exists c, to_complex iq = Ok c.
Proof.
  destruct iq as [d | c]; intro W; [| eexists; reflexivity].
  unfold to_complex. rewrite broadcast2_same_length; [eexists; reflexivity |].
  rewrite !length_map. apply stride2_length_even. exact W.
Qed.

(** On a well-formed buffer the spectrum stage is Welch's estimate of the
    decoded signal; it returns or raises as the estimate does. *)
Lemma power_spectrum_interleaved (self : ResponseAnalyzer) (iq : ndarray) :
  interleaved iq ->
  exists c, _compute_power_spectrum self iq
            = signal_welch c (sr self) (Z.min 1024 (Z.of_nat (length c))).
Proof.
  destruct iq as [d | c]; intro W; [| eexists; reflexivity].
  unfold _compute_power_spectrum. rewrite broadcast2_same_length.
  - eexists; reflexivity.
  - rewrite !length_map. apply stride2_length_even. exact W.
Qed.

(** An int8 buffer of five bytes is rejected: three in-phase samples cannot
    be broadcast against two quadrature samples. *)
Example to_complex_odd_raises :
  to_complex (Int8Array [1; 2; 3; 4; 5]%Z)
  = Raise (ValueError "operands could not be broadcast together").
Proof. reflexivity. Qed.

(** ** The peak search *)

Lemma argmax_from_lt (xs : list float) :
  forall mp best i, (best < i)%nat ->
                    (argmax_from mp best i xs < i + length xs)%nat.
Proof.
  induction xs as [| x xs IH]; intros mp best i Hlt; cbn [argmax_from length].
  - lia.
  - destruct (is_nan mp); [lia |].
    destruct (negb (x <=? mp)%float).
    + specialize (IH x i (S i)). lia.
    + specialize (IH mp best (S i)). lia.
Qed.

(** [_find_peak] returns on a non-empty PSD as soon as the sample rate is
    not zero and the bin width [1.0 / (n * d)] is defined; the peak power
    is an entry of the PSD. *)
Lemma find_peak_returns (self : ResponseAnalyzer) (psd : list float) :
  psd <> [] ->
  sr self <> 0%Z ->
  (PyFloat.of_Z (Z.of_nat (length psd) * 2)
   * PyFloat.int_quotient 1 (sr self) =? 0)%float = false ->
  exists pk, _find_peak self psd = Ok pk /\ In (snd pk) psd.
Proof.
  intros Hne Hsr Hbin. destruct psd as [| x tl]; [contradiction |].
  unfold _find_peak, np_argmax. cbn [Py.rbind].
  pose proof (argmax_from_lt tl x 0%nat 1%nat ltac:(lia)) as Hidx.
  destruct (nth_error (x :: tl) (argmax_from x 0 1 tl)) as [p |] eqn:Hnth.
  - cbn [Py.rbind]. rewrite (int_truediv_one _ Hsr).
    cbn [Py.rbind]. unfold np_fft_fftfreq, PyFloat.truediv. rewrite Hbin.
    cbn [Py.rbind]. eexists. split; [reflexivity |].
    cbn [snd]. eapply nth_error_In. exact Hnth.
  - apply nth_error_None in Hnth. cbn [length] in Hnth, Hidx. lia.
Qed.

End Decoding.

(** ** Anomaly scoring in [analyze] *)

Section Analyze.
Context {NL : NumLib}.
#[local] Open Scope float_scope.
Import response_analyzer.

Ltac run_analyze :=
  unfold analyze, Py.bind, Py.lift, Py.ret, Py.log; cbn [fst snd app].

(** C4.  On an analyzer whose baseline mean or standard deviation is unset,
    every metrics record that [analyze] returns has [anomaly_score = 0.0]
    and [is_anomaly = False], whatever the power of the input, and exactly
    one record is logged, at WARNING level; and [analyze] does return such
    a record whenever the spectrum, peak and correlation stages complete. *)
Theorem analyze_without_baseline
        (self : ResponseAnalyzer) (pid : Z) (response_iq : ndarray)
        (probe_iq : option ndarray) (save_raw : bool)
        (Hnb : baseline_mean self = None \/ baseline_std self = None) :
  (forall logs m,
      analyze self pid response_iq probe_iq save_raw = (logs, Ok m) ->
      anomaly_score m = 0 /\ is_anomaly m = false
      /\ logs = [mkLog WARNING no_baseline_warning []]
      /\ Py.emitted WARNING logs = true)
  /\ (forall psd pk c,
         _compute_power_spectrum self response_iq = Ok psd ->
         _find_peak self psd = Ok pk ->
         match probe_iq with
         | Some p => _compute_correlation self response_iq p
         | None => Ok 0
         end = Ok c ->
         exists m,
           analyze self pid response_iq probe_iq save_raw
           = ([mkLog WARNING no_baseline_warning []], Ok m)
           /\ power_mean m = np_mean psd
           /\ anomaly_score m = 0 /\ is_anomaly m = false).
Proof.
  assert (Han : match baseline_mean self, baseline_std self with
                | Some _, Some _ => False
                | _, _ => True
                end).
  { destruct Hnb as [E | E]; rewrite E; [exact I |].
    destruct (baseline_mean self); exact I. }
  split.
  - intros logs m. run_analyze.
    destruct (_compute_power_spectrum self response_iq) as [psd | e];
      [| discriminate].
    destruct (_find_peak self psd) as [pk | e]; [| discriminate].
    destruct (baseline_mean self) as [bm |], (baseline_std self) as [bs |];
      try contradiction;
      destruct probe_iq as [p |];
      try destruct (_compute_correlation self response_iq p) as [c | e];
      cbn; intro E; inversion E; subst; cbn; repeat split; reflexivity.
  - intros psd pk c Hpsd Hpk Hc. run_analyze. rewrite Hpsd, Hpk.
    destruct (baseline_mean self) as [bm |], (baseline_std self) as [bs |];
      try contradiction;
      destruct probe_iq as [p |]; rewrite ?Hc; cbn;
      try (injection Hc as <-);
      eexists; repeat split; reflexivity.
Qed.

(** C10.  With a baseline set, every metrics record that [analyze] returns
    has [anomaly_score = (power_mean - mean) / (std + 1e-12)] and
    [is_anomaly] true exactly when [anomaly_score > anomaly_threshold]; a
    score equal to the threshold gives [is_anomaly = False]; nothing is
    logged; and [analyze] does return such a record whenever the spectrum,
    peak and correlation stages complete. *)
Theorem analyze_strict_threshold
        (self : ResponseAnalyzer) (pid : Z) (response_iq : ndarray)
        (probe_iq : option ndarray) (save_raw : bool) (bm bs : float)
        (Hm : baseline_mean self = Some bm) (Hs : baseline_std self = Some bs) :
  (forall logs m,
      analyze self pid response_iq probe_iq save_raw = (logs, Ok m) ->
      anomaly_score m = (power_mean m - bm) / (bs + 1e-12)
      /\ (is_anomaly m = true <-> (anomaly_threshold self <? anomaly_score m) = true)
      /\ (anomaly_score m = anomaly_threshold self -> is_anomaly m = false)
      /\ logs = [])
  /\ (forall psd pk c,
         _compute_power_spectrum self response_iq = Ok psd ->
         _find_peak self psd = Ok pk ->
         match probe_iq with
         | Some p => _compute_correlation self response_iq p
         | None => Ok 0
         end = Ok c ->
         exists m,
           analyze self pid response_iq probe_iq save_raw = ([], Ok m)
           /\ anomaly_score m = (np_mean psd - bm) / (bs + 1e-12)
           /\ is_anomaly m = (anomaly_threshold self <? anomaly_score m)).
Proof.
  split.
  - intros logs m. run_analyze.
    destruct (_compute_power_spectrum self response_iq) as [psd | e];
      [| discriminate].
    destruct (_find_peak self psd) as [pk | e]; [| discriminate].
    rewrite Hm, Hs.
    destruct probe_iq as [p |];
      try destruct (_compute_correlation self response_iq p) as [c | e];
      cbn; intro E; inversion E; subst; cbn;
      (split; [reflexivity |]); (split; [reflexivity |]);
      (split; [| reflexivity]);
      intro Eq; rewrite Eq; apply ltb_irrefl.
  - intros psd pk c Hpsd Hpk Hc. run_analyze. rewrite Hpsd, Hpk, Hm, Hs.
    destruct probe_iq as [p |]; rewrite ?Hc; cbn;
      try (injection Hc as <-);
      eexists; repeat split; reflexivity.
Qed.

End Analyze.

Section AnalyzeExamples.
#[local] Open Scope float_scope.
Import response_analyzer.

(** [analyze_without_baseline] applies to a fresh analyzer and a two-sample
    capture at full scale. *)
Lemma analyze_without_baseline_witness :
  exists m,
    analyze (NL := sample.numlib) sample.fresh_analyzer 0
            (Int8Array [127; 0; 127; 0]%Z) None false
    = ([mkLog WARNING no_baseline_warning []], Ok m)
    /\ power_mean m = np_mean (NumLib := sample.numlib)
                              [PyFloat.sq 1 / 2000000; PyFloat.sq 1 / 2000000]
    /\ anomaly_score m = 0 /\ is_anomaly m = false.
Proof.
  refine (proj2 (analyze_without_baseline (NL := sample.numlib)
                   sample.fresh_analyzer 0 (Int8Array [127; 0; 127; 0]%Z)
                   None false (or_introl eq_refl))
                _ (Some 0, PyFloat.sq 1 / 2000000) 0 _ _ eq_refl).
  - vm_compute. reflexivity.
  - vm_compute. reflexivity.
Defined.

(** [analyze_strict_threshold] at the boundary: baseline mean 0 and a
    standard deviation for which [std + 1e-12] is 1, so the score is the
    mean power itself, and a threshold equal to that power. *)
Lemma analyze_strict_threshold_witness :
  exists m,
    analyze (NL := sample.numlib)
            (init 2000000 (PyFloat.sq 1 / 2000000) (Some 0) (Some 0.999999999999))
            0 (Int8Array [127; 0; 127; 0]%Z) None false = ([], Ok m)
    /\ anomaly_score m = PyFloat.sq 1 / 2000000
    /\ is_anomaly m = false.
Proof.
  destruct (proj2 (analyze_strict_threshold (NL := sample.numlib)
                     (init 2000000 (PyFloat.sq 1 / 2000000) (Some 0)
                           (Some 0.999999999999))
                     0 (Int8Array [127; 0; 127; 0]%Z) None false
                     0 0.999999999999 eq_refl eq_refl)
                  [PyFloat.sq 1 / 2000000; PyFloat.sq 1 / 2000000]
                  (Some 0, PyFloat.sq 1 / 2000000) 0)
    as [m [E [Hs Ha]]].
  - vm_compute. reflexivity.
  - vm_compute. reflexivity.
  - reflexivity.
  - exists m. split; [exact E |].
    assert (Hv : anomaly_score m = PyFloat.sq 1 / 2000000).
    { rewrite Hs. vm_compute. reflexivity. }
    split; [exact Hv |].
    rewrite Ha, Hv. vm_compute. reflexivity.
Defined.

End AnalyzeExamples.

(** ** Correlation with the reference probe *)

Section Correlation.
Context {NL : NumLib}.
#[local] Open Scope float_scope.
Import response_analyzer.

(** [_compute_correlation] on buffers that decode, in one expression. *)
Lemma correlation_value
      (self : ResponseAnalyzer) (response_iq probe_iq : ndarray)
      (rc pc : list complex) :
  to_complex response_iq = Ok rc ->
  to_complex probe_iq = Ok pc ->
  let n := Nat.min (length rc) (length pc) in
  let response_mag := np_abs (firstn n rc) in
  let probe_mag := np_abs (firstn n pc) in
  let r := np_corrcoef01 response_mag probe_mag in
  _compute_correlation self response_iq probe_iq
  = Ok (if (np_std response_mag <? 1e-12) || (np_std probe_mag <? 1e-12)
        then 0
        else if is_nan r then 0 else r).
Proof.
  intros Hr Hp n response_mag probe_mag r.
  unfold _compute_correlation, Py.rbind. rewrite Hr, Hp.
  fold n. fold response_mag. fold probe_mag. fold r.
  destruct ((np_std response_mag <? 1e-12) || (np_std probe_mag <? 1e-12));
    [reflexivity |].
  destruct (is_nan r); reflexivity.
Qed.

(** A value returned by [_compute_correlation] is never NaN. *)
Lemma correlation_never_nan
      (self : ResponseAnalyzer) (response_iq probe_iq : ndarray) (v : float) :
  _compute_correlation self response_iq probe_iq = Ok v -> is_nan v = false.
Proof.
  intro E.
  destruct (to_complex response_iq) as [rc | e] eqn:Hr;
    [| unfold _compute_correlation in E; rewrite Hr in E; discriminate].
  destruct (to_complex probe_iq) as [pc | e] eqn:Hp;
    [| unfold _compute_correlation in E; rewrite Hr, Hp in E; discriminate].
  rewrite (correlation_value self response_iq probe_iq rc pc Hr Hp) in E.
  injection E as <-.
  destruct (_ || _); [reflexivity |].
  destruct (is_nan (np_corrcoef01 _ _)) eqn:En; [reflexivity | exact En].
Qed.

(** Well-formed buffers always get a correlation value. *)
Lemma correlation_total
      (self : ResponseAnalyzer) (response_iq probe_iq : ndarray) :
  interleaved response_iq -> interleaved probe_iq ->
  exists v, _compute_correlation self response_iq probe_iq = Ok v
            /\ is_nan v = false.
Proof.
  intros Wr Wp.
  destruct (to_complex_interleaved response_iq Wr) as [rc Hr].
  destruct (to_complex_interleaved probe_iq Wp) as [pc Hp].
  eexists. split.
  - apply (correlation_value self response_iq probe_iq rc pc Hr Hp).
  - eapply correlation_never_nan.
    apply (correlation_value self response_iq probe_iq rc pc Hr Hp).
Qed.

(** C8.  For buffers that decode to [rc] and [pc], both are cut to the
    shorter length [n], the result is 0 when either magnitude sequence has
    a standard deviation below 1e-12 or the Pearson coefficient is NaN,
    and the Pearson coefficient of the two magnitude sequences otherwise;
    the returned value is never NaN. *)
Theorem correlation_defined
        (self : ResponseAnalyzer) (response_iq probe_iq : ndarray)
        (rc pc : list complex)
        (Hr : to_complex response_iq = Ok rc)
        (Hp : to_complex probe_iq = Ok pc) :
  let n := Nat.min (length rc) (length pc) in
  let response_mag := np_abs (firstn n rc) in
  let probe_mag := np_abs (firstn n pc) in
  let r := np_corrcoef01 response_mag probe_mag in
  (length response_mag = n /\ length probe_mag = n)
  /\ exists v,
      _compute_correlation self response_iq probe_iq = Ok v
      /\ ((np_std response_mag <? 1e-12) = true
          \/ (np_std probe_mag <? 1e-12) = true
          \/ is_nan r = true -> v = 0)
      /\ ((np_std response_mag <? 1e-12) = false ->
          (np_std probe_mag <? 1e-12) = false ->
          is_nan r = false -> v = r)
      /\ is_nan v = false.
Proof.
  intros n response_mag probe_mag r.
  split.
  { unfold response_mag, probe_mag, np_abs.
    rewrite !length_map, !length_firstn. subst n. lia. }
  rewrite (correlation_value self response_iq probe_iq rc pc Hr Hp).
  fold n. fold response_mag. fold probe_mag. fold r.
  eexists. split; [reflexivity |].
  destruct (np_std response_mag <? 1e-12) eqn:E1; cbn [orb].
  { repeat split; try reflexivity; discriminate. }
  destruct (np_std probe_mag <? 1e-12) eqn:E2.
  { repeat split; try reflexivity; discriminate. }
  destruct (is_nan r) eqn:E3.
  - repeat split; try reflexivity; discriminate.
  - repeat split; try assumption; try reflexivity.
    intros [F | [F | F]]; discriminate F.
Qed.

End Correlation.

Section CorrelationExamples.
#[local] Open Scope float_scope.
Import response_analyzer.

(** [correlation_defined] on a three-sample response and a two-sample,
    constant-magnitude probe: both are cut to two samples and the result
    is 0. *)
Lemma correlation_defined_witness :
  exists v,
    _compute_correlation (NL := sample.numlib) sample.fresh_analyzer
                         (Int8Array [127; 0; 3; 4; 0; 0]%Z)
                         (Int8Array [5; 5; 5; 5]%Z) = Ok v
    /\ v = 0 /\ is_nan v = false.
Proof.
  destruct (correlation_defined (NL := sample.numlib) sample.fresh_analyzer
              (Int8Array [127; 0; 3; 4; 0; 0]%Z) (Int8Array [5; 5; 5; 5]%Z)
              _ _ eq_refl eq_refl)
    as [_ [v [E [Hz [_ Hn]]]]].
  exists v. split; [exact E |]. split; [| exact Hn].
  apply Hz. right. left. vm_compute. reflexivity.
Defined.

End CorrelationExamples.

(** ** Baseline calibration *)

Section Calibration.
Context {NL : NumLib}.
#[local] Open Scope float_scope.
Import response_analyzer active_beacon.

Lemma power_samples_pointwise (self : ResponseAnalyzer) (l : list ndarray) :
  forall ps, power_samples_of self l = Ok ps -> Forall2 (mean_psd_of self) l ps.
Proof.
  induction l as [| iq l IH]; intros ps E; cbn in E.
  - injection E as <-. constructor.
  - destruct (_compute_power_spectrum self iq) as [psd | e] eqn:Hpsd;
      cbn in E; [| discriminate].
    destruct (power_samples_of self l) as [rest | e]; cbn in E; [| discriminate].
    injection E as <-. constructor; [| apply IH; reflexivity].
    exists psd. split; [exact Hpsd | reflexivity].
Qed.

(** Conversely, one spectrum per capture makes the loop of [set_baseline]
    return. *)
Lemma power_samples_complete (self : ResponseAnalyzer) (l : list ndarray) :
  forall ps, Forall2 (mean_psd_of self) l ps -> power_samples_of self l = Ok ps.
Proof.
  induction 1 as [| iq p l ps [psd [Hpsd ->]] _ IH]; [reflexivity |].
  cbn [power_samples_of]. rewrite Hpsd, IH. reflexivity.
Qed.

(** An exception of the loop is the exception of some capture's spectrum
    stage. *)
Lemma power_samples_raise (self : ResponseAnalyzer) (l : list ndarray) (e : exn) :
  power_samples_of self l = Raise e ->
  exists cap, In cap l /\ _compute_power_spectrum self cap = Raise e.
Proof.
  induction l as [| iq l IH]; cbn [power_samples_of]; [discriminate |].
  destruct (_compute_power_spectrum self iq) as [psd | e'] eqn:Hpsd;
    cbn [Py.rbind].
  - destruct (power_samples_of self l) as [rest | e'']; cbn [Py.rbind];
      [discriminate |].
    intro E. injection E as ->. destruct (IH eq_refl) as [cap [Hin Hc]].
    exists cap. split; [right; exact Hin | exact Hc].
  - intro E. injection E as ->. exists iq. split; [left; reflexivity | exact Hpsd].
Qed.

(** The capture loop never raises and collects the successful captures in
    order. *)
Lemma capture_loop_outcome (mon : Monitor) (n : Z) (idxs : list nat) :
  Py.outcome (capture_loop mon n idxs)
  = Ok (flat_map (fun i => match captured mon i with
                           | Some d => [Int8Array d]
                           | None => []
                           end) idxs).
Proof.
  induction idxs as [| i idxs IH]; [reflexivity |].
  cbn [capture_loop flat_map].
  destruct (capture_loop mon n idxs) as [l r]. cbn in IH. subst r.
  destruct (captured mon i); reflexivity.
Qed.

Lemma np_std_not_negative (xs : list float) : (np_std xs <? 0) = false.
Proof. apply sqrt_not_negative. Qed.

Lemma np_std_nonneg (xs : list float) :
  is_nan (np_std xs) = false -> (0 <=? np_std xs) = true.
Proof. apply sqrt_nonneg. Qed.

(** C3 as stated fails.  Two captures of five bytes each do not decode:
    [capture_baseline] raises [ValueError] instead of succeeding.  Two empty
    captures calibrate, with a baseline deviation that is NaN and therefore
    not [>= 0]. *)
Lemma calibration_two_captures_not_enough :
  snd (capture_baseline (NL := sample.numlib)
         (mkBeacon sample.ism_config_one_baseline sample.library
                   sample.fresh_analyzer
                   (mkMonitor true (fun _ => Some [1; 2; 3; 4; 5]%Z)) [] [])
         2)
  = Raise (ValueError "operands could not be broadcast together")
  /\ exists self' s,
      snd (capture_baseline (NL := sample.numlib)
             (mkBeacon sample.ism_config_one_baseline sample.library
                       sample.fresh_analyzer
                       (mkMonitor true (fun _ => Some [])) [] [])
             2)
      = Ok (true, self')
      /\ baseline_std (response_analyzer self') = Some s
      /\ (0 <=? s) = false.
Proof.
  split; [vm_compute; reflexivity |].
  eexists. eexists. split; [vm_compute; reflexivity |].
  split; [reflexivity |]. vm_compute. reflexivity.
Qed.

(** C3, amended.  With the receiver present: fewer than two successful
    captures (in particular exactly one) make [capture_baseline] return
    [False], leave the analyzer untouched and log the insufficiency at ERROR
    level.  With two or more, it returns exactly when the spectrum stage
    returns for every capture, and then returns [True] with the baseline
    mean set to [np.mean] of the per-capture mean-PSD values and the
    baseline deviation to their [np.std], which is never negative and is
    [>= 0] whenever it is a number; otherwise it raises the exception of a
    capture's spectrum stage. *)
Theorem capture_baseline_calibrates (self : ActiveBeacon) (n_samples : Z)
        (Hav : is_available (monitor self) = true) :
  let caps := valid_captures (monitor self) n_samples in
  let an := response_analyzer self in
  ((length caps < 2)%nat ->
   exists logs,
     capture_baseline self n_samples = (logs, Ok (false, self))
     /\ In (mkLog ERROR "Failed to capture sufficient baseline samples" []) logs)
  /\ ((2 <= length caps)%nat ->
      (forall ps,
          Forall2 (mean_psd_of an) caps ps ->
          exists logs self' s,
            capture_baseline self n_samples = (logs, Ok (true, self'))
            /\ baseline_mean (response_analyzer self') = Some (np_mean ps)
            /\ baseline_std (response_analyzer self') = Some s
            /\ s = np_std ps
            /\ (s <? 0) = false
            /\ (is_nan s = false -> (0 <=? s) = true))
      /\ (forall flag self',
             snd (capture_baseline self n_samples) = Ok (flag, self') ->
             flag = true /\ exists ps, Forall2 (mean_psd_of an) caps ps)
      /\ (forall e,
             snd (capture_baseline self n_samples) = Raise e ->
             exists cap, In cap caps
                         /\ _compute_power_spectrum an cap = Raise e)).
Proof.
  intros caps an.
  pose proof (capture_loop_outcome (monitor self) n_samples
                                   (seq 0 (Z.to_nat n_samples))) as Hloop.
  fold (valid_captures (monitor self) n_samples) in Hloop. fold caps in Hloop.
  unfold capture_baseline. rewrite Hav. cbn [negb].
  destruct (capture_loop (monitor self) n_samples (seq 0 (Z.to_nat n_samples)))
    as [l r].
  cbn in Hloop. subst r.
  unfold Py.log. cbn [Py.bind].
  split.
  - intro Hlt.
    destruct (Nat.leb_spec 2 (length caps)) as [Hge | _]; [lia |].
    cbn. eexists. split; [reflexivity |].
    right. apply in_or_app. right. left. reflexivity.
  - intro Hge.
    destruct (Nat.leb_spec 2 (length caps)) as [_ | Hlt]; [| lia].
    unfold set_baseline, Py.lift. fold an.
    split; [| split].
    + intros ps Hps.
      rewrite (power_samples_complete an caps ps Hps). cbn.
      do 3 eexists. split; [reflexivity |].
      cbn. split; [reflexivity |]. split; [reflexivity |].
      split; [reflexivity |].
      split; [apply np_std_not_negative | apply np_std_nonneg].
    + intros flag self'.
      destruct (power_samples_of an caps) as [ps | e] eqn:Hps; cbn;
        [| discriminate].
      intro E. injection E as <- _. split; [reflexivity |].
      exists ps. apply power_samples_pointwise. exact Hps.
    + intros e.
      destruct (power_samples_of an caps) as [ps | e'] eqn:Hps; cbn;
        [discriminate |].
      intro E. injection E as ->. apply power_samples_raise. exact Hps.
Qed.

End Calibration.

Section CalibrationExamples.
#[local] Open Scope float_scope.
Import response_analyzer active_beacon.

(** [capture_baseline_calibrates] on a receiver with three good captures:
    asking for one capture fails, asking for three calibrates. *)
Lemma capture_baseline_calibrates_witness :
  (exists logs,
      capture_baseline (NL := sample.numlib) sample.beacon 1
      = (logs, Ok (false, sample.beacon))
      /\ In (mkLog ERROR "Failed to capture sufficient baseline samples" []) logs)
  /\ (exists logs self' s,
         capture_baseline (NL := sample.numlib) sample.beacon 3
         = (logs, Ok (true, self'))
         /\ baseline_mean (active_beacon.response_analyzer self') = Some 0.5e-6
         /\ baseline_std (active_beacon.response_analyzer self') = Some s
         /\ (s <? 0) = false).
Proof.
  split.
  - apply (proj1 (capture_baseline_calibrates (NL := sample.numlib)
                    sample.beacon 1 eq_refl)).
    cbv. lia.
  - assert (Hge : (2 <= length (valid_captures (monitor sample.beacon) 3))%nat)
      by (cbv; lia).
    assert (Hps : Forall2 (mean_psd_of (NL := sample.numlib)
                             (active_beacon.response_analyzer sample.beacon))
                          (valid_captures (monitor sample.beacon) 3)
                          [0.5e-6; 0.5e-6; 0.5e-6]).
    { repeat constructor; eexists; (split; [reflexivity |]);
        vm_compute; reflexivity. }
    destruct (proj1 (proj2 (capture_baseline_calibrates (NL := sample.numlib)
                              sample.beacon 3 eq_refl) Hge) _ Hps)
      as [logs [self' [s [E [Hm [Hs [_ [Hneg _]]]]]]]].
    exists logs, self', s. split; [exact E |].
    split; [rewrite Hm; vm_compute; reflexivity |].
    split; assumption.
Defined.

End CalibrationExamples.

(** ** Configuration validation *)

Section Validation.
Context {H : Hlb}.
#[local] Open Scope float_scope.
Import config.

Ltac case_test b :=
  destruct b eqn:?; cbn;
  try (left; split; [reflexivity | eexists; reflexivity]).

(** The three ways [validate] can end. *)
Lemma validate_cases (c : APDConfig) :
  (spec.rates_and_durations_ok c = false
   /\ exists msg, validate c = ([], Raise (ValueError msg)))
  \/ (spec.rates_and_durations_ok c = true /\ spec.licence_gate c = true
      /\ exists msg, validate c = (licence_notice, Raise (RuntimeError msg)))
  \/ (spec.rates_and_durations_ok c = true /\ spec.licence_gate c = false
      /\ validate c = ([], Ok tt)).
Proof.
  unfold validate, spec.rates_and_durations_ok, spec.licence_gate.
  rewrite Z.ltb_antisym.
  case_test (0 <? sprt_alpha c).
  case_test (sprt_alpha c <? 1).
  case_test (0 <? sprt_beta c).
  case_test (sprt_beta c <? 1).
  case_test (1 <=? max_iterations c)%Z.
  case_test (probe_duration c <=? 0).
  case_test (listen_duration c <=? 0).
  destruct (legal_check c); cbn;
    [| right; right; repeat split; reflexivity].
  destruct (abs (carrier_freq c - HYDROGEN_LINE_HZ) <? 1e6); cbn;
    [| right; right; repeat split; reflexivity].
  destruct (require_ham_license_confirm c).
  - right; left. repeat split. eexists; reflexivity.
  - right; right. repeat split; reflexivity.
Qed.

(** C5, amended.  [validate] raises [ValueError] exactly when [sprt_alpha]
    or [sprt_beta] is not inside (0,1), [max_iterations < 1],
    [probe_duration <= 0] or [listen_duration <= 0]; otherwise it raises
    [RuntimeError] exactly when the licence gate fires, and passes
    otherwise.  [baseline_samples] is not examined.  A failed validation
    aborts [ActiveBeacon.__init__] before anything but the printed notice
    has happened. *)
Theorem validate_checks (c : APDConfig) :
  ((exists msg, snd (validate c) = Raise (ValueError msg))
   <-> spec.rates_and_durations_ok c = false)
  /\ ((exists msg, snd (validate c) = Raise (RuntimeError msg))
      <-> spec.rates_and_durations_ok c = true /\ spec.licence_gate c = true)
  /\ (snd (validate c) = Ok tt
      <-> spec.rates_and_durations_ok c = true /\ spec.licence_gate c = false)
  /\ (forall n, validate (with_baseline_samples c n) = validate c)
  /\ (forall verbose mon e,
         snd (validate c) = Raise e ->
         active_beacon.init c verbose mon
         = (map active_beacon.Printed (fst (validate c)), Raise e)).
Proof.
  split; [| split; [| split; [| split]]].
  - destruct (validate_cases c) as [[R [m E]] | [[R [G [m E]]] | [R [G E]]]];
      rewrite E, R; cbn; split;
      try (intros [msg F]; discriminate F); try discriminate;
      intros _; try reflexivity; eexists; reflexivity.
  - destruct (validate_cases c) as [[R [m E]] | [[R [G [m E]]] | [R [G E]]]];
      rewrite E, R, ?G; cbn; split;
      try (intros [msg F]; discriminate F);
      try (intros [F1 F2]; discriminate);
      intros _; try (split; reflexivity); eexists; reflexivity.
  - destruct (validate_cases c) as [[R [m E]] | [[R [G [m E]]] | [R [G E]]]];
      rewrite E, R, ?G; cbn; split;
      try discriminate; try (intros [F1 F2]; discriminate);
      intros _; try (split; reflexivity); reflexivity.
  - intro n. reflexivity.
  - intros verbose mon e E. unfold active_beacon.init.
    destruct (validate c) as [out [u | e']]; cbn in E; [discriminate |].
    injection E as ->. reflexivity.
Qed.

End Validation.

Section ValidationExamples.
#[local] Open Scope float_scope.
Import config.

(** C5 as stated fails in both directions.  A configuration on the ISM band
    that asks for a single baseline capture passes validation; and the
    default configuration, every listed parameter in range, is rejected by
    the licence check. *)
Lemma validate_not_exactly_ranges :
  (spec.out_of_range sample.ism_config_one_baseline = true
   /\ validate (H := sample.hlb) sample.ism_config_one_baseline = ([], Ok tt))
  /\ (spec.out_of_range (default (H := sample.hlb)) = false
      /\ exists msg, snd (validate (H := sample.hlb) (default (H := sample.hlb)))
                     = Raise (RuntimeError msg)).
Proof.
  split; split; try (vm_compute; reflexivity).
  eexists. vm_compute. reflexivity.
Qed.

(** [validate_checks] on the ISM-band configuration: rates and durations
    in range, licence gate closed, so validation passes. *)
Lemma validate_checks_witness :
  snd (validate (H := sample.hlb) sample.ism_config_one_baseline) = Ok tt.
Proof.
  apply (proj2 (proj1 (proj2 (proj2
           (validate_checks (H := sample.hlb) sample.ism_config_one_baseline))))).
  split; vm_compute; reflexivity.
Defined.

End ValidationExamples.

(** ** Probe dispatch *)

Section Dispatch.
Context {NL : NumLib} {H : Hlb}.
Import probe_library.

Lemma lookup_registered (self : ProbeLibrary) (k : ProbeType) :
  lookup (_probe_generators self) k = None <-> k = CUSTOM.
Proof.
  split.
  - destruct k; cbn; intro E; try discriminate E; reflexivity.
  - intros ->. reflexivity.
Qed.

(** C6.  A probe whose kind has no entry in [_probe_generators] makes
    [generate_iq] raise [ValueError]; the only such kind is CUSTOM, so every
    probe built by [custom_probe] is rejected.  Each of the nine standard
    kinds, which are exactly the kinds of the standard library in order,
    occurs as a key exactly once, and [generate_iq] hands such a probe to
    the generator found under its kind. *)
Theorem generate_iq_dispatch (self : ProbeLibrary) :
  (forall probe duration,
      lookup (_probe_generators self) (type probe) = None ->
      generate_iq self probe duration
      = Raise (ValueError ("Unknown probe type: ProbeType."
                           ++ name (type probe))%string))
  /\ (forall k, lookup (_probe_generators self) k = None <-> k = CUSTOM)
  /\ (forall waveform_fn d description kl duration,
         generate_iq self (custom_probe self waveform_fn d description kl) duration
         = Raise (ValueError "Unknown probe type: ProbeType.CUSTOM"))
  /\ (forall k, In k spec.standard_kinds ->
         length (filter (fun e => ProbeType_eqb (fst e) k)
                        (_probe_generators self)) = 1%nat
         /\ exists g,
             lookup (_probe_generators self) k = Some g
             /\ forall probe duration,
                 type probe = k ->
                 generate_iq self probe duration = g duration (parameters probe))
  /\ map type (get_standard_library self) = spec.standard_kinds.
Proof.
  split; [| split; [| split; [| split]]].
  - intros probe duration E. unfold generate_iq. rewrite E. reflexivity.
  - apply lookup_registered.
  - intros. reflexivity.
  - intros k Hk. cbn in Hk.
    repeat (destruct Hk as [<- | Hk];
            [split; [reflexivity |];
             eexists; split; [reflexivity |];
             intros probe duration E; unfold generate_iq; rewrite E;
             reflexivity |]).
    contradiction.
  - reflexivity.
Qed.

Lemma generate_iq_silence (self : ProbeLibrary) (probe : Probe) (duration : float) :
  type probe = SILENCE ->
  generate_iq self probe duration = _silence self duration (parameters probe).
Proof. unfold generate_iq. intros ->. reflexivity. Qed.

End Dispatch.

Section DispatchExamples.
#[local] Open Scope float_scope.
Import probe_library.

(** [generate_iq_dispatch] on a custom probe and on the silence kind. *)
Lemma generate_iq_dispatch_witness :
  generate_iq (NL := sample.numlib) (H := sample.hlb) sample.library
              (custom_probe sample.library "waveform_fn" 1.0 "custom" 1.0) 1.0
  = Raise (ValueError "Unknown probe type: ProbeType.CUSTOM")
  /\ length (filter (fun e => ProbeType_eqb (fst e) SILENCE)
                    (_probe_generators (NL := sample.numlib) (H := sample.hlb)
                                       sample.library)) = 1%nat.
Proof.
  split.
  - apply (proj1 (generate_iq_dispatch (NL := sample.numlib) (H := sample.hlb)
                                       sample.library)).
    reflexivity.
  - apply (proj1 (proj2 (proj2 (proj2
             (generate_iq_dispatch (NL := sample.numlib) (H := sample.hlb)
                                   sample.library)))) SILENCE).
    cbn. tauto.
Defined.

End DispatchExamples.

(** ** The silence probe *)

Section Silence.
Context {NL : NumLib} {H : Hlb}.
#[local] Open Scope float_scope.
Import probe_library hlb_waveforms.

Lemma bounded_zeros (k : nat) : bounded (repeat 0 k) = true.
Proof. induction k as [| k IH]; [reflexivity |]. cbn [repeat bounded forallb].
       fold (bounded (repeat 0 k)). rewrite IH. reflexivity. Qed.

Lemma quantise_zero : quantise 0 = 0%Z.
Proof. reflexivity. Qed.

Lemma interleave_zeros (k : nat) :
  interleave (repeat 0%Z k) (repeat 0%Z k) = repeat 0%Z (2 * k).
Proof.
  induction k as [| k IH]; [reflexivity |].
  replace (2 * S k)%nat with (S (S (2 * k))) by lia.
  cbn [repeat interleave]. rewrite IH. reflexivity.
Qed.

Lemma map_quantise_zeros (k : nat) :
  map quantise (repeat 0 k) = repeat 0%Z k.
Proof.
  induction k as [| k IH]; [reflexivity |].
  cbn [repeat map]. rewrite IH, quantise_zero. reflexivity.
Qed.

Lemma to_iq_int8_zeros (k : nat) :
  to_iq_int8 (repeat 0 k) (repeat 0 k) = Int8Array (repeat 0%Z (2 * k)).
Proof.
  unfold to_iq_int8, fit. rewrite bounded_zeros, map_quantise_zeros.
  rewrite interleave_zeros. reflexivity.
Qed.

(** Whenever the sample count [int(sr * duration)] is a non-negative [n],
    the silence generator returns [2 * n] zero bytes. *)
Lemma silence_zeros (self : ProbeLibrary) (duration : float) (p : params) (n : Z) :
  PyFloat.to_int (PyFloat.of_Z (sr self) * duration) = Ok n ->
  (0 <= n)%Z ->
  _silence self duration p = Ok (Int8Array (repeat 0%Z (2 * Z.to_nat n))).
Proof.
  intros E Hn. unfold _silence.
  rewrite (int_mul_returns _ _ _ E). cbn [Py.rbind]. rewrite E. cbn [Py.rbind].
  unfold np_zeros. destruct (Z.ltb_spec n 0) as [Hlt | _]; [lia |].
  cbn [Py.rbind]. rewrite to_iq_int8_zeros. reflexivity.
Qed.

Lemma sample_count_one_second :
  PyFloat.to_int (PyFloat.of_Z 2000000 * 1.0) = Ok 2000000%Z.
Proof. vm_compute. reflexivity. Qed.

(** C9.  Rendering the silence probe for 1.0 s at 2,000,000 Hz returns an
    int8 buffer of exactly 4,000,000 samples, twice the sample count
    [int(sr * duration) = 2,000,000], every one of them zero. *)
Theorem silence_render :
  exists buf,
    generate_iq sample.library sample.silence_probe 1.0 = Ok (Int8Array buf)
    /\ PyFloat.to_int (PyFloat.of_Z (sr sample.library) * 1.0) = Ok 2000000%Z
    /\ Z.of_nat (length buf) = (2 * 2000000)%Z
    /\ Z.of_nat (length buf) = 4000000%Z
    /\ Forall (fun b => b = 0%Z) buf.
Proof.
  exists (repeat 0%Z (2 * Z.to_nat 2000000)).
  split.
  { rewrite generate_iq_silence by reflexivity.
    apply silence_zeros; [exact sample_count_one_second | lia]. }
  split; [exact sample_count_one_second |].
  rewrite repeat_length.
  split; [lia |]. split; [lia |].
  apply Forall_forall. intros b Hb. apply repeat_spec in Hb. exact Hb.
Qed.

End Silence.

(** ** Wald thresholds *)

Section Wald.
#[local] Open Scope R_scope.
Import sprt.

Lemma ln_neg (x : R) : 0 < x -> x < 1 -> ln x < 0.
Proof. intros H0 H1. rewrite <- ln_1. apply ln_increasing; assumption. Qed.

Lemma ln_pos (x : R) : 1 < x -> 0 < ln x.
Proof. intro H1. rewrite <- ln_1. apply ln_increasing; lra. Qed.

Lemma ln_nonpos (x : R) : 0 < x -> x <= 1 -> ln x <= 0.
Proof.
  intros H0 [Hlt | ->]; [left; apply ln_neg; assumption | rewrite ln_1; lra].
Qed.

Lemma ratio_lt_1 (a b : R) : 0 < b -> (a / b < 1 <-> a < b).
Proof.
  intro Hb. assert (E : a / b * b = a) by (field; lra).
  remember (a / b) as q. split; intro Hlt.
  - rewrite <- E. nra.
  - destruct (Rlt_or_le q 1) as [Hq | Hq]; [exact Hq |]. exfalso. nra.
Qed.

Lemma ratio_gt_1 (a b : R) : 0 < b -> (1 < a / b <-> b < a).
Proof.
  intro Hb. assert (E : a / b * b = a) by (field; lra).
  remember (a / b) as q. split; intro Hlt.
  - rewrite <- E. nra.
  - destruct (Rlt_or_le 1 q) as [Hq | Hq]; [exact Hq |]. exfalso. nra.
Qed.

(** C7 as stated fails: at [alpha = beta = 0.9], both inside (0,1), the
    upper threshold [ln((1 - 0.9) / 0.9) = ln(1/9)] is negative. *)
Lemma wald_upper_negative_at_09 :
  ~ (lower_threshold (9/10) (9/10) < 0 /\ 0 < upper_threshold (9/10) (9/10)).
Proof.
  intros [_ HA]. unfold upper_threshold in HA.
  assert (Hneg : ln ((1 - 9/10) / (9/10)) < 0).
  { apply ln_neg.
    - apply Rdiv_lt_0_compat; lra.
    - apply ratio_lt_1; lra. }
  lra.
Qed.

(** C7, amended.  For [alpha] and [beta] in (0,1), the thresholds satisfy
    [B < 0 < A] exactly when [alpha + beta < 1]. *)
Theorem wald_thresholds_sign (alpha beta : R)
        (Ha : 0 < alpha < 1) (Hb : 0 < beta < 1) :
  alpha + beta < 1
  <-> (lower_threshold alpha beta < 0 /\ 0 < upper_threshold alpha beta).
Proof.
  unfold lower_threshold, upper_threshold. split.
  - intro Hsum. split.
    + apply ln_neg; [apply Rdiv_lt_0_compat; lra | apply ratio_lt_1; lra].
    + apply ln_pos. apply ratio_gt_1; lra.
  - intros [_ HA].
    destruct (Rlt_or_le (alpha + beta) 1) as [Hlt | Hge]; [exact Hlt |].
    exfalso.
    assert (Hle : ln ((1 - beta) / alpha) <= 0).
    { apply ln_nonpos; [apply Rdiv_lt_0_compat; lra |].
      destruct (Rle_or_lt ((1 - beta) / alpha) 1) as [Hok | Hbad]; [exact Hok |].
      exfalso. apply (proj1 (ratio_gt_1 (1 - beta) alpha (proj1 Ha))) in Hbad.
      lra. }
    clear - HA Hle. lra.
Qed.

(** [wald_thresholds_sign] at the default error rates
    [alpha = beta = 0.01]. *)
Lemma wald_thresholds_sign_witness :
  lower_threshold (1/100) (1/100) < 0 /\ 0 < upper_threshold (1/100) (1/100).
Proof.
  assert (Hrate : 0 < 1/100 < 1) by lra.
  apply (proj1 (wald_thresholds_sign (1/100) (1/100) Hrate Hrate)).
  lra.
Defined.

End Wald.

(* ================================================================== *)
(** * Further properties of the sources *)

(** ** NaN in comparisons *)

Section NaNFacts.
#[local] Open Scope float_scope.

Lemma SFeqb_refl (s : spec_float) : s <> S754_nan -> SFeqb s s = true.
Proof.
  unfold SFeqb, SFcompare. destruct s as [sg | sg | | sg m e]; intro Hn.
  - reflexivity.
  - destruct sg; reflexivity.
  - contradiction.
  - destruct sg; rewrite Z.compare_refl, Pos.compare_cont_refl; reflexivity.
Qed.

Lemma is_nan_Prim2SF (x : float) : is_nan x = true -> Prim2SF x = S754_nan.
Proof.
  unfold is_nan. rewrite FloatAxioms.eqb_spec. intro E.
  destruct (Prim2SF x) eqn:Ex; try reflexivity;
    rewrite SFeqb_refl in E; try discriminate E; discriminate.
Qed.

Lemma nan_leb_l (x y : float) : is_nan x = true -> (x <=? y) = false.
Proof.
  intro Hn. rewrite leb_spec, (is_nan_Prim2SF x Hn). reflexivity.
Qed.

Lemma nan_ltb_l (x y : float) : is_nan x = true -> (x <? y) = false.
Proof.
  intro Hn. rewrite ltb_spec, (is_nan_Prim2SF x Hn). reflexivity.
Qed.

Lemma nan_ltb_r (x y : float) : is_nan y = true -> (x <? y) = false.
Proof.
  intro Hn. rewrite ltb_spec, (is_nan_Prim2SF y Hn).
  unfold SFltb, SFcompare. destruct (Prim2SF x); reflexivity.
Qed.

Lemma nan_eqb_l (x y : float) : is_nan x = true -> (x =? y) = false.
Proof.
  intro Hn. rewrite FloatAxioms.eqb_spec, (is_nan_Prim2SF x Hn). reflexivity.
Qed.

Lemma mul_nan_r (x y : float) : is_nan y = true -> Prim2SF (x * y) = S754_nan.
Proof.
  intro Hn. rewrite mul_spec, (is_nan_Prim2SF y Hn).
  unfold SF64mul, SFmul. destruct (Prim2SF x); reflexivity.
Qed.

Lemma to_int_nan (x : float) :
  Prim2SF x = S754_nan ->
  PyFloat.to_int x = Raise (ValueError "cannot convert float NaN to integer").
Proof. intro E. unfold PyFloat.to_int. rewrite E. reflexivity. Qed.

End NaNFacts.

(** ** The int8 range, case by case *)

Section Int8Facts.
#[local] Open Scope float_scope.

Lemma int8_values_complete (z : Z) : int8.in_range z -> In z int8.values.
Proof.
  intros [Hlo Hhi]. unfold int8.values.
  apply in_map_iff. exists (Z.to_nat (z + 128)). split; [lia |].
  apply in_seq. lia.
Qed.

Lemma int8_forall (P : Z -> bool) :
  forallb P int8.values = true -> forall z, int8.in_range z -> P z = true.
Proof.
  intros Hall z Hz. rewrite forallb_forall in Hall.
  apply Hall. apply int8_values_complete. exact Hz.
Qed.

Lemma sample_exact_all :
  forallb (fun i => forallb (int8.sample_exact i) int8.values) int8.values = true.
Proof. vm_compute. reflexivity. Qed.

Lemma scaled_in_range_all : forallb int8.scaled_in_range int8.values = true.
Proof. vm_compute. reflexivity. Qed.

Lemma same_eq (a b : float) : int8.same a b = true -> a = b.
Proof. apply FloatAxioms.Leibniz.eqb_spec. Qed.

Lemma sample_pair (i q : Z) :
  int8.in_range i -> int8.in_range q ->
  int8.sample (PyFloat.of_Z i) (PyFloat.of_Z q) = (PyFloat.of_Z i, PyFloat.of_Z q)
  /\ int8.sample (PyFloat.of_Z i / 127) (PyFloat.of_Z q / 127)
     = (PyFloat.of_Z i / 127, PyFloat.of_Z q / 127).
Proof.
  intros Hi Hq.
  pose proof (int8_forall _ sample_exact_all i Hi) as Hrow. cbv beta in Hrow.
  pose proof (int8_forall _ Hrow q Hq) as Hs.
  unfold int8.sample_exact in Hs.
  apply andb_prop in Hs. destruct Hs as [Hs H4].
  apply andb_prop in Hs. destruct Hs as [Hs H3].
  apply andb_prop in Hs. destruct Hs as [H1 H2].
  apply same_eq in H1, H2, H3, H4.
  split; apply injective_projections; cbn [fst snd]; assumption.
Qed.

End Int8Facts.

(** ** Which int8 buffers decode, and to what *)

Section DecodeMore.
Context {NL : NumLib}.
#[local] Open Scope float_scope.
Import response_analyzer.

Lemma list_pair_ind {A} (P : list A -> Prop) :
  P [] -> (forall x, P [x]) -> (forall x y l, P l -> P (x :: y :: l)) ->
  forall l, P l.
Proof.
  intros H0 H1 H2. fix IH 1. intros [| x [| y l]].
  - exact H0.
  - apply H1.
  - apply H2. apply IH.
Qed.

Lemma stride2_lengths {A} (l : list A) :
  length (stride2 l) = Nat.div2 (S (length l))
  /\ length (stride2 (tl l)) = Nat.div2 (length l).
Proof.
  induction l as [| x | x y l [IH1 IH2]] using list_pair_ind.
  - split; reflexivity.
  - split; reflexivity.
  - split.
    + cbn [stride2 length]. rewrite IH1. reflexivity.
    + cbn [tl]. rewrite stride2_cons. cbn [length]. rewrite IH2. reflexivity.
Qed.

Lemma stride2_Forall {A} (P : A -> Prop) (l : list A) :
  Forall P l -> Forall P (stride2 l) /\ Forall P (stride2 (tl l)).
Proof.
  induction l as [| x | x y l IH] using list_pair_ind; intro Hall.
  - split; constructor.
  - split; [exact Hall | constructor].
  - inversion Hall as [| ? ? Hx Hrest]; subst.
    inversion Hrest as [| ? ? Hy Hl]; subst.
    destruct (IH Hl) as [IH1 IH2].
    split.
    + cbn [stride2]. constructor; assumption.
    + cbn [tl]. rewrite stride2_cons. constructor; assumption.
Qed.

Lemma broadcast2_raises {A B C} (f : A -> B -> C) (xs : list A) (ys : list B) :
  broadcast2 f xs ys = Raise (ValueError "operands could not be broadcast together")
  <-> (length xs <> length ys /\ length xs <> 1 /\ length ys <> 1)%nat.
Proof.
  unfold broadcast2.
  destruct (Nat.eqb_spec (length xs) (length ys)) as [E | N].
  - split; [discriminate | intros [F _]; contradiction].
  - destruct xs as [| x [| x' xs]], ys as [| y [| y' ys]]; cbn [length] in *;
      split; try discriminate; try (intros [_ [F1 F2]]; lia);
      try (intros _; repeat split; lia); try reflexivity;
      try (intros _; reflexivity).
Qed.

Lemma half_lengths (n : nat) :
  (Nat.div2 (S n) <> Nat.div2 n /\ Nat.div2 (S n) <> 1 /\ Nat.div2 n <> 1)%nat
  <-> Nat.odd n = true /\ (5 <= n)%nat.
Proof.
  destruct (Nat.Even_or_Odd n) as [[k Hk] | [k Hk]]; subst n.
  - rewrite Nat.div2_succ_double, Nat.div2_double.
    assert (Ho : Nat.odd (2 * k) = false).
    { rewrite <- Nat.negb_even.
      assert (He : Nat.even (2 * k) = true)
        by (apply Nat.even_spec; exists k; reflexivity).
      rewrite He. reflexivity. }
    rewrite Ho. split; [intros [F _]; contradiction | intros [F _]; discriminate].
  - replace (S (2 * k + 1)) with (2 * (S k))%nat by lia.
    replace (2 * k + 1)%nat with (S (2 * k)) by lia.
    rewrite Nat.div2_double, Nat.div2_succ_double.
    assert (Ho : Nat.odd (S (2 * k)) = true).
    { apply Nat.odd_spec. exists k. lia. }
    rewrite Ho. split; [intros [_ [Ha Hb]]; split; [reflexivity | lia] |].
    intros [_ Hge]. repeat split; lia.
Qed.

(** An int8 buffer is rejected by both decoders, with the broadcasting
    [ValueError], exactly when its length is odd and at least 5; lengths 1
    and 3 slip through numpy's stretching of a length-1 operand.  In
    [_compute_power_spectrum] every other buffer is decoded and handed to
    Welch's estimate. *)
Theorem int8_decode_rejects (self : ResponseAnalyzer) (d : list Z) :
  let i := map (fun z => PyFloat.of_Z z / 127.0) (stride2 d) in
  let q := map (fun z => PyFloat.of_Z z / 127.0) (stride2 (tl d)) in
  let decoded :=
    broadcast2 (fun x c => Cplx.add (Cplx.of_real x) c)
               i (map (fun y => Cplx.mul Cplx.j (Cplx.of_real y)) q) in
  (to_complex (Int8Array d)
   = Raise (ValueError "operands could not be broadcast together")
   <-> Nat.odd (length d) = true /\ (5 <= length d)%nat)
  /\ (decoded = Raise (ValueError "operands could not be broadcast together")
      <-> Nat.odd (length d) = true /\ (5 <= length d)%nat)
  /\ (Nat.odd (length d) = true /\ (5 <= length d)%nat ->
      _compute_power_spectrum self (Int8Array d)
      = Raise (ValueError "operands could not be broadcast together"))
  /\ (~ (Nat.odd (length d) = true /\ (5 <= length d)%nat) ->
      exists c,
        decoded = Ok c
        /\ _compute_power_spectrum self (Int8Array d)
           = signal_welch c (sr self) (Z.min 1024 (Z.of_nat (length c)))).
Proof.
  intros i q decoded.
  destruct (stride2_lengths d) as [La Lb].
  assert (Hdec : decoded
                 = Raise (ValueError "operands could not be broadcast together")
                 <-> Nat.odd (length d) = true /\ (5 <= length d)%nat).
  { unfold decoded, i, q.
    rewrite broadcast2_raises, !length_map, La, Lb. apply half_lengths. }
  split.
  - unfold to_complex. rewrite broadcast2_raises, !length_map, La, Lb.
    apply half_lengths.
  - split; [exact Hdec |]. split.
    + intro Hodd. apply Hdec in Hodd.
      unfold _compute_power_spectrum. fold i. fold q. fold decoded.
      rewrite Hodd. reflexivity.
    + intro Hn.
      assert (Hform : forall e,
                 decoded = Raise e ->
                 decoded
                 = Raise (ValueError "operands could not be broadcast together")).
      { unfold decoded, broadcast2.
        destruct (length i =? length _)%nat; [discriminate |].
        destruct i as [| ? [| ? ?]];
          destruct (map _ q) as [| ? [| ? ?]]; intros e He;
          try discriminate He; reflexivity. }
      unfold _compute_power_spectrum. fold i. fold q. fold decoded.
      destruct decoded as [c | e].
      * exists c. split; reflexivity.
      * exfalso. apply Hn. apply Hdec. exact (Hform e eq_refl).
Qed.

Lemma decode_pairs (scale : Z -> float) (xs ys : list Z) :
  (forall i q, int8.in_range i -> int8.in_range q ->
               int8.sample (scale i) (scale q) = (scale i, scale q)) ->
  Forall int8.in_range xs -> Forall int8.in_range ys ->
  map (fun p => Cplx.add (Cplx.of_real (fst p)) (snd p))
      (combine (map scale xs)
               (map (fun y => Cplx.mul Cplx.j (Cplx.of_real y)) (map scale ys)))
  = combine (map scale xs) (map scale ys).
Proof.
  intros Hs Hx. revert ys.
  induction Hx as [| x xs Hx0 Hx IH]; intros ys Hy; [reflexivity |].
  destruct Hy as [| y ys Hy0 Hy]; [reflexivity |].
  cbn [map combine fst snd]. rewrite IH by exact Hy.
  f_equal. apply (Hs x y Hx0 Hy0).
Qed.

(** On an int8 buffer of even length the decoders lose nothing: sample [k]
    has real part [float(d[2k])] and imaginary part [float(d[2k+1])]
    exactly (divided by 127.0 on the spectrum path), and there are
    [len(d) / 2] samples. *)
Theorem int8_decode_exact (self : ResponseAnalyzer) (d : list Z)
        (Heven : Nat.even (length d) = true)
        (Hrange : Forall int8.in_range d) :
  let i := stride2 d in
  let q := stride2 (tl d) in
  let scaled := fun z => PyFloat.of_Z z / 127.0 in
  to_complex (Int8Array d)
  = Ok (combine (map PyFloat.of_Z i) (map PyFloat.of_Z q))
  /\ _compute_power_spectrum self (Int8Array d)
     = signal_welch (combine (map scaled i) (map scaled q)) (sr self)
                    (Z.min 1024 (Z.of_nat (Nat.div2 (length d))))
  /\ length (combine (map PyFloat.of_Z i) (map PyFloat.of_Z q))
     = Nat.div2 (length d).
Proof.
  cbv zeta.
  destruct (stride2_Forall int8.in_range d Hrange) as [Hi Hq].
  destruct (stride2_lengths d) as [La Lb].
  pose proof (stride2_length_even d Heven) as Hlen.
  assert (Hn : forall f : Z -> float,
             length (combine (map f (stride2 d)) (map f (stride2 (tl d))))
             = Nat.div2 (length d)).
  { intro f. rewrite length_combine, !length_map, Hlen, Lb. lia. }
  split; [| split; [| apply Hn]].
  - unfold to_complex. rewrite broadcast2_same_length
      by (rewrite !length_map; exact Hlen).
    f_equal. apply (decode_pairs PyFloat.of_Z); try assumption.
    intros a b Ha Hb. apply (sample_pair a b Ha Hb).
  - unfold _compute_power_spectrum. rewrite broadcast2_same_length
      by (rewrite !length_map; exact Hlen).
    cbn [Py.rbind].
    rewrite (decode_pairs (fun z => PyFloat.of_Z z / 127.0)); try assumption.
    + rewrite Hn. reflexivity.
    + intros a b Ha Hb. apply (sample_pair a b Ha Hb).
Qed.

(** Scaling by 127.0 does not land in [-1, 1] for every byte: the byte
    -128 becomes -128/127, below -1; every other byte stays in [-1, 1]. *)
Theorem scaled_sample_range (z : Z) (Hz : int8.in_range z) :
  (PyFloat.of_Z (-128) / 127.0 <=? PyFloat.of_Z z / 127.0) = true
  /\ (PyFloat.of_Z z / 127.0 <=? 1) = true
  /\ ((-1 <=? PyFloat.of_Z z / 127.0) = true <-> z <> (-128)%Z).
Proof.
  pose proof (int8_forall _ scaled_in_range_all z Hz) as Hs.
  unfold int8.scaled_in_range in Hs.
  apply andb_prop in Hs. destruct Hs as [Hs H3].
  apply andb_prop in Hs. destruct Hs as [H1 H2].
  split; [exact H1 |]. split; [exact H2 |].
  apply Bool.eqb_prop in H3. rewrite H3.
  destruct (Z.eqb_spec z (-128)); cbn; split; congruence.
Qed.

End DecodeMore.

Section DecodeMoreExamples.
#[local] Open Scope float_scope.
Import response_analyzer.

Lemma int8_decode_rejects_witness :
  to_complex (Int8Array [1; 2; 3; 4; 5; 6; 7]%Z)
  = Raise (ValueError "operands could not be broadcast together").
Proof.
  apply (proj1 (int8_decode_rejects (NL := sample.numlib) sample.fresh_analyzer
                                    [1; 2; 3; 4; 5; 6; 7]%Z)).
  split; [reflexivity | cbn; lia].
Defined.

Lemma int8_decode_exact_witness :
  let d := [127; -128; 0; 5]%Z in
  to_complex (Int8Array d)
  = Ok (combine (map PyFloat.of_Z (stride2 d)) (map PyFloat.of_Z (stride2 (tl d)))).
Proof.
  intro d.
  assert (Hr : Forall int8.in_range d)
    by (repeat constructor; unfold int8.in_range; lia).
  exact (proj1 (int8_decode_exact (NL := sample.numlib) sample.fresh_analyzer
                                  d eq_refl Hr)).
Defined.

Lemma scaled_sample_range_witness :
  (-1 <=? PyFloat.of_Z 127 / 127.0) = true.
Proof.
  assert (Hr : int8.in_range 127) by (unfold int8.in_range; lia).
  apply (proj2 (proj2 (scaled_sample_range 127 Hr))).
  discriminate.
Defined.

End DecodeMoreExamples.

(** ** The peak search, continued *)

Section PeakMore.
Context {NL : NumLib}.
#[local] Open Scope float_scope.
Import response_analyzer.

Lemma argmax_in_range (psd : list float) (idx : nat) :
  np_argmax psd = Ok idx -> (idx < length psd)%nat.
Proof.
  destruct psd as [| x tl]; cbn; [discriminate |].
  intro E. injection E as <-.
  pose proof (argmax_from_lt tl x 0%nat 1%nat ltac:(lia)). lia.
Qed.

(** The first [n] bins of [fftfreq(2 n, d)] are [0, 1, ..., n-1] times the
    bin width. *)
Lemma fftfreq_first_half (n : nat) (d : float) (bins : list float) :
  np_fft_fftfreq (Z.of_nat n * 2) d = Ok bins ->
  firstn n bins
  = map (fun k => PyFloat.of_Z (Z.of_nat k)
                  * (1 / (PyFloat.of_Z (Z.of_nat n * 2) * d)))
        (seq 0 n).
Proof.
  unfold np_fft_fftfreq, PyFloat.truediv.
  destruct (PyFloat.of_Z (Z.of_nat n * 2) * d =? 0); cbn [Py.rbind];
    [discriminate |].
  intro E. injection E as <-.
  assert (HN : ((Z.of_nat n * 2 - 1) / 2 + 1 = Z.of_nat n)%Z).
  { assert (Hq : ((Z.of_nat n * 2 - 1) / 2 = Z.of_nat n - 1)%Z)
      by (symmetry; apply (Z.div_unique _ _ _ 1); lia).
    lia. }
  rewrite HN, Nat2Z.id.
  rewrite firstn_map, firstn_app, length_map, length_seq, Nat.sub_diag.
  cbn [firstn]. rewrite app_nil_r.
  rewrite firstn_all2 by (rewrite length_map, length_seq; lia).
  rewrite map_map. reflexivity.
Qed.

(** What [_find_peak] returned, read back stage by stage. *)
Lemma find_peak_inversion
      (self : ResponseAnalyzer) (psd : list float) (pk : option float * float)
      (Hpk : _find_peak self psd = Ok pk) :
  exists idx,
    np_argmax psd = Ok idx
    /\ (idx < length psd)%nat
    /\ nth_error psd idx = Some (snd pk)
    /\ fst pk
       = Some (PyFloat.of_Z (Z.of_nat idx)
               * (1 / (PyFloat.of_Z (Z.of_nat (length psd) * 2)
                       * PyFloat.int_quotient 1 (sr self)))).
Proof.
  revert Hpk. unfold _find_peak.
  destruct (np_argmax psd) as [idx | e] eqn:Harg; cbn [Py.rbind];
    [| discriminate].
  pose proof (argmax_in_range psd idx Harg) as Hidx.
  destruct (nth_error psd idx) as [p |] eqn:Hnth; cbn [Py.rbind];
    [| discriminate].
  unfold PyFloat.int_truediv.
  destruct (sr self =? 0)%Z; cbn [Py.rbind]; [discriminate |].
  destruct (PyFloat.overflows _); cbn [Py.rbind]; [discriminate |].
  destruct (np_fft_fftfreq (Z.of_nat (length psd) * 2)
                           (PyFloat.int_quotient 1 (sr self)))
    as [bins | e] eqn:Hbins; cbn [Py.rbind]; [| discriminate].
  intro E. injection E as <-. cbn [fst snd].
  exists idx. repeat split; try assumption.
  rewrite (fftfreq_first_half _ _ _ Hbins), length_map, length_seq.
  destruct (Nat.ltb_spec idx (length psd)) as [_ | Hge]; [| lia].
  rewrite nth_error_map, nth_error_seq.
  destruct (Nat.ltb_spec idx (length psd)) as [_ | Hge]; [| lia].
  reflexivity.
Qed.

(** Whenever [_find_peak] returns, the peak frequency is not [None]: the
    peak index [idx] is a valid PSD index, the peak power is the PSD entry
    there, and the frequency is [idx] times the bin width
    [1.0 / (2 n * (1 / sr))]; and the sample rate was not zero. *)
Theorem find_peak_frequency_defined
        (self : ResponseAnalyzer) (psd : list float) (pk : option float * float)
        (Hpk : _find_peak self psd = Ok pk) :
  fst pk <> None
  /\ In (snd pk) psd
  /\ sr self <> 0%Z
  /\ exists idx,
      np_argmax psd = Ok idx
      /\ (idx < length psd)%nat
      /\ nth_error psd idx = Some (snd pk)
      /\ fst pk
         = Some (PyFloat.of_Z (Z.of_nat idx)
                 * (1 / (PyFloat.of_Z (Z.of_nat (length psd) * 2)
                         * PyFloat.int_quotient 1 (sr self)))).
Proof.
  destruct (find_peak_inversion self psd pk Hpk) as [idx [Ha [Hi [Hn Hf]]]].
  split; [rewrite Hf; discriminate |].
  split; [eapply nth_error_In; exact Hn |].
  split.
  - intro Hsr. revert Hpk. unfold _find_peak.
    rewrite Ha. cbn [Py.rbind]. rewrite Hn. cbn [Py.rbind].
    unfold PyFloat.int_truediv. rewrite Hsr. discriminate.
  - exists idx. repeat split; assumption.
Qed.


End PeakMore.

Section PeakMoreExamples.
#[local] Open Scope float_scope.
Import response_analyzer.

Lemma find_peak_frequency_defined_witness :
  exists idx,
    np_argmax [1; 3; 2] = Ok idx
    /\ (idx < 3)%nat
    /\ nth_error [1; 3; 2] idx = Some 3.
Proof.
  destruct (find_peak_frequency_defined sample.fresh_analyzer [1; 3; 2]
              (Some (PyFloat.of_Z 1
                     * (1 / (PyFloat.of_Z 6
                             * PyFloat.int_quotient 1 2000000))), 3))
    as [_ [_ [_ [idx [Ha [Hi [Hn _]]]]]]].
  - vm_compute. reflexivity.
  - exists idx. repeat split; assumption.
Defined.


End PeakMoreExamples.

(** ** What a returned metrics record always satisfies *)

Section MetricsInvariants.
Context {NL : NumLib}.
#[local] Open Scope float_scope.
Import response_analyzer.

Ltac open_analyze :=
  unfold analyze, Py.bind, Py.lift, Py.ret, Py.log; cbn [fst snd app].

(** The fields of a metrics record, read back from the stages that
    produced it. *)
Lemma analyze_inversion
      (self : ResponseAnalyzer) (pid : Z) (response_iq : ndarray)
      (probe_iq : option ndarray) (save_raw : bool)
      (logs : list log_record) (m : ResponseMetrics) :
  analyze self pid response_iq probe_iq save_raw = (logs, Ok m) ->
  exists psd pk c,
    _compute_power_spectrum self response_iq = Ok psd
    /\ _find_peak self psd = Ok pk
    /\ match probe_iq with
       | Some p => _compute_correlation self response_iq p
       | None => Ok 0
       end = Ok c
    /\ probe_id m = pid
    /\ power_mean m = np_mean psd
    /\ power_std m = np_std psd
    /\ peak_freq m = fst pk
    /\ peak_power m = snd pk
    /\ correlation m = c
    /\ raw_iq m = (if save_raw then Some response_iq else None)
    /\ snr_db m = (if 0 <? snd pk / (np_percentile psd 25 + 1e-12)
                   then 10 * np_log10 (snd pk / (np_percentile psd 25 + 1e-12))
                   else neg_infinity)
    /\ logs = match baseline_mean self, baseline_std self with
              | Some _, Some _ => []
              | _, _ => [mkLog WARNING no_baseline_warning []]
              end
    /\ anomaly_score m = match baseline_mean self, baseline_std self with
                         | Some bm, Some bs => (np_mean psd - bm) / (bs + 1e-12)
                         | _, _ => 0
                         end.
Proof.
  open_analyze.
  destruct (_compute_power_spectrum self response_iq) as [psd | e] eqn:Hpsd;
    [| discriminate].
  destruct (_find_peak self psd) as [pk | e] eqn:Hpk; [| discriminate].
  destruct (baseline_mean self) as [bm |], (baseline_std self) as [bs |];
    destruct probe_iq as [p |];
    try destruct (_compute_correlation self response_iq p) as [c | e] eqn:Hc;
    cbn; intro E; inversion E; subst; cbn;
    exists psd, pk; eexists;
    (split; [reflexivity |]); (split; [exact Hpk |]);
    repeat split; try reflexivity; try exact Hc.
Qed.

(** Every metrics record returned by [analyze] echoes the probe index, has
    a correlation that is not NaN (0.0 when no probe was given), a power
    standard deviation that is not negative, a peak frequency that is not
    [None], a peak power taken from the PSD, an SNR that is negative
    infinity unless the peak-to-floor ratio is positive, and keeps the raw
    buffer only on request. *)
Theorem analyze_metrics_invariants
        (self : ResponseAnalyzer) (pid : Z) (response_iq : ndarray)
        (probe_iq : option ndarray) (save_raw : bool)
        (logs : list log_record) (m : ResponseMetrics)
        (Hret : analyze self pid response_iq probe_iq save_raw = (logs, Ok m)) :
  probe_id m = pid
  /\ is_nan (correlation m) = false
  /\ (probe_iq = None -> correlation m = 0)
  /\ (power_std m <? 0) = false
  /\ peak_freq m <> None
  /\ (exists psd, _compute_power_spectrum self response_iq = Ok psd
                  /\ power_mean m = np_mean psd
                  /\ In (peak_power m) psd
                  /\ ((0 <? peak_power m / (np_percentile psd 25 + 1e-12)) = false
                      -> snr_db m = neg_infinity))
  /\ raw_iq m = (if save_raw then Some response_iq else None).
Proof.
  destruct (analyze_inversion _ _ _ _ _ _ _ Hret)
    as [psd [pk [c [Hpsd [Hpk [Hc [Hid [Hmean [Hstd [Hpf [Hpp [Hcorr [Hraw [Hsnr _]]]]]]]]]]]]]].
  destruct (find_peak_inversion self psd pk Hpk)
    as [idx [_ [_ [Hnth Hfreq]]]].
  split; [exact Hid |].
  split.
  { rewrite Hcorr. destruct probe_iq as [p |].
    - apply (correlation_never_nan self response_iq p c Hc).
    - injection Hc as <-. reflexivity. }
  split.
  { intros ->. rewrite Hcorr. injection Hc as <-. reflexivity. }
  split; [rewrite Hstd; apply np_std_not_negative |].
  split; [rewrite Hpf, Hfreq; discriminate |].
  split; [| exact Hraw].
  exists psd. split; [exact Hpsd |]. split; [exact Hmean |].
  split.
  - rewrite Hpp. eapply nth_error_In. exact Hnth.
  - rewrite Hpp. intro Hneg. rewrite Hsnr, Hneg. reflexivity.
Qed.

(** How [analyze] fails.  A response buffer that does not decode, or a PSD
    without a peak, raises with nothing logged; a reference probe that does
    not decode raises after the anomaly step, so without a baseline the
    warning has already been logged. *)
Theorem analyze_failures
        (self : ResponseAnalyzer) (pid : Z) (response_iq : ndarray)
        (probe_iq : option ndarray) (save_raw : bool) (e : exn) :
  (_compute_power_spectrum self response_iq = Raise e ->
   analyze self pid response_iq probe_iq save_raw = ([], Raise e))
  /\ (forall psd,
         _compute_power_spectrum self response_iq = Ok psd ->
         _find_peak self psd = Raise e ->
         analyze self pid response_iq probe_iq save_raw = ([], Raise e))
  /\ (forall psd pk p,
         _compute_power_spectrum self response_iq = Ok psd ->
         _find_peak self psd = Ok pk ->
         probe_iq = Some p ->
         _compute_correlation self response_iq p = Raise e ->
         analyze self pid response_iq probe_iq save_raw
         = (match baseline_mean self, baseline_std self with
            | Some _, Some _ => []
            | _, _ => [mkLog WARNING no_baseline_warning []]
            end, Raise e)).
Proof.
  split; [| split].
  - intro Hpsd. open_analyze. rewrite Hpsd. reflexivity.
  - intros psd Hpsd Hpk. open_analyze. rewrite Hpsd, Hpk. reflexivity.
  - intros psd pk p Hpsd Hpk -> Hc. open_analyze. rewrite Hpsd, Hpk.
    destruct (baseline_mean self), (baseline_std self); rewrite Hc; reflexivity.
Qed.

End MetricsInvariants.

Section MetricsInvariantsExamples.
#[local] Open Scope float_scope.
Import response_analyzer.

Lemma analyze_metrics_invariants_witness :
  exists logs m,
    analyze (NL := sample.numlib) sample.fresh_analyzer 7
            (Int8Array [127; 0; 127; 0]%Z) (Some (Int8Array [5; 5; 5; 5]%Z)) true
    = (logs, Ok m)
    /\ probe_id m = 7%Z
    /\ is_nan (correlation m) = false
    /\ peak_freq m <> None
    /\ raw_iq m = Some (Int8Array [127; 0; 127; 0]%Z).
Proof.
  destruct (analyze (NL := sample.numlib) sample.fresh_analyzer 7
                    (Int8Array [127; 0; 127; 0]%Z)
                    (Some (Int8Array [5; 5; 5; 5]%Z)) true)
    as [logs [m | e]] eqn:E.
  - exists logs, m. split; [reflexivity |].
    destruct (analyze_metrics_invariants (NL := sample.numlib) _ _ _ _ _ _ _ E)
      as [Hid [Hnan [_ [_ [Hpf [_ Hraw]]]]]].
    repeat split; assumption.
  - vm_compute in E. discriminate E.
Defined.

(** A seven-byte reference probe against a good response: the warning is
    logged, then the decode error is raised. *)
Lemma analyze_failures_witness :
  analyze (NL := sample.numlib) sample.fresh_analyzer 0
          (Int8Array [127; 0; 127; 0]%Z)
          (Some (Int8Array [1; 2; 3; 4; 5; 6; 7]%Z)) false
  = ([mkLog WARNING no_baseline_warning []],
     Raise (ValueError "operands could not be broadcast together")).
Proof.
  apply (proj2 (proj2 (analyze_failures (NL := sample.numlib)
                         sample.fresh_analyzer 0 (Int8Array [127; 0; 127; 0]%Z)
                         (Some (Int8Array [1; 2; 3; 4; 5; 6; 7]%Z)) false
                         (ValueError "operands could not be broadcast together")))
               [PyFloat.sq 1 / 2000000; PyFloat.sq 1 / 2000000]
               (Some 0, PyFloat.sq 1 / 2000000)
               (Int8Array [1; 2; 3; 4; 5; 6; 7]%Z)).
  - vm_compute. reflexivity.
  - vm_compute. reflexivity.
  - reflexivity.
  - reflexivity.
Defined.

End MetricsInvariantsExamples.

(** ** Setting the baseline *)

Section BaselineMore.
Context {NL : NumLib}.
#[local] Open Scope float_scope.
Import response_analyzer.

Lemma power_samples_ignore_baseline (a b : ResponseAnalyzer) (l : list ndarray) :
  sr a = sr b -> power_samples_of a l = power_samples_of b l.
Proof.
  intro Hsr. induction l as [| iq l IH]; [reflexivity |].
  cbn [power_samples_of]. rewrite IH.
  unfold _compute_power_spectrum. rewrite Hsr. reflexivity.
Qed.

(** [set_baseline] has no minimum count: for any number of captures, zero
    and one included, it returns exactly when the spectrum stage returns
    for every capture, and then sets both baseline attributes from the
    per-capture mean-PSD values, logs one INFO record and keeps the sample
    rate and threshold.  The previous baseline plays no part in the new
    one.  Otherwise it raises the exception of a capture's spectrum stage,
    with nothing logged. *)
Theorem set_baseline_any_count (self : ResponseAnalyzer) (caps : list ndarray) :
  (forall ps,
      Forall2 (mean_psd_of self) caps ps ->
      length ps = length caps
      /\ set_baseline self caps
         = ([mkLog INFO "Baseline computed: mean={:.3e}, std={:.3e}"
                   [AFloat (np_mean ps); AFloat (np_std ps)]],
            Ok (mkAnalyzer (sr self) (anomaly_threshold self)
                           (Some (np_mean ps)) (Some (np_std ps)))))
  /\ (forall logs self',
         set_baseline self caps = (logs, Ok self') ->
         exists ps, Forall2 (mean_psd_of self) caps ps)
  /\ set_baseline self []
     = ([mkLog INFO "Baseline computed: mean={:.3e}, std={:.3e}"
               [AFloat (np_mean []); AFloat (np_std [])]],
        Ok (mkAnalyzer (sr self) (anomaly_threshold self)
                       (Some (np_mean [])) (Some (np_std []))))
  /\ (forall old_mean old_std,
         set_baseline (mkAnalyzer (sr self) (anomaly_threshold self)
                                  old_mean old_std) caps
         = set_baseline self caps)
  /\ (forall e, power_samples_of self caps = Raise e ->
                set_baseline self caps = ([], Raise e)
                /\ exists cap, In cap caps
                               /\ _compute_power_spectrum self cap = Raise e).
Proof.
  split; [| split; [| split; [| split]]].
  - intros ps Hps. split.
    + symmetry. eapply Forall2_length. exact Hps.
    + unfold set_baseline, Py.lift, Py.bind, Py.log, Py.ret.
      rewrite (power_samples_complete self caps ps Hps). reflexivity.
  - intros logs self'. unfold set_baseline, Py.lift, Py.bind.
    destruct (power_samples_of self caps) as [ps | e] eqn:Hps;
      [| discriminate].
    intros _. exists ps. apply power_samples_pointwise. exact Hps.
  - reflexivity.
  - intros old_mean old_std. unfold set_baseline.
    rewrite (power_samples_ignore_baseline _ self caps) by reflexivity.
    reflexivity.
  - intros e He. split.
    + unfold set_baseline, Py.lift, Py.bind. rewrite He. reflexivity.
    + apply power_samples_raise. exact He.
Qed.

(** With a baseline, [compute_llr_from_metrics] logs nothing, whether it
    returns or raises. *)
Lemma llr_silent (self : ResponseAnalyzer) (metrics : ResponseMetrics)
      (bm bs : float) :
  baseline_mean self = Some bm -> baseline_std self = Some bs ->
  Py.logged (compute_llr_from_metrics self metrics) = [].
Proof.
  intros Hm Hs. unfold compute_llr_from_metrics. rewrite Hm, Hs.
  unfold Py.lift.
  destruct (float_pow bs 2); cbn; [| reflexivity].
  destruct (float_pow _ 2); cbn; [| reflexivity].
  destruct (PyFloat.truediv _ _); reflexivity.
Qed.

(** After a successful [set_baseline] the analyzer is out of degraded
    mode: [analyze] and [compute_llr_from_metrics] log nothing, the anomaly
    score of every returned record is measured against the new baseline, and
    the power spectrum of any buffer is what it was before. *)
Theorem set_baseline_then_analyze
        (self self' : ResponseAnalyzer) (caps : list ndarray)
        (logs : list log_record)
        (Hset : set_baseline self caps = (logs, Ok self')) :
  exists ps,
    power_samples_of self caps = Ok ps
    /\ (forall iq, _compute_power_spectrum self' iq = _compute_power_spectrum self iq)
    /\ (forall pid response_iq probe_iq save_raw logs' m,
           analyze self' pid response_iq probe_iq save_raw = (logs', Ok m) ->
           logs' = []
           /\ anomaly_score m
              = (power_mean m - np_mean ps) / (np_std ps + 1e-12))
    /\ (forall metrics, Py.logged (compute_llr_from_metrics self' metrics) = []).
Proof.
  revert Hset. unfold set_baseline, Py.lift, Py.bind, Py.log, Py.ret.
  destruct (power_samples_of self caps) as [ps | e]; [| discriminate].
  cbn. intro E. injection E as _ <-.
  exists ps. split; [reflexivity |]. split; [reflexivity |]. split.
  - intros pid response_iq probe_iq save_raw logs' m Hret.
    destruct (analyze_inversion _ _ _ _ _ _ _ Hret)
      as [psd [pk [c [_ [_ [_ [_ [Hmean [_ [_ [_ [_ [_ [_ [Hlogs Hscore]]]]]]]]]]]]]]].
    cbn in Hlogs, Hscore. split; [exact Hlogs |].
    rewrite Hscore, Hmean. reflexivity.
  - intro metrics. eapply llr_silent; reflexivity.
Qed.

(** [to_dict] writes nine keys and never the raw buffer.  The peak
    frequency is written as [None] not only when it is missing but also
    when it is zero (a peak in bin 0); a NaN peak frequency is written as
    it is. *)
Theorem to_dict_peak_freq (m : ResponseMetrics) :
  map fst (to_dict m)
  = ["probe_id"; "power_mean"; "power_std"; "snr_db"; "anomaly_score";
     "correlation"; "peak_freq"; "peak_power"; "is_anomaly"]
  /\ jget (to_dict m) "raw_iq" = None
  /\ (jget (to_dict m) "peak_freq" = Some JNone
      <-> peak_freq m = None
          \/ exists v, peak_freq m = Some v /\ (v =? 0) = true)
  /\ (forall v, peak_freq m = Some v -> is_nan v = true ->
                jget (to_dict m) "peak_freq" = Some (JFloat v)).
Proof.
  split; [reflexivity |]. split; [reflexivity |].
  unfold to_dict, jget, truthy_opt. cbn.
  destruct (peak_freq m) as [v |].
  - split.
    + destruct (v =? 0) eqn:Ez; cbn; split.
      * intros _. right. exists v. split; reflexivity || exact Ez.
      * reflexivity.
      * discriminate.
      * intros [F | [w [Ew Hw]]]; [discriminate |].
        injection Ew as <-. rewrite Ez in Hw. discriminate.
    + intros w Ew Hn. injection Ew as <-.
      rewrite (nan_eqb_l v 0 Hn). reflexivity.
  - split.
    + split; [intros _; left; reflexivity | reflexivity].
    + discriminate.
Qed.

End BaselineMore.

Section BaselineMoreExamples.
#[local] Open Scope float_scope.
Import response_analyzer.

(** A single capture is enough for [set_baseline]. *)
Lemma set_baseline_any_count_witness :
  exists ps,
    length ps = 1%nat
    /\ set_baseline (NL := sample.numlib) sample.fresh_analyzer
                    [Int8Array [127; 0]%Z]
       = ([mkLog INFO "Baseline computed: mean={:.3e}, std={:.3e}"
                 [AFloat (np_mean (NumLib := sample.numlib) ps);
                  AFloat (np_std (NL := sample.numlib) ps)]],
          Ok (mkAnalyzer (sr sample.fresh_analyzer)
                         (anomaly_threshold sample.fresh_analyzer)
                         (Some (np_mean (NumLib := sample.numlib) ps))
                         (Some (np_std (NL := sample.numlib) ps)))).
Proof.
  assert (Hps : Forall2 (mean_psd_of (NL := sample.numlib) sample.fresh_analyzer)
                        [Int8Array [127; 0]%Z] [0.5e-6]).
  { repeat constructor. eexists. split; [reflexivity |].
    vm_compute. reflexivity. }
  exists [0.5e-6].
  exact (proj1 (set_baseline_any_count (NL := sample.numlib)
                  sample.fresh_analyzer [Int8Array [127; 0]%Z]) _ Hps).
Defined.

Lemma set_baseline_then_analyze_witness :
  exists logs self' ps,
    set_baseline (NL := sample.numlib) sample.fresh_analyzer
                 [Int8Array [127; 0]%Z; Int8Array [0; 127]%Z]
    = (logs, Ok self')
    /\ power_samples_of (NL := sample.numlib) sample.fresh_analyzer
                        [Int8Array [127; 0]%Z; Int8Array [0; 127]%Z] = Ok ps
    /\ forall metrics,
        Py.logged (compute_llr_from_metrics (NL := sample.numlib) self' metrics)
        = [].
Proof.
  destruct (set_baseline (NL := sample.numlib) sample.fresh_analyzer
                         [Int8Array [127; 0]%Z; Int8Array [0; 127]%Z])
    as [logs [self' | e]] eqn:E.
  - destruct (set_baseline_then_analyze (NL := sample.numlib) _ _ _ _ E)
      as [ps [Hps [_ [_ Hl]]]].
    exists logs, self', ps. split; [reflexivity |]. split; [exact Hps |].
    exact Hl.
  - vm_compute in E. discriminate E.
Defined.

Lemma to_dict_peak_freq_witness :
  jget (to_dict (mkMetrics 0 1 0 0 0 0 (Some 0) 1 false None)) "peak_freq"
  = Some JNone.
Proof.
  apply (proj1 (proj2 (proj2 (to_dict_peak_freq
                                (mkMetrics 0 1 0 0 0 0 (Some 0) 1 false None))))).
  right. exists 0. split; reflexivity.
Defined.

End BaselineMoreExamples.

(** ** Configuration validation, continued *)

Section FiniteFacts.
#[local] Open Scope float_scope.

Lemma sub_nan_l (x y : float) : is_nan x = true -> Prim2SF (x - y) = S754_nan.
Proof.
  intro Hn. rewrite sub_spec, (is_nan_Prim2SF x Hn). reflexivity.
Qed.

Lemma abs_nan (x : float) : Prim2SF x = S754_nan -> is_nan (abs x) = true.
Proof.
  intro E. unfold is_nan. rewrite FloatAxioms.eqb_spec, abs_spec, E. reflexivity.
Qed.

(** A finite float minus itself is plus zero. *)
Lemma sub_diag_finite (x : float) :
  is_finite x = true -> Prim2SF (x - x) = S754_zero false.
Proof.
  unfold is_finite, is_nan, is_infinity.
  rewrite !FloatAxioms.eqb_spec, abs_spec, sub_spec.
  destruct (Prim2SF x) as [sg | sg | | sg m e]; cbn.
  - intros _. destruct sg; reflexivity.
  - destruct sg; discriminate.
  - discriminate.
  - intros _. unfold SF64sub, SFsub. rewrite Z.sub_diag. reflexivity.
Qed.

End FiniteFacts.

Section ValidationMore.
Context {H : Hlb}.
#[local] Open Scope float_scope.
Import config.

(** With either licence switch off, [validate] prints nothing, never
    raises [RuntimeError], and passes exactly when the rates, the iteration
    count and the durations are in range. *)
Theorem validate_licence_switches (c : APDConfig)
        (Hoff : legal_check c = false \/ require_ham_license_confirm c = false) :
  fst (validate c) = []
  /\ (forall msg, snd (validate c) <> Raise (RuntimeError msg))
  /\ (validate c = ([], Ok tt) <-> spec.rates_and_durations_ok c = true).
Proof.
  assert (Hg : spec.licence_gate c = false).
  { unfold spec.licence_gate. destruct Hoff as [E | E]; rewrite E.
    - reflexivity.
    - apply andb_false_r. }
  destruct (validate_cases c) as [[R [m E]] | [[R [G [m E]]] | [R [G E]]]].
  - rewrite E, R. cbn. repeat split; try discriminate.
  - rewrite Hg in G. discriminate G.
  - rewrite E, R. cbn. repeat split; try discriminate; reflexivity.
Qed.

(** The checks run in source order and the first one that fires decides
    the message: a bad [sprt_alpha] is reported whatever else is wrong, a bad
    [sprt_beta] only when [sprt_alpha] is fine, and so on down to
    [listen_duration]. *)
Theorem validate_first_error (c : APDConfig) :
  let alpha_ok := (0 <? sprt_alpha c) && (sprt_alpha c <? 1) in
  let beta_ok := (0 <? sprt_beta c) && (sprt_beta c <? 1) in
  (alpha_ok = false ->
   validate c = ([], Raise (ValueError "sprt_alpha must be in (0,1)")))
  /\ (alpha_ok = true -> beta_ok = false ->
      validate c = ([], Raise (ValueError "sprt_beta must be in (0,1)")))
  /\ (alpha_ok = true -> beta_ok = true -> (max_iterations c < 1)%Z ->
      validate c = ([], Raise (ValueError "max_iterations must be positive")))
  /\ (alpha_ok = true -> beta_ok = true -> (1 <= max_iterations c)%Z ->
      (probe_duration c <=? 0) = true ->
      validate c = ([], Raise (ValueError "probe_duration must be positive")))
  /\ (alpha_ok = true -> beta_ok = true -> (1 <= max_iterations c)%Z ->
      (probe_duration c <=? 0) = false -> (listen_duration c <=? 0) = true ->
      validate c = ([], Raise (ValueError "listen_duration must be positive"))).
Proof.
  cbv zeta. unfold validate.
  repeat split; intros;
    repeat match goal with
           | E : _ = _ |- _ => rewrite E; clear E
           end; cbn [negb];
    try reflexivity;
    destruct (Z.ltb_spec (max_iterations c) 1); try lia; reflexivity.
Qed.

(** NaN is caught for the error rates but not for the durations: a NaN
    [sprt_alpha] raises, while NaN [probe_duration] and [listen_duration]
    pass every range check; and a NaN carrier frequency keeps the licence
    gate from firing. *)
Theorem validate_nan (c : APDConfig) :
  (is_nan (sprt_alpha c) = true ->
   validate c = ([], Raise (ValueError "sprt_alpha must be in (0,1)")))
  /\ (is_nan (probe_duration c) = true -> is_nan (listen_duration c) = true ->
      (0 <? sprt_alpha c) && (sprt_alpha c <? 1) = true ->
      (0 <? sprt_beta c) && (sprt_beta c <? 1) = true ->
      (1 <= max_iterations c)%Z ->
      spec.rates_and_durations_ok c = true
      /\ (spec.licence_gate c = false -> validate c = ([], Ok tt)))
  /\ (is_nan (carrier_freq c) = true -> spec.licence_gate c = false).
Proof.
  split; [| split].
  - intro Hn. unfold validate. rewrite (nan_ltb_r 0 _ Hn). reflexivity.
  - intros Hp Hl Ha Hb Hm.
    assert (Hr : spec.rates_and_durations_ok c = true).
    { unfold spec.rates_and_durations_ok.
      apply andb_prop in Ha. destruct Ha as [Ha1 Ha2].
      apply andb_prop in Hb. destruct Hb as [Hb1 Hb2].
      rewrite Ha1, Ha2, Hb1, Hb2, (nan_leb_l _ 0 Hp), (nan_leb_l _ 0 Hl).
      destruct (Z.leb_spec 1 (max_iterations c)); [reflexivity | lia]. }
    split; [exact Hr |]. intro Hg.
    destruct (validate_cases c) as [[R [m E]] | [[R [G [m E]]] | [R [G E]]]].
    + rewrite Hr in R. discriminate R.
    + rewrite Hg in G. discriminate G.
    + exact E.
  - intro Hn. unfold spec.licence_gate.
    rewrite (nan_ltb_l (abs (carrier_freq c - HYDROGEN_LINE_HZ)) 1e6).
    + rewrite andb_false_r. reflexivity.
    + apply abs_nan. apply sub_nan_l. exact Hn.
Qed.

(** The dataclass defaults never validate: whatever finite value
    [HYDROGEN_LINE_HZ] has, [APDConfig().validate()] prints the licence
    notice and raises [RuntimeError], so [ActiveBeacon(APDConfig())] fails
    before anything else happens. *)
Theorem default_config_rejected
        (Hfin : is_finite HYDROGEN_LINE_HZ = true) :
  validate default
  = (licence_notice,
     Raise (RuntimeError
       "Unlicensed transmission on 1420 MHz is illegal in most jurisdictions."))
  /\ forall verbose mon,
      active_beacon.init default verbose mon
      = (map active_beacon.Printed licence_notice,
         Raise (RuntimeError
           "Unlicensed transmission on 1420 MHz is illegal in most jurisdictions.")).
Proof.
  assert (Hgate : (abs (HYDROGEN_LINE_HZ - HYDROGEN_LINE_HZ) <? 1e6) = true).
  { rewrite ltb_spec, abs_spec, (sub_diag_finite _ Hfin). reflexivity. }
  assert (Hv : validate default
               = (licence_notice,
                  Raise (RuntimeError
                    "Unlicensed transmission on 1420 MHz is illegal in most jurisdictions."))).
  { unfold validate. cbn [sprt_alpha sprt_beta max_iterations probe_duration
                           listen_duration legal_check carrier_freq
                           require_ham_license_confirm default].
    rewrite Hgate. reflexivity. }
  split; [exact Hv |].
  intros verbose mon. unfold active_beacon.init. rewrite Hv. reflexivity.
Qed.

End ValidationMore.

Section ValidationMoreExamples.
#[local] Open Scope float_scope.
Import config.

Lemma validate_licence_switches_witness :
  fst (validate (H := sample.hlb) sample.ism_config_one_baseline) = [].
Proof.
  apply (proj1 (validate_licence_switches (H := sample.hlb)
                  sample.ism_config_one_baseline (or_intror eq_refl))).
Defined.

Lemma validate_first_error_witness :
  validate (H := sample.hlb)
           (mkConfig 0.5 2.0 0 5.0 15.0 10.0 433.92e6 2000000 20 40 2000000
                     0.0 3.0 5 25.0 "./apd_logs" "/tmp/apd_active" None [] true false)
  = ([], Raise (ValueError "sprt_beta must be in (0,1)")).
Proof.
  apply (proj1 (proj2 (validate_first_error (H := sample.hlb) _))).
  - vm_compute. reflexivity.
  - vm_compute. reflexivity.
Defined.

Lemma validate_nan_witness :
  validate (H := sample.hlb)
           (mkConfig 0.01 0.01 50 nan nan 10.0 433.92e6 2000000 20 40 2000000
                     0.0 3.0 5 25.0 "./apd_logs" "/tmp/apd_active" None [] true false)
  = ([], Ok tt).
Proof.
  match goal with |- validate ?cfg = _ => set (c := cfg) end.
  refine (proj2 (proj1 (proj2 (validate_nan (H := sample.hlb) c)) _ _ _ _ _) _).
  - reflexivity.
  - reflexivity.
  - vm_compute. reflexivity.
  - vm_compute. reflexivity.
  - cbn. lia.
  - vm_compute. reflexivity.
Defined.

Lemma default_config_rejected_witness :
  fst (validate (H := sample.hlb) (default (H := sample.hlb))) = licence_notice.
Proof.
  rewrite (proj1 (default_config_rejected (H := sample.hlb) eq_refl)).
  reflexivity.
Defined.

End ValidationMoreExamples.

(** ** Rendered probe buffers *)

Section Rendering.
Context {NL : NumLib} {H : Hlb}.
#[local] Open Scope float_scope.
Import probe_library hlb_waveforms.

Lemma interleave_length (i q : list Z) :
  length (interleave i q) = (2 * Nat.min (length i) (length q))%nat.
Proof.
  revert q. induction i as [| x i IH]; intros [| y q]; cbn [interleave length];
    try reflexivity.
  rewrite IH. cbn [Nat.min]. lia.
Qed.

(** De-interleaving undoes interleaving. *)
Lemma stride2_interleave (i q : list Z) :
  length i = length q ->
  stride2 (interleave i q) = i /\ stride2 (tl (interleave i q)) = q.
Proof.
  revert q. induction i as [| x i IH]; intros [| y q] E; try discriminate E.
  - split; reflexivity.
  - injection E as E. destruct (IH q E) as [IH1 IH2].
    cbn [interleave]. split.
    + cbn [stride2]. rewrite IH1. reflexivity.
    + cbn [tl]. rewrite stride2_cons. rewrite IH2. reflexivity.
Qed.

Lemma quantise_bounds (x : float) : (-127 <= quantise x <= 127)%Z.
Proof. unfold quantise. destruct (PyFloat.to_int (x * 127)); lia. Qed.

Lemma quantise_one : quantise 1 = 127%Z.
Proof. reflexivity. Qed.

Lemma gate_bounded (s : list float) : Forall gate_sample s -> bounded s = true.
Proof.
  induction 1 as [| x s [-> | ->] _ IH]; [reflexivity | |];
    cbn [bounded forallb]; fold (bounded s); rewrite IH; reflexivity.
Qed.

Lemma gate_quantised (s : list float) :
  Forall gate_sample s ->
  Forall (fun z => z = 0%Z \/ z = 127%Z) (map quantise s).
Proof.
  induction 1 as [| x s [-> | ->] _ IH]; cbn [map]; constructor; auto.
Qed.

Lemma zeros_like_quantised (s : list float) :
  map quantise (fit (zeros_like s)) = repeat 0%Z (length s).
Proof.
  unfold zeros_like, fit. rewrite bounded_zeros. apply map_quantise_zeros.
Qed.

(** The buffer made from a gate signal on I and silence on Q. *)
Lemma gate_buffer (s : list float) :
  Forall gate_sample s ->
  exists b,
    to_iq_int8 s (zeros_like s) = Int8Array b
    /\ length b = (2 * length s)%nat
    /\ Forall (fun z => z = 0%Z \/ z = 127%Z) (stride2 b)
    /\ Forall (fun z => z = 0%Z) (stride2 (tl b)).
Proof.
  intro Hs. unfold to_iq_int8. eexists. split; [reflexivity |].
  rewrite zeros_like_quantised. unfold fit. rewrite (gate_bounded s Hs).
  assert (Hl : length (map quantise s) = length (repeat 0%Z (length s)))
    by (rewrite length_map, repeat_length; reflexivity).
  destruct (stride2_interleave _ _ Hl) as [Hi Hq].
  rewrite Hi, Hq, interleave_length, length_map, repeat_length.
  split; [lia |]. split; [apply gate_quantised; exact Hs |].
  apply Forall_forall. intros z Hz. apply repeat_spec in Hz. exact Hz.
Qed.

Lemma slice_assign_length (a : list float) (start stop : Z) (v : float) :
  length (slice_assign a start stop v) = length a.
Proof.
  unfold slice_assign.
  rewrite length_map, length_combine, length_seq. lia.
Qed.

Lemma slice_assign_Forall (P : float -> Prop) (a : list float)
      (start stop : Z) (v : float) :
  P v -> Forall P a -> Forall P (slice_assign a start stop v).
Proof.
  intros Hv Ha. unfold slice_assign. apply Forall_forall.
  intros x Hx. apply in_map_iff in Hx. destruct Hx as [[k y] [<- Hin]].
  cbn [fst snd]. destruct (_ && _); [exact Hv |].
  apply in_combine_r in Hin. rewrite Forall_forall in Ha. apply Ha. exact Hin.
Qed.

Lemma np_zeros_inv (n : Z) (l : list float) :
  np_zeros n = Ok l -> (0 <= n)%Z /\ l = repeat 0 (Z.to_nat n).
Proof.
  unfold np_zeros. destruct (Z.ltb_spec n 0); [discriminate |].
  intro E. injection E as <-. split; [assumption | reflexivity].
Qed.

Lemma zeros_gate (k : nat) : Forall gate_sample (repeat 0 k).
Proof.
  apply Forall_forall. intros x Hx. apply repeat_spec in Hx. left. exact Hx.
Qed.

Lemma int_lt_zero (d : float) : PyFloat.int_lt 0 d = (0 <? d).
Proof.
  unfold PyFloat.int_lt. rewrite ltb_spec, Prim2SF_zero.
  destruct (Prim2SF d) as [sd | sd | | sd m e]; try reflexivity.
  - destruct sd; reflexivity.
  - destruct (Z.leb_spec 0 e) as [He | He].
    + rewrite Z.shiftl_mul_pow2 by exact He.
      assert (Hp : (0 < 2 ^ e)%Z) by (apply Z.pow_pos_nonneg; lia).
      destruct sd; cbn [SFltb SFcompare].
      * apply Z.ltb_ge. nia.
      * apply Z.ltb_lt. nia.
    + rewrite Z.shiftl_0_l. destruct sd; reflexivity.
Qed.

Lemma prime_loop_gate (self : ProbeLibrary) (duration : float) (n : Z)
      (primes : pyval) (remaining : nat) :
  forall idx t s s',
    prime_loop self duration n primes remaining idx t s = Ok s' ->
    Forall gate_sample s ->
    length s' = length s /\ Forall gate_sample s'.
Proof.
  induction remaining as [| remaining IH]; intros idx t s s' E Hs;
    cbn [prime_loop] in E.
  - injection E as <-. split; [reflexivity | exact Hs].
  - destruct (num_lt t duration).
    + repeat match type of E with
             | Py.rbind ?r _ = Ok _ =>
                 destruct r; cbn [Py.rbind] in E; [| discriminate E]
             end.
      apply IH in E.
      * rewrite slice_assign_length in E. exact E.
      * apply slice_assign_Forall; [right; reflexivity | exact Hs].
    + injection E as <-. split; [reflexivity | exact Hs].
Qed.

Lemma fib_loop_gate (self : ProbeLibrary) (duration : float) (n : Z)
      (fib_scaled : list float) :
  forall t s s',
    fib_loop self duration n fib_scaled t s = Ok s' ->
    Forall gate_sample s ->
    length s' = length s /\ Forall gate_sample s'.
Proof.
  induction fib_scaled as [| f rest IH]; intros t s s' E Hs; cbn [fib_loop] in E.
  - injection E as <-. split; [reflexivity | exact Hs].
  - destruct (duration <=? t).
    + injection E as <-. split; [reflexivity | exact Hs].
    + repeat match type of E with
             | Py.rbind ?r _ = Ok _ =>
                 destruct r; cbn [Py.rbind] in E; [| discriminate E]
             end.
      apply IH in E.
      * rewrite slice_assign_length in E. exact E.
      * apply slice_assign_Forall; [right; reflexivity | exact Hs].
Qed.

(** [_prime_sequence], with [primes] read only by the loop
    [while t < duration and idx < len(primes)].  Whenever it returns, the
    buffer has exactly [2 * int(sr * duration)] bytes, every I byte 0 or
    127 and every Q byte 0.  For a sample count [n >= 0]: if [0 < duration]
    fails, or [primes] has length zero (an empty list, string or dict), the
    loop body never runs and the buffer is [2 n] zero bytes, whatever
    [primes] is in the first case; if [0 < duration] holds, an exception of
    [len(primes)] ends the call (a [TypeError] for an int, a bool, a float
    or a function), and a non-empty string raises [TypeError] at
    [p / 10.0]. *)
Theorem prime_sequence_buffer
        (self : ProbeLibrary) (duration : float) (p : params) :
  let primes := get p "primes" (VIntList (firstn 15 PRIMES)) in
  (forall buf, _prime_sequence self duration p = Ok buf ->
     exists n b,
       PyFloat.to_int (PyFloat.of_Z (sr self) * duration) = Ok n
       /\ (0 <= n)%Z
       /\ buf = Int8Array b
       /\ length b = (2 * Z.to_nat n)%nat
       /\ Forall (fun z => z = 0%Z \/ z = 127%Z) (stride2 b)
       /\ Forall (fun z => z = 0%Z) (stride2 (tl b)))
  /\ (forall n,
         PyFloat.to_int (PyFloat.of_Z (sr self) * duration) = Ok n ->
         (0 <= n)%Z ->
         let silent := Ok (Int8Array (repeat 0%Z (2 * Z.to_nat n))) in
         ((0 <? duration) = false -> _prime_sequence self duration p = silent)
         /\ (py_len primes = Ok 0%Z -> _prime_sequence self duration p = silent)
         /\ ((0 <? duration) = true ->
             (forall e, py_len primes = Raise e ->
                        _prime_sequence self duration p = Raise e)
             /\ (forall v,
                    primes = v ->
                    In (type_name v) ["int"; "bool"; "float"; "function"] ->
                    _prime_sequence self duration p
                    = Raise (TypeError ("object of type '" ++ type_name v
                                        ++ "' has no len()")))
             /\ (forall s,
                    primes = VStr s -> s <> "" ->
                    _prime_sequence self duration p
                    = Raise (TypeError
                               "unsupported operand type(s) for /: 'str' and 'float'")))).
Proof.
  intro primes. split.
  - intro buf. unfold _prime_sequence. fold primes.
    destruct (PyFloat.int_mul (sr self) duration) as [x | ex] eqn:Ex;
      cbn [Py.rbind]; [| discriminate].
    rewrite (int_mul_inv _ _ _ Ex).
    destruct (PyFloat.to_int _) as [n | ex] eqn:En; cbn [Py.rbind];
      [| discriminate].
    destruct (np_zeros n) as [z | ex] eqn:Ez; cbn [Py.rbind]; [| discriminate].
    destruct (np_zeros_inv n z Ez) as [Hn ->].
    destruct (prime_pulses self duration n primes _) as [s | ex] eqn:El;
      cbn [Py.rbind]; [| discriminate].
    intro E. injection E as <-.
    assert (Hg : length s = Z.to_nat n /\ Forall gate_sample s).
    { revert El. unfold prime_pulses.
      destruct (num_lt (NInt 0) duration).
      - destruct (py_len primes) as [len | ex]; cbn [Py.rbind];
          [| discriminate].
        intro El.
        destruct (prime_loop_gate _ _ _ _ _ _ _ _ _ El (zeros_gate _))
          as [Hlen Hg].
        rewrite repeat_length in Hlen. split; assumption.
      - intro El. injection El as <-.
        split; [apply repeat_length | apply zeros_gate]. }
    destruct Hg as [Hlen Hg].
    destruct (gate_buffer s Hg) as [b [Hb [Hbl [Hi Hq]]]].
    exists n, b. rewrite Hb, Hbl, Hlen.
    repeat split; assumption.
  - intros n En Hn silent.
    assert (Hpre : forall r,
               prime_pulses self duration n primes (repeat 0 (Z.to_nat n)) = r ->
               _prime_sequence self duration p
               = Py.rbind r (fun signal =>
                   Ok (hlb_waveforms.to_iq_int8 signal (zeros_like signal)))).
    { intros r <-. unfold _prime_sequence. fold primes.
      rewrite (int_mul_returns _ _ _ En). cbn [Py.rbind]. rewrite En.
      cbn [Py.rbind]. unfold np_zeros.
      destruct (Z.ltb_spec n 0); [lia |]. reflexivity. }
    assert (Hsilent : Py.rbind (Ok (repeat 0 (Z.to_nat n)))
                        (fun signal =>
                           Ok (hlb_waveforms.to_iq_int8 signal (zeros_like signal)))
                      = silent).
    { cbn [Py.rbind]. unfold zeros_like, silent.
      rewrite repeat_length, to_iq_int8_zeros. reflexivity. }
    split; [| split].
    + intro Hd. rewrite <- Hsilent. apply Hpre.
      unfold prime_pulses, num_lt. rewrite int_lt_zero, Hd. reflexivity.
    + intro Hlen. rewrite <- Hsilent. apply Hpre.
      unfold prime_pulses. rewrite Hlen. cbn [Py.rbind Z.to_nat prime_loop].
      destruct (num_lt (NInt 0) duration); reflexivity.
    + intro Hd.
      assert (Hlt : num_lt (NInt 0) duration = true)
        by (unfold num_lt; rewrite int_lt_zero; exact Hd).
      split; [| split].
      * intros e He. rewrite (Hpre (Raise e)); [reflexivity |].
        unfold prime_pulses. rewrite Hlt, He. reflexivity.
      * intros v Hv Hin. rewrite (Hpre (Raise (TypeError
            ("object of type '" ++ type_name v ++ "' has no len()"))));
          [reflexivity |].
        unfold prime_pulses. rewrite Hlt, Hv.
        destruct v; cbn [type_name In] in Hin; try reflexivity;
          exfalso; intuition discriminate.
      * intros s Hs Hne.
        rewrite (Hpre (Raise (TypeError
            "unsupported operand type(s) for /: 'str' and 'float'")));
          [reflexivity |].
        unfold prime_pulses. rewrite Hlt, Hs.
        destruct s as [| c s']; [contradiction |].
        cbn [py_len String.length Py.rbind].
        rewrite Nat2Z.id. cbn [prime_loop]. rewrite Hlt. reflexivity.
Qed.

End Rendering.

Section RenderingMore.
Context {NL : NumLib} {H : Hlb}.
#[local] Open Scope float_scope.
Import probe_library hlb_waveforms.

Ltac step_rbind :=
  match goal with
  | |- context [Py.rbind ?r _] =>
      let E := fresh "E" in destruct r eqn:E; cbn [Py.rbind]; try discriminate
  end.

Lemma fibonacci_step (n : nat) :
  fibonacci (S (S n)) = (fibonacci n + fibonacci (S n))%Z.
Proof. reflexivity. Qed.

Lemma fibonacci_pos (n : nat) : (1 <= fibonacci n)%Z.
Proof.
  assert (Hb : (1 <= fibonacci n)%Z /\ (1 <= fibonacci (S n))%Z).
  { induction n as [| n [IH1 IH2]]; [cbn; lia |].
    split; [exact IH2 | rewrite fibonacci_step; lia]. }
  exact (proj1 Hb).
Qed.

Lemma fib_extend_prefix (k : nat) :
  forall m, fib_extend k (map fibonacci (seq 0 (m + 2)))
            = map fibonacci (seq 0 (m + 2 + k)).
Proof.
  induction k as [| k IH]; intro m.
  - rewrite Nat.add_0_r. reflexivity.
  - cbn [fib_extend].
    assert (Hsplit : map fibonacci (seq 0 (m + 2))
                     = map fibonacci (seq 0 m) ++ [fibonacci m; fibonacci (S m)]).
    { replace (m + 2)%nat with (S (S m)) by lia.
      rewrite !seq_S, !map_app. cbn [map Nat.add].
      rewrite <- app_assoc. reflexivity. }
    assert (Hlast : last (map fibonacci (seq 0 (m + 2))) 0%Z = fibonacci (S m)).
    { rewrite Hsplit.
      change [fibonacci m; fibonacci (S m)]
        with ([fibonacci m] ++ [fibonacci (S m)]).
      rewrite app_assoc. apply last_last. }
    assert (Hprev : last (removelast (map fibonacci (seq 0 (m + 2)))) 0%Z
                    = fibonacci m).
    { rewrite Hsplit.
      change [fibonacci m; fibonacci (S m)]
        with ([fibonacci m] ++ [fibonacci (S m)]).
      rewrite app_assoc, removelast_last. apply last_last. }
    rewrite Hlast, Hprev.
    replace (map fibonacci (seq 0 (m + 2)) ++ [(fibonacci (S m) + fibonacci m)%Z])
      with (map fibonacci (seq 0 (S m + 2))).
    + rewrite IH. f_equal. f_equal. lia.
    + replace (S m + 2)%nat with (S (m + 2)) by lia.
      rewrite seq_S, map_app. cbn [map Nat.add]. f_equal. f_equal.
      replace (m + 2)%nat with (S (S m)) by lia.
      rewrite fibonacci_step. lia.
Qed.

Lemma fold_add_lower (l : list Z) :
  Forall (fun z => (1 <= z)%Z) l ->
  forall acc, (acc + Z.of_nat (length l) <= fold_left Z.add l acc)%Z.
Proof.
  induction 1 as [| z l Hz _ IH]; intro acc; cbn [fold_left length]; [lia |].
  specialize (IH (acc + z)%Z). lia.
Qed.

(** The interval list of [_fibonacci_sequence] is the Fibonacci sequence:
    for a [length] parameter [len] it has [max(len, 2)] entries
    1, 1, 2, 3, 5, ..., so its sum is at least 2 and the scaling
    [f / total] never divides by zero.  Whenever the generator returns, the
    buffer has exactly [2 * int(sr * duration)] bytes, in-phase bytes 0 or
    127 and quadrature bytes 0. *)
Theorem fibonacci_sequence_buffer
        (self : ProbeLibrary) (duration : float) (p : params) :
  (forall len : Z,
      let fib := fib_extend (Z.to_nat (len - 2)) [1; 1]%Z in
      fib = map fibonacci (seq 0 (Z.to_nat (len - 2) + 2))
      /\ Z.of_nat (length fib) = Z.max len 2
      /\ (2 <= fold_left Z.add fib 0)%Z)
  /\ (forall buf, _fibonacci_sequence self duration p = Ok buf ->
        exists n b,
          PyFloat.to_int (PyFloat.of_Z (sr self) * duration) = Ok n
          /\ (0 <= n)%Z
          /\ buf = Int8Array b
          /\ length b = (2 * Z.to_nat n)%nat
          /\ Forall (fun z => z = 0%Z \/ z = 127%Z) (stride2 b)
          /\ Forall (fun z => z = 0%Z) (stride2 (tl b))).
Proof.
  split.
  - intro len. cbv zeta.
    pose proof (fib_extend_prefix (Z.to_nat (len - 2)) 0) as Hf.
    change (map fibonacci (seq 0 (0 + 2))) with [1; 1]%Z in Hf.
    replace (0 + 2 + Z.to_nat (len - 2))%nat with (Z.to_nat (len - 2) + 2)%nat
      in Hf by lia.
    rewrite Hf. split; [reflexivity |].
    rewrite length_map, length_seq. split; [lia |].
    assert (Hpos : Forall (fun z => (1 <= z)%Z)
                          (map fibonacci (seq 0 (Z.to_nat (len - 2) + 2)))).
    { apply Forall_forall. intros z Hz. apply in_map_iff in Hz.
      destruct Hz as [k [<- _]]. apply fibonacci_pos. }
    pose proof (fold_add_lower _ Hpos 0%Z) as Hsum.
    rewrite length_map, length_seq in Hsum. lia.
  - intro buf. unfold _fibonacci_sequence.
    step_rbind. step_rbind.
    sample_count n En.
    destruct (np_zeros n) as [z | ex] eqn:Ez; cbn [Py.rbind]; [| discriminate].
    destruct (np_zeros_inv n z Ez) as [Hn ->].
    destruct (fib_loop self duration n _ 0 _) as [s | ex] eqn:El;
      cbn [Py.rbind]; [| discriminate].
    intro Eb. injection Eb as <-.
    destruct (fib_loop_gate _ _ _ _ _ _ _ El (zeros_gate _)) as [Hlen Hg].
    destruct (gate_buffer s Hg) as [b [Hb [Hbl [Hi Hq]]]].
    exists n, b. rewrite Hb, Hbl, Hlen, repeat_length.
    repeat split; assumption.
Qed.

Lemma ones_gate (k : nat) : Forall gate_sample (repeat 1 k).
Proof.
  apply Forall_forall. intros x Hx. apply repeat_spec in Hx. right. exact Hx.
Qed.

(** [_hydrogen_pulse] with a false [pulsed] parameter sends a constant
    carrier: for a sample count [n = int(sr * duration) >= 0] the buffer has
    [2 n] bytes, every in-phase byte 127 and every quadrature byte 0; a
    negative count raises [ValueError]. *)
Theorem hydrogen_pulse_unpulsed
        (self : ProbeLibrary) (duration : float) (p : params) (n : Z)
        (Hoff : truthy (get p "pulsed" (VBool true)) = false)
        (Hn : PyFloat.to_int (PyFloat.of_Z (sr self) * duration) = Ok n) :
  ((0 <= n)%Z ->
   exists b,
     _hydrogen_pulse self duration p = Ok (Int8Array b)
     /\ length b = (2 * Z.to_nat n)%nat
     /\ stride2 b = repeat 127%Z (Z.to_nat n)
     /\ stride2 (tl b) = repeat 0%Z (Z.to_nat n))
  /\ ((n < 0)%Z ->
      _hydrogen_pulse self duration p
      = Raise (ValueError "negative dimensions are not allowed")).
Proof.
  unfold _hydrogen_pulse. sample_count_is Hn. rewrite Hoff.
  cbn [Py.rbind]. unfold np_ones.
  split; intro Hs.
  - destruct (Z.ltb_spec n 0); [lia |]. cbn [Py.rbind].
    unfold to_iq_int8. eexists. split; [reflexivity |].
    rewrite zeros_like_quantised. unfold fit.
    rewrite (gate_bounded _ (ones_gate _)), repeat_length.
    assert (Hq : map quantise (repeat 1 (Z.to_nat n)) = repeat 127%Z (Z.to_nat n)).
    { induction (Z.to_nat n) as [| k IH]; [reflexivity |].
      cbn [repeat map]. rewrite IH, quantise_one. reflexivity. }
    rewrite Hq.
    assert (Hl : length (repeat 127%Z (Z.to_nat n))
                 = length (repeat 0%Z (Z.to_nat n)))
      by (rewrite !repeat_length; reflexivity).
    destruct (stride2_interleave _ _ Hl) as [Hi Hq'].
    rewrite interleave_length, !repeat_length. repeat split; try assumption. lia.
  - destruct (Z.ltb_spec n 0); [reflexivity | lia].
Qed.

(** [_silence] for any sample rate, duration and parameters: a sample
    count [n = int(sr * duration) >= 0] gives [2 n] zero bytes, a negative
    count raises [ValueError], and a NaN duration raises [ValueError] from
    [int()], unless the sample rate is an int beyond the binary64 range,
    whose conversion in [self.sr * duration] raises [OverflowError]
    first. *)
Theorem silence_buffer
        (self : ProbeLibrary) (duration : float) (p : params) :
  (forall n, PyFloat.to_int (PyFloat.of_Z (sr self) * duration) = Ok n ->
             ((0 <= n)%Z ->
              _silence self duration p
              = Ok (Int8Array (repeat 0%Z (2 * Z.to_nat n))))
             /\ ((n < 0)%Z ->
                 _silence self duration p
                 = Raise (ValueError "negative dimensions are not allowed")))
  /\ (is_nan duration = true ->
      _silence self duration p
      = Py.rbind (PyFloat.of_int (sr self))
          (fun _ => Raise (ValueError "cannot convert float NaN to integer"))).
Proof.
  split.
  - intros n En. split; intro Hs.
    + apply silence_zeros; assumption.
    + unfold _silence. sample_count_is En. cbn [Py.rbind]. unfold np_zeros.
      destruct (Z.ltb_spec n 0); [reflexivity | lia].
  - intro Hnan. unfold _silence, PyFloat.int_mul.
    destruct (PyFloat.of_int (sr self)) as [f | e]; cbn [Py.rbind];
      [| reflexivity].
    rewrite (to_int_nan _ (mul_nan_r _ _ Hnan)). reflexivity.
Qed.

(** Which parameters a generator reads.  [_hydrogen_pulse] depends on its
    parameters only through [pulsed] ([duty_cycle] is never used),
    [_frequency_sweep] only through [f_start] and [f_end] ([sweep_type] is
    never used), [_silence] not at all; and when [f_start] and [f_end] are
    both supplied the three sweep generators return the same buffer. *)
Theorem generator_parameters (self : ProbeLibrary) (duration : float)
        (p p' : params) :
  (get p "pulsed" (VBool true) = get p' "pulsed" (VBool true) ->
   _hydrogen_pulse self duration p = _hydrogen_pulse self duration p')
  /\ (get p "f_start" (VInt 1000) = get p' "f_start" (VInt 1000) ->
      get p "f_end" (VInt 10000) = get p' "f_end" (VInt 10000) ->
      _frequency_sweep self duration p = _frequency_sweep self duration p')
  /\ _silence self duration p = _silence self duration p'
  /\ ((forall d1 d2, get p "f_start" d1 = get p "f_start" d2) ->
      (forall d1 d2, get p "f_end" d1 = get p "f_end" d2) ->
      _frequency_sweep self duration p = _chirp_up self duration p
      /\ _chirp_up self duration p = _chirp_down self duration p).
Proof.
  split; [| split; [| split]].
  - intro E. unfold _hydrogen_pulse. rewrite E. reflexivity.
  - intros E1 E2. unfold _frequency_sweep. rewrite E1, E2. reflexivity.
  - reflexivity.
  - intros Hs He. unfold _frequency_sweep, _chirp_up, _chirp_down.
    rewrite (Hs (VInt 1000) (VInt 500)), (He (VInt 10000) (VInt 5000)).
    split; [reflexivity |].
    rewrite (Hs (VInt 500) (VInt 5000)), (He (VInt 5000) (VInt 500)).
    reflexivity.
Qed.

Lemma interleave_Forall (P : Z -> Prop) (i q : list Z) :
  Forall P i -> Forall P q -> Forall P (interleave i q).
Proof.
  intro Hi. revert q. induction Hi as [| x i Hx _ IH]; intros q Hq;
    [constructor |].
  destruct Hq as [| y q Hy Hq]; [constructor |].
  cbn [interleave]. constructor; [exact Hx |]. constructor; [exact Hy |].
  apply IH. exact Hq.
Qed.

Lemma to_iq_int8_shape (i q : list float) :
  exists b, to_iq_int8 i q = Int8Array b
            /\ Nat.even (length b) = true
            /\ Forall (fun z => (-127 <= z <= 127)%Z) b.
Proof.
  unfold to_iq_int8. eexists. split; [reflexivity |]. split.
  - rewrite interleave_length. apply Nat.even_spec. eexists. reflexivity.
  - apply interleave_Forall; apply Forall_forall; intros z Hz;
      apply in_map_iff in Hz; destruct Hz as [x [<- _]]; apply quantise_bounds.
Qed.

(** Every buffer that [generate_iq] returns, for any probe kind, duration
    and parameters, is a whole number of (I, Q) byte pairs with every byte
    in [-127, 127]; so the analyzer's decoders accept it and
    [_compute_correlation] with a well-formed response never raises on a
    rendered probe. *)
Theorem generate_iq_decodable
        (self : ProbeLibrary) (probe : Probe) (duration : float) (buf : ndarray)
        (Hgen : generate_iq self probe duration = Ok buf) :
  (exists b, buf = Int8Array b
             /\ Nat.even (length b) = true
             /\ Forall (fun z => (-127 <= z <= 127)%Z) b)
  /\ interleaved buf
  /\ (exists c, response_analyzer.to_complex buf = Ok c)
  /\ forall (an : response_analyzer.ResponseAnalyzer) (response_iq : ndarray),
      interleaved response_iq ->
      exists v, response_analyzer._compute_correlation an response_iq buf = Ok v.
Proof.
  assert (Hshape : exists b, buf = Int8Array b
                             /\ Nat.even (length b) = true
                             /\ Forall (fun z => (-127 <= z <= 127)%Z) b).
  { revert Hgen. unfold generate_iq.
    destruct (type probe); cbn [lookup _probe_generators find ProbeType_eqb
                                value String.eqb option_map fst snd];
      try discriminate;
      cbn;
      unfold _hydrogen_pulse, _schumann_am, _frequency_sweep, _prime_sequence,
        _fibonacci_sequence, _golden_ratio, _chirp_up, _chirp_down, _silence;
      repeat step_rbind;
      intro Eret; injection Eret as <-; apply to_iq_int8_shape. }
  destruct Hshape as [b [-> [Hev Hr]]].
  assert (Hw : interleaved (Int8Array b)) by exact Hev.
  split; [exists b; repeat split; assumption |].
  split; [exact Hw |].
  split; [apply to_complex_interleaved; exact Hw |].
  intros an response_iq Wr.
  destruct (correlation_total an response_iq (Int8Array b) Wr Hw) as [v [Hv _]].
  exists v. exact Hv.
Qed.

(** In the standard library every [kl_score] is positive and the silence
    probe, last in the list, has a score strictly below every other
    probe's. *)
Theorem standard_library_scores (self : ProbeLibrary) :
  length (get_standard_library self) = 9%nat
  /\ Forall (fun pr => (0 <? kl_score pr) = true) (get_standard_library self)
  /\ Forall (fun pr => type pr = SILENCE
                       \/ (0.1 <? kl_score pr) = true)
            (get_standard_library self)
  /\ (forall pr, In pr (get_standard_library self) ->
                 type pr = SILENCE -> kl_score pr = 0.1).
Proof.
  split; [reflexivity |].
  split; [repeat constructor |].
  split.
  - unfold get_standard_library.
    repeat (constructor; [first [right; reflexivity | left; reflexivity] |]).
    constructor.
  - intros pr Hin Ht. cbn in Hin.
    repeat (destruct Hin as [<- | Hin]; [try discriminate Ht; reflexivity |]).
    contradiction.
Qed.

End RenderingMore.

Section RenderingExamples.
#[local] Open Scope float_scope.
Import probe_library.

Lemma prime_sequence_buffer_witness :
  _prime_sequence (H := sample.hlb) sample.slow_library 2.0
                  [("primes", VStr "")]
  = Ok (Int8Array (repeat 0%Z (2 * Z.to_nat 8))).
Proof.
  refine (proj1 (proj2 (proj2 (prime_sequence_buffer (H := sample.hlb)
                                 sample.slow_library 2.0 [("primes", VStr "")])
                              8%Z _ _)) _).
  - vm_compute. reflexivity.
  - lia.
  - reflexivity.
Defined.

Lemma fibonacci_sequence_buffer_witness :
  exists n b,
    _fibonacci_sequence sample.slow_library 2.0 [("length", VInt 4)]
    = Ok (Int8Array b)
    /\ (0 <= n)%Z
    /\ length b = (2 * Z.to_nat n)%nat
    /\ Forall (fun z => z = 0%Z \/ z = 127%Z) (stride2 b).
Proof.
  destruct (_fibonacci_sequence sample.slow_library 2.0 [("length", VInt 4)])
    as [buf | e] eqn:E.
  - destruct (proj2 (fibonacci_sequence_buffer sample.slow_library 2.0
                       [("length", VInt 4)]) buf E)
      as [n [b [_ [Hn [-> [Hl [Hi _]]]]]]].
    exists n, b. repeat split; assumption.
  - vm_compute in E. discriminate E.
Defined.

Lemma hydrogen_pulse_unpulsed_witness :
  exists b,
    _hydrogen_pulse (H := sample.hlb) sample.slow_library 2.0
                    [("pulsed", VBool false)] = Ok (Int8Array b)
    /\ stride2 b = repeat 127%Z (Z.to_nat 8).
Proof.
  assert (Hn : PyFloat.to_int (PyFloat.of_Z (sr sample.slow_library) * 2.0)
               = Ok 8%Z) by (vm_compute; reflexivity).
  destruct (proj1 (hydrogen_pulse_unpulsed (H := sample.hlb) sample.slow_library
                     2.0 [("pulsed", VBool false)] 8%Z eq_refl Hn))
    as [b [Hb [_ [Hi _]]]]; [lia |].
  exists b. split; assumption.
Defined.

Lemma silence_buffer_witness :
  _silence sample.slow_library (-1.0) []
  = Raise (ValueError "negative dimensions are not allowed").
Proof.
  refine (proj2 (proj1 (silence_buffer sample.slow_library (-1.0) [])
                       (-4)%Z _) _).
  - vm_compute. reflexivity.
  - lia.
Defined.

Lemma generator_parameters_witness :
  _hydrogen_pulse (H := sample.hlb) sample.slow_library 2.0
                  [("duty_cycle", VFloat 0.9)]
  = _hydrogen_pulse (H := sample.hlb) sample.slow_library 2.0 [].
Proof.
  apply (proj1 (generator_parameters (H := sample.hlb)
                  sample.slow_library 2.0 [("duty_cycle", VFloat 0.9)] [])).
  reflexivity.
Defined.

Lemma generate_iq_decodable_witness :
  exists b,
    generate_iq (NL := sample.numlib) (H := sample.hlb) sample.slow_library
                sample.silence_probe 1.0 = Ok (Int8Array b)
    /\ Nat.even (length b) = true.
Proof.
  destruct (generate_iq (NL := sample.numlib) (H := sample.hlb)
                        sample.slow_library sample.silence_probe 1.0)
    as [buf | e] eqn:E.
  - destruct (proj1 (generate_iq_decodable (NL := sample.numlib)
                       (H := sample.hlb) _ _ _ _ E)) as [b [-> [Hev _]]].
    exists b. split; [reflexivity | exact Hev].
  - vm_compute in E. discriminate E.
Defined.

Lemma standard_library_scores_witness :
  kl_score sample.silence_probe = 0.1.
Proof.
  apply (proj2 (proj2 (proj2 (standard_library_scores (H := sample.hlb)
                                sample.library)))).
  - cbn. do 8 right. left. reflexivity.
  - reflexivity.
Defined.

End RenderingExamples.

(* ================================================================== *)
(** ** The session: construction, hardware check, baseline and loop *)

Section MonadFacts.

Lemma snd_bind {A B} (m : M A) (k : A -> M B) :
  snd (Py.bind m k) = Py.rbind (snd m) (fun a => snd (k a)).
Proof.
  destruct m as [l [a | e]]; cbn; [| reflexivity].
  destruct (k a); reflexivity.
Qed.

Lemma fst_bind {A B} (m : M A) (k : A -> M B) :
  fst (Py.bind m k)
  = fst m ++ match snd m with
             | Ok a => fst (k a)
             | Raise _ => []
             end.
Proof.
  destruct m as [l [a | e]]; cbn.
  - destruct (k a); reflexivity.
  - rewrite app_nil_r. reflexivity.
Qed.

End MonadFacts.

Section Baseline.
Context {NL : NumLib}.
#[local] Open Scope float_scope.
Import response_analyzer active_beacon.

Lemma valid_captures_length (mon : Monitor) (idxs : list nat) :
  (length (flat_map (fun i => match captured mon i with
                              | Some d => [Int8Array d]
                              | None => []
                              end) idxs) <= length idxs)%nat.
Proof.
  induction idxs as [| i idxs IH]; [apply Nat.le_refl |].
  cbn [flat_map]. rewrite length_app. cbn [length].
  destruct (captured mon i); cbn [length]; lia.
Qed.

Lemma set_baseline_outcome (self : ResponseAnalyzer) (caps : list ndarray) :
  snd (set_baseline self caps)
  = Py.rbind (power_samples_of self caps)
             (fun ps => Ok (mkAnalyzer (sr self) (anomaly_threshold self)
                                       (Some (np_mean ps)) (Some (np_std ps)))).
Proof.
  unfold set_baseline, Py.lift.
  destruct (power_samples_of self caps); reflexivity.
Qed.

Lemma valid_captures_bound (mon : Monitor) (n_samples : Z) :
  (length (valid_captures mon n_samples) <= Z.to_nat n_samples)%nat.
Proof.
  unfold valid_captures.
  etransitivity; [apply valid_captures_length |].
  rewrite length_seq. apply Nat.le_refl.
Qed.

(** The outcome of [capture_baseline] in terms of the successful
    captures. *)
Lemma capture_baseline_outcome (self : ActiveBeacon) (n_samples : Z) :
  let caps := valid_captures (monitor self) n_samples in
  snd (capture_baseline self n_samples)
  = if negb (is_available (monitor self)) then Ok (false, self)
    else if (2 <=? length caps)%nat
         then Py.rbind (snd (set_baseline (response_analyzer self) caps))
                (fun an => Ok (true,
                               mkBeacon (cfg self) (probe_lib self) an
                                        (monitor self) (probes self)
                                        (history self)))
         else Ok (false, self).
Proof.
  intro caps.
  unfold capture_baseline. rewrite snd_bind. cbn [Py.log snd Py.rbind].
  destruct (is_available (monitor self)); cbn [negb]; [| reflexivity].
  rewrite snd_bind.
  pose proof (capture_loop_outcome (monitor self) n_samples
                                   (seq 0 (Z.to_nat n_samples))) as Hloop.
  unfold Py.outcome in Hloop. rewrite Hloop.
  fold (valid_captures (monitor self) n_samples). fold caps.
  cbn [Py.rbind].
  destruct (2 <=? length caps)%nat; [| reflexivity].
  rewrite snd_bind.
  destruct (snd (set_baseline (response_analyzer self) caps)); reflexivity.
Qed.

(** What [capture_baseline] leaves behind, read off its outcome.  The
    number of successful captures never exceeds [n_samples].  A returned
    flag comes with the configuration, the probe library, the receiver, the
    catalog, the history, the analyzer's sample rate and its threshold
    unchanged; [False] leaves the whole beacon as it was and means that the
    receiver was absent or fewer than two captures succeeded; [True] means
    that the receiver was present, at least two captures succeeded (so
    [n_samples >= 2]) and both baseline attributes are now set, the
    deviation not negative.  An exception can only come from
    [set_baseline], after at least two captures, and is the exception of
    some capture's spectrum stage.  With the receiver absent exactly two
    records are logged and no capture is attempted. *)
Theorem capture_baseline_frame (self : ActiveBeacon) (n_samples : Z) :
  let caps := valid_captures (monitor self) n_samples in
  (length caps <= Z.to_nat n_samples)%nat
  /\ (forall flag self',
         snd (capture_baseline self n_samples) = Ok (flag, self') ->
         cfg self' = cfg self /\ probe_lib self' = probe_lib self
         /\ monitor self' = monitor self /\ probes self' = probes self
         /\ history self' = history self
         /\ sr (response_analyzer self') = sr (response_analyzer self)
         /\ anomaly_threshold (response_analyzer self')
            = anomaly_threshold (response_analyzer self)
         /\ (flag = false ->
             self' = self
             /\ (is_available (monitor self) = false \/ (length caps < 2)%nat))
         /\ (flag = true ->
             is_available (monitor self) = true
             /\ (2 <= length caps)%nat /\ (2 <= n_samples)%Z
             /\ exists bm bs,
                 baseline_mean (response_analyzer self') = Some bm
                 /\ baseline_std (response_analyzer self') = Some bs
                 /\ (bs <? 0) = false))
  /\ (forall e,
         snd (capture_baseline self n_samples) = Raise e ->
         is_available (monitor self) = true
         /\ (2 <= length caps)%nat
         /\ snd (set_baseline (response_analyzer self) caps) = Raise e
         /\ exists cap,
             In cap caps
             /\ _compute_power_spectrum (response_analyzer self) cap = Raise e)
  /\ (is_available (monitor self) = false ->
      capture_baseline self n_samples
      = ([mkLog INFO "Capturing baseline ({} samples)..." [AInt n_samples];
          mkLog ERROR "RTL-SDR not available. Cannot capture baseline." []],
         Ok (false, self))).
Proof.
  intro caps.
  pose proof (valid_captures_bound (monitor self) n_samples) as Hlen.
  fold caps in Hlen.
  pose proof (capture_baseline_outcome self n_samples) as Hout.
  cbv zeta in Hout. fold caps in Hout.
  split; [exact Hlen |].
  split; [| split].
  - intros flag self' E. rewrite Hout in E.
    destruct (is_available (monitor self)) eqn:Hav; cbn [negb] in E.
    + destruct (Nat.leb_spec 2 (length caps)) as [Hge | Hlt].
      * rewrite set_baseline_outcome in E.
        destruct (power_samples_of (response_analyzer self) caps) as [ps | e];
          cbn [Py.rbind] in E; [| discriminate].
        injection E as <- <-.
        cbn [cfg probe_lib monitor probes history active_beacon.response_analyzer
             sr anomaly_threshold baseline_mean baseline_std].
        do 7 (split; [reflexivity |]).
        split; [discriminate |].
        intros _. split; [reflexivity |]. split; [exact Hge |].
        split; [lia |].
        exists (np_mean ps), (np_std ps).
        split; [reflexivity |]. split; [reflexivity |].
        apply np_std_not_negative.
      * injection E as <- <-.
        do 7 (split; [reflexivity |]).
        split; [| discriminate].
        intros _. split; [reflexivity |]. right. exact Hlt.
    + injection E as <- <-.
      do 7 (split; [reflexivity |]).
      split; [| discriminate].
      intros _. split; [reflexivity |]. left. reflexivity.
  - intros e E. rewrite Hout in E.
    destruct (is_available (monitor self)); cbn [negb] in E; [| discriminate].
    destruct (Nat.leb_spec 2 (length caps)) as [Hge | Hlt]; [| discriminate].
    destruct (snd (set_baseline (response_analyzer self) caps)) as [an | e']
      eqn:Hs; cbn [Py.rbind] in E; [discriminate |].
    injection E as ->.
    repeat split; try assumption.
    rewrite set_baseline_outcome in Hs.
    destruct (power_samples_of (response_analyzer self) caps) as [ps | e']
      eqn:Hps; cbn [Py.rbind] in Hs; [discriminate |].
    injection Hs as ->. apply power_samples_raise. exact Hps.
  - intro Hav. unfold capture_baseline. rewrite Hav. reflexivity.
Qed.

(** The records of the capture loop: one INFO record per attempt, followed
    by a WARNING record when the attempt failed. *)
Lemma capture_loop_logged (mon : Monitor) (n : Z) (idxs : list nat) :
  fst (capture_loop mon n idxs)
  = flat_map (fun i =>
                mkLog INFO "  Baseline sample {}/{}"
                      [AInt (Z.of_nat i + 1); AInt n]
                :: match captured mon i with
                   | Some _ => []
                   | None => [mkLog WARNING "  Failed to capture baseline sample {}"
                                    [AInt (Z.of_nat i + 1)]]
                   end) idxs.
Proof.
  induction idxs as [| i idxs IH]; [reflexivity |].
  cbn [capture_loop flat_map].
  rewrite fst_bind. cbn [Py.log fst snd].
  rewrite fst_bind.
  destruct (captured mon i) as [d |].
  - cbn [Py.ret fst snd app]. rewrite fst_bind.
    pose proof (capture_loop_outcome mon n idxs) as Ho. unfold Py.outcome in Ho.
    rewrite Ho. cbn [Py.ret fst]. rewrite app_nil_r, IH. reflexivity.
  - cbn [Py.bind Py.log Py.ret fst snd app]. rewrite fst_bind.
    pose proof (capture_loop_outcome mon n idxs) as Ho. unfold Py.outcome in Ho.
    rewrite Ho. cbn [Py.ret fst]. rewrite app_nil_r, IH. reflexivity.
Qed.

Lemma capture_loop_counts (mon : Monitor) (n : Z) (idxs : list nat) :
  let logs := fst (capture_loop mon n idxs) in
  length (filter (fun r => level_eqb (lvl r) INFO) logs) = length idxs
  /\ (length (filter (fun r => level_eqb (lvl r) WARNING) logs)
      + length (flat_map (fun i => match captured mon i with
                                   | Some d => [Int8Array d]
                                   | None => []
                                   end) idxs)
      = length idxs)%nat
  /\ filter (fun r => level_eqb (lvl r) ERROR) logs = [].
Proof.
  cbv zeta. rewrite capture_loop_logged.
  induction idxs as [| i idxs [IH1 [IH2 IH3]]]; [repeat split |].
  cbn [flat_map]. rewrite !filter_app, !length_app.
  destruct (captured mon i); cbn [filter level_eqb lvl length app];
    rewrite ?IH3; repeat split; lia.
Qed.

(** The log of [capture_baseline] with the receiver present, whatever the
    outcome: it opens with the announcement, holds one INFO record per
    attempt plus at most two closing ones, one WARNING record for each
    attempt that failed, so WARNING records and successful captures add up
    to the number of attempts, and a single ERROR record exactly when fewer
    than two captures succeeded. *)
Theorem capture_baseline_log (self : ActiveBeacon) (n_samples : Z)
        (Hav : is_available (monitor self) = true) :
  let logs := fst (capture_baseline self n_samples) in
  let caps := valid_captures (monitor self) n_samples in
  let count lv := length (filter (fun r => level_eqb (lvl r) lv) logs) in
  hd_error logs
  = Some (mkLog INFO "Capturing baseline ({} samples)..." [AInt n_samples])
  /\ (count WARNING + length caps = Z.to_nat n_samples)%nat
  /\ (1 + Z.to_nat n_samples <= count INFO <= 3 + Z.to_nat n_samples)%nat
  /\ count ERROR = (if (2 <=? length caps)%nat then 0 else 1)%nat
  /\ (forall r, In r logs -> lvl r = ERROR ->
                r = mkLog ERROR "Failed to capture sufficient baseline samples" []).
Proof.
  cbv zeta.
  pose proof (capture_loop_counts (monitor self) n_samples
                                  (seq 0 (Z.to_nat n_samples))) as Hc.
  cbv zeta in Hc. rewrite length_seq in Hc.
  fold (valid_captures (monitor self) n_samples) in Hc.
  destruct Hc as [Hi [Hw He]].
  pose proof (capture_loop_outcome (monitor self) n_samples
                                   (seq 0 (Z.to_nat n_samples))) as Ho.
  unfold Py.outcome in Ho.
  fold (valid_captures (monitor self) n_samples) in Ho.
  set (caps := valid_captures (monitor self) n_samples) in *.
  set (loop := capture_loop (monitor self) n_samples
                            (seq 0 (Z.to_nat n_samples))) in *.
  assert (Hlogs : exists tail,
             fst (capture_baseline self n_samples)
             = mkLog INFO "Capturing baseline ({} samples)..." [AInt n_samples]
               :: fst loop ++ tail
             /\ (if (2 <=? length caps)%nat
                 then Forall (fun r => lvl r = INFO) tail
                      /\ (length tail <= 2)%nat
                 else tail = [mkLog ERROR
                                "Failed to capture sufficient baseline samples" []])).
  { unfold capture_baseline. rewrite Hav. cbn [negb].
    rewrite fst_bind. cbn [Py.log fst snd app]. fold loop.
    rewrite fst_bind, Ho.
    destruct (2 <=? length caps)%nat.
    - rewrite fst_bind.
      unfold set_baseline at 1 2. unfold Py.lift.
      destruct (power_samples_of (response_analyzer self) caps) as [ps | e].
      + eexists. split; [cbn; reflexivity |]. cbn.
        split; [repeat constructor | lia].
      + eexists. split; [cbn; reflexivity |]. cbn. split; [constructor | lia].
    - eexists. split; [cbn; reflexivity |]. reflexivity. }
  destruct Hlogs as [tail [-> Htail]].
  cbn [hd_error filter level_eqb lvl length].
  rewrite !filter_app, !length_app, He, Hi.
  split; [reflexivity |].
  destruct (2 <=? length caps)%nat.
  - destruct Htail as [Hinfo Hl2].
    assert (Hf : forall lv, lv <> INFO ->
                            filter (fun r => level_eqb (lvl r) lv) tail = []).
    { intros lv Hlv. clear Hl2. induction Hinfo as [| r t Hr _ IH];
        [reflexivity |].
      cbn [filter]. rewrite Hr, IH. destruct lv; [congruence | |]; reflexivity. }
    assert (Hle : (length (filter (fun r => level_eqb (lvl r) INFO) tail) <= 2)%nat).
    { etransitivity; [apply filter_length_le | exact Hl2]. }
    rewrite (Hf WARNING), (Hf ERROR) by discriminate. cbn [length app].
    repeat split; try lia.
    intros r [<- | Hin] Hr; [discriminate Hr |].
    apply in_app_or in Hin. destruct Hin as [Hin | Hin].
    + exfalso.
      assert (Hin' : In r (filter (fun r => level_eqb (lvl r) ERROR) (fst loop))).
      { apply filter_In. split; [exact Hin |]. rewrite Hr. reflexivity. }
      rewrite He in Hin'. exact Hin'.
    + exfalso. rewrite Forall_forall in Hinfo. specialize (Hinfo r Hin).
      congruence.
  - subst tail. cbn [filter level_eqb lvl length app].
    repeat split; try lia.
    intros r [<- | Hin] Hr; [discriminate Hr |].
    apply in_app_or in Hin. destruct Hin as [Hin | Hin].
    + exfalso.
      assert (Hin' : In r (filter (fun r => level_eqb (lvl r) ERROR) (fst loop))).
      { apply filter_In. split; [exact Hin |]. rewrite Hr. reflexivity. }
      rewrite He in Hin'. exact Hin'.
    + destruct Hin as [<- | []]. reflexivity.
Qed.

End Baseline.

Section Session.
Context {NL : NumLib} {H : Hlb} {AP : Apd}.
#[local] Open Scope float_scope.
Import response_analyzer active_beacon.

Lemma check_hardware_outcome (self : ActiveBeacon) (hackrf_ok : bool) :
  snd (check_hardware self hackrf_ok)
  = Ok (mkStatus hackrf_ok (is_available (monitor self))
                 (hackrf_ok && is_available (monitor self))).
Proof.
  unfold check_hardware.
  destruct hackrf_ok, (is_available (monitor self)); reflexivity.
Qed.

Lemma check_hardware_logged (self : ActiveBeacon) (hackrf_ok : bool) :
  fst (check_hardware self hackrf_ok)
  = mkLog INFO "Hardware check: HackRF={}, RTL-SDR={}"
          [bool_arg hackrf_ok; bool_arg (is_available (monitor self))]
    :: (if hackrf_ok && is_available (monitor self) then []
        else mkLog WARNING "Missing required hardware!" []
             :: (if hackrf_ok then []
                 else [mkLog WARNING
                         "  - HackRF One not found (needed for transmission)" []])
             ++ (if is_available (monitor self) then []
                 else [mkLog WARNING
                         "  - RTL-SDR not found (needed for reception)" []])).
Proof.
  unfold check_hardware.
  destruct hackrf_ok, (is_available (monitor self)); reflexivity.
Qed.

Lemma run_hardware_missing
      (self : ActiveBeacon) (hackrf_ok : bool)
      (responses : nat -> option (list Z)) :
  hackrf_ok && is_available (monitor self) = false ->
  run self hackrf_ok responses
  = ([mkLog INFO rule [];
      mkLog INFO "Starting Active Protocol Discovery session" [];
      mkLog INFO rule [];
      mkLog INFO "Hardware check: HackRF={}, RTL-SDR={}"
            [bool_arg hackrf_ok; bool_arg (is_available (monitor self))];
      mkLog WARNING "Missing required hardware!" []]
     ++ (if hackrf_ok then []
         else [mkLog WARNING
                 "  - HackRF One not found (needed for transmission)" []])
     ++ (if is_available (monitor self) then []
         else [mkLog WARNING
                 "  - RTL-SDR not found (needed for reception)" []]),
     Raise (RuntimeError "Required hardware not available. Aborting.")).
Proof.
  intro Hmiss. unfold run, check_hardware.
  destruct hackrf_ok, (is_available (monitor self));
    try discriminate Hmiss; reflexivity.
Qed.

(** [check_hardware] and [run] without the hardware.  [check_hardware]
    never raises; it reports what the two devices answered and reports
    ready exactly when both answered yes, in which case the INFO record of
    the check is all it logs.  When one is missing, [run] raises
    [RuntimeError] straight after the check: the log holds the three banner
    records, the INFO record of the check, the WARNING that hardware is
    missing and one WARNING per missing device, and nothing else, so no
    baseline capture is attempted and the responses are never looked
    at. *)
Theorem run_needs_hardware
        (self : ActiveBeacon) (hackrf_ok : bool)
        (responses : nat -> option (list Z)) :
  (exists logs st,
      check_hardware self hackrf_ok = (logs, Ok st)
      /\ hackrf st = hackrf_ok
      /\ rtlsdr st = is_available (monitor self)
      /\ (ready st = true
          <-> hackrf_ok = true /\ is_available (monitor self) = true)
      /\ (ready st = true ->
          logs = [mkLog INFO "Hardware check: HackRF={}, RTL-SDR={}"
                        [AInt 1; AInt 1]])
      /\ (ready st = false ->
          In (mkLog WARNING "Missing required hardware!" []) logs))
  /\ (hackrf_ok && is_available (monitor self) = false ->
      run self hackrf_ok responses
      = ([mkLog INFO rule [];
          mkLog INFO "Starting Active Protocol Discovery session" [];
          mkLog INFO rule [];
          mkLog INFO "Hardware check: HackRF={}, RTL-SDR={}"
                [bool_arg hackrf_ok; bool_arg (is_available (monitor self))];
          mkLog WARNING "Missing required hardware!" []]
         ++ (if hackrf_ok then []
             else [mkLog WARNING
                     "  - HackRF One not found (needed for transmission)" []])
         ++ (if is_available (monitor self) then []
             else [mkLog WARNING
                     "  - RTL-SDR not found (needed for reception)" []]),
         Raise (RuntimeError "Required hardware not available. Aborting."))).
Proof.
  split.
  - destruct (check_hardware self hackrf_ok) as [logs r] eqn:E.
    pose proof (check_hardware_outcome self hackrf_ok) as Ho.
    pose proof (check_hardware_logged self hackrf_ok) as Hl.
    rewrite E in Ho, Hl. cbn [fst snd] in Ho, Hl. subst r logs.
    eexists. eexists. split; [reflexivity |].
    cbn [hackrf rtlsdr ready].
    split; [reflexivity |]. split; [reflexivity |].
    split; [apply andb_true_iff |].
    split; intro Hr; rewrite Hr.
    + apply andb_prop in Hr. destruct Hr as [-> ->]. reflexivity.
    + right. left. reflexivity.
  - apply run_hardware_missing.
Qed.

(** The outcome of [run] once the hardware answers. *)
Lemma run_outcome (self : ActiveBeacon) (responses : nat -> option (list Z)) :
  is_available (monitor self) = true ->
  snd (run self true responses)
  = Py.rbind (snd (capture_baseline self (config.baseline_samples (cfg self))))
      (fun cal =>
         if negb (fst cal)
         then Raise (RuntimeError "Baseline capture failed. Aborting.")
         else
           let c := cfg self in
           let self1 := snd cal in
           Py.rbind
             (snd (run_loop self1 responses
                            (policy_sigma (response_analyzer self1))
                            (seq 0 (Z.to_nat (config.max_iterations c)))
                            (mkLoop (new_state (config.sprt_alpha c)
                                               (config.sprt_beta c))
                                    (history self1) [])))
             (fun st =>
                Ok (mkResult (decision (sprt st)) (steps (sprt st))
                             (state_history (sprt st)) (probe_history st),
                    mkBeacon (cfg self1) (probe_lib self1)
                             (response_analyzer self1) (monitor self1)
                             (probes self1) (session_history st)))).
Proof.
  intro Hav. unfold run.
  do 3 (rewrite snd_bind; cbn [Py.log snd Py.rbind]).
  rewrite snd_bind, check_hardware_outcome, Hav. cbn [Py.rbind ready andb negb].
  rewrite snd_bind.
  destruct (snd (capture_baseline self (config.baseline_samples (cfg self))))
    as [[flag self1] | e]; cbn [Py.rbind fst snd]; [| reflexivity].
  destruct flag; cbn [negb]; [| reflexivity].
  do 3 (rewrite snd_bind; cbn [Py.log snd Py.rbind]).
  rewrite snd_bind.
  destruct (snd (run_loop _ _ _ _ _)) as [st | e]; cbn [Py.rbind];
    [| reflexivity].
  rewrite snd_bind, check_hardware_outcome. cbn [Py.rbind].
  do 2 (rewrite snd_bind; cbn [Py.log snd Py.rbind]).
  reflexivity.
Qed.

Lemma check_hardware_ready (self : ActiveBeacon) :
  is_available (monitor self) = true ->
  check_hardware self true
  = ([mkLog INFO "Hardware check: HackRF={}, RTL-SDR={}" [AInt 1; AInt 1]],
     Ok (mkStatus true true true)).
Proof. intro Hav. unfold check_hardware. rewrite Hav. reflexivity. Qed.

(** [run] without a baseline.  With both devices answering, fewer than two
    successful baseline captures, which is certain when the configured
    [baseline_samples] is below 2, make [run] raise [RuntimeError]; an
    exception of the baseline capture (a capture that does not decode)
    leaves [run] as it is.  Either way the log is the banner, the record of
    the hardware check and the log of [capture_baseline]: the loop is never
    announced and no probe is selected or rendered. *)
Theorem run_needs_baseline
        (self : ActiveBeacon) (responses : nat -> option (list Z))
        (Hav : is_available (monitor self) = true) :
  let n := config.baseline_samples (cfg self) in
  let caps := valid_captures (monitor self) n in
  let opening :=
    [mkLog INFO rule [];
     mkLog INFO "Starting Active Protocol Discovery session" [];
     mkLog INFO rule [];
     mkLog INFO "Hardware check: HackRF={}, RTL-SDR={}" [AInt 1; AInt 1]] in
  ((n < 2)%Z -> (length caps < 2)%nat)
  /\ ((length caps < 2)%nat ->
      run self true responses
      = (opening ++ fst (capture_baseline self n),
         Raise (RuntimeError "Baseline capture failed. Aborting.")))
  /\ (forall e, snd (capture_baseline self n) = Raise e ->
                run self true responses
                = (opening ++ fst (capture_baseline self n), Raise e)).
Proof.
  intros n caps opening.
  pose proof (valid_captures_bound (monitor self) n) as Hlen. fold caps in Hlen.
  split; [intro Hn; lia |].
  pose proof (capture_baseline_outcome self n) as Hout.
  cbv zeta in Hout. fold caps in Hout. rewrite Hav in Hout. cbn [negb] in Hout.
  split.
  - intro Hlt.
    destruct (Nat.leb_spec 2 (length caps)) as [Hge | _]; [lia |].
    unfold run. rewrite (check_hardware_ready self Hav). fold n.
    destruct (capture_baseline self n) as [lb r]. cbn [snd] in Hout. subst r.
    cbn [Py.bind Py.log Py.raise negb ready fst snd app].
    rewrite app_nil_r. reflexivity.
  - intros e E.
    unfold run. rewrite (check_hardware_ready self Hav). fold n.
    destruct (capture_baseline self n) as [lb r]. cbn [snd] in E. subst r.
    reflexivity.
Qed.

Lemma log_decision_outcome (d : option Z) : snd (log_decision d) = Ok tt.
Proof. destruct d; reflexivity. Qed.

(** The response buffer of iteration [i]: the capture, or a hundred zero
    bytes when it failed. *)
Lemma run_loop_cons
      (self : ActiveBeacon) (responses : nat -> option (list Z)) (sigma : float)
      (i : nat) (rest : list nat) (st st_final : loop_state) :
  snd (run_loop self responses sigma (i :: rest) st) = Ok st_final ->
  let c := cfg self in
  let probe := select (probes self) sigma (session_history st) in
  let response_iq := Int8Array match responses i with
                               | Some d => d
                               | None => repeat 0%Z 100
                               end in
  exists probe_iq la metrics ll llr,
    probe_library.generate_iq (probe_lib self) probe (config.probe_duration c)
    = Ok probe_iq
    /\ analyze (response_analyzer self) (Z.of_nat i) response_iq
               (Some probe_iq) false = (la, Ok metrics)
    /\ compute_llr_from_metrics (response_analyzer self) metrics = (ll, Ok llr)
    /\ let st' := mkLoop (update (config.sprt_alpha c) (config.sprt_beta c)
                                 (sprt st) llr)
                         (session_history st ++ [(probe, metrics)])
                         (probe_history st ++ [probe]) in
       if is_decided (config.sprt_alpha c) (config.sprt_beta c) (sprt st')
       then st_final = st'
       else snd (run_loop self responses sigma rest st') = Ok st_final.
Proof.
  intros E c probe response_iq.
  cbn [run_loop] in E. fold c in E. fold probe in E.
  do 5 (rewrite snd_bind in E; cbn [Py.log snd Py.rbind] in E).
  rewrite snd_bind in E. cbn [Py.lift snd] in E.
  destruct (probe_library.generate_iq (probe_lib self) probe
                                      (config.probe_duration c))
    as [probe_iq | e] eqn:Hgen; cbn [Py.rbind] in E; [| discriminate].
  rewrite snd_bind in E; cbn [Py.log snd Py.rbind] in E.
  rewrite snd_bind in E.
  match type of E with
  | context [if ?b then log INFO "Inter-probe delay: {}s" _ else _] =>
      destruct b
  end; cbn [Py.log Py.ret snd Py.rbind] in E;
    (rewrite snd_bind in E; cbn [Py.log snd Py.rbind] in E;
     rewrite snd_bind in E;
     assert (Hr : forall r : option (list Z),
                snd match r with
                    | Some d => ret (Int8Array d)
                    | None =>
                        (log ERROR "Response capture failed. Using zero observation." [] ;;;
                         ret (Int8Array (repeat 0%Z 100)))%py
                    end
                = Ok (Int8Array match r with
                                | Some d => d
                                | None => repeat 0%Z 100
                                end))
       by (intros [d |]; reflexivity);
     rewrite Hr in E; clear Hr; fold response_iq in E; cbn [Py.rbind] in E).
  all: rewrite snd_bind in E.
  all: destruct (analyze (response_analyzer self) (Z.of_nat i) response_iq
                    (Some probe_iq) false) as [la [metrics | e]] eqn:Han;
    cbn [snd Py.rbind] in E; [| discriminate].
  all: do 6 (rewrite snd_bind in E; cbn [Py.log snd Py.rbind] in E).
  all: rewrite snd_bind in E.
  all: destruct (compute_llr_from_metrics (response_analyzer self) metrics)
    as [ll [llr | e]] eqn:Hllr; cbn [snd Py.rbind] in E; [| discriminate].
  all: do 3 (rewrite snd_bind in E; cbn [Py.log snd Py.rbind] in E).
  all: rewrite snd_bind, log_decision_outcome in E; cbn [Py.rbind] in E.
  all: exists probe_iq, la, metrics, ll, llr.
  all: split; [reflexivity |]; split; [first [reflexivity | exact Han] |];
    split; [first [reflexivity | exact Hllr] |].
  all: cbv zeta; cbn [sprt].
  all: destruct (is_decided (config.sprt_alpha c) (config.sprt_beta c)
                       (update (config.sprt_alpha c) (config.sprt_beta c)
                               (sprt st) llr));
    [ do 4 (rewrite snd_bind in E; cbn [Py.log snd Py.rbind] in E);
      cbn [Py.ret snd] in E; injection E as <-; reflexivity
    | exact E ].
Qed.

(** An exception while rendering the selected probe ends the loop. *)
Lemma run_loop_render_fails
      (self : ActiveBeacon) (responses : nat -> option (list Z)) (sigma : float)
      (i : nat) (rest : list nat) (st : loop_state) (e : exn) :
  probe_library.generate_iq (probe_lib self)
    (select (probes self) sigma (session_history st))
    (config.probe_duration (cfg self)) = Raise e ->
  snd (run_loop self responses sigma (i :: rest) st) = Raise e.
Proof.
  intro Hgen. cbn [run_loop].
  do 5 (rewrite snd_bind; cbn [Py.log snd Py.rbind]).
  rewrite snd_bind. cbn [Py.lift snd]. rewrite Hgen. reflexivity.
Qed.

Lemma rendered_not_custom (lib : probe_library.ProbeLibrary)
      (p : probe_library.Probe) (duration : float) (buf : ndarray) :
  probe_library.generate_iq lib p duration = Ok buf ->
  probe_library.type p <> probe_library.CUSTOM.
Proof.
  intros E Ht. unfold probe_library.generate_iq in E. rewrite Ht in E.
  discriminate E.
Qed.

(** The loop, by induction on the iterations left. *)
Lemma run_loop_inv
      (self : ActiveBeacon) (responses : nat -> option (list Z)) (sigma : float) :
  let c := cfg self in
  let alpha := config.sprt_alpha c in
  let beta := config.sprt_beta c in
  forall (iterations : list nat) (st st_final : loop_state),
    snd (run_loop self responses sigma iterations st) = Ok st_final ->
    exists (new : list (probe_library.Probe * ResponseMetrics))
           (llrs : list float),
      session_history st_final = session_history st ++ new
      /\ probe_history st_final = probe_history st ++ map fst new
      /\ Forall2 (fun pm llr =>
                    snd (compute_llr_from_metrics (response_analyzer self)
                                                  (snd pm)) = Ok llr)
                 new llrs
      /\ (length new <= length iterations)%nat
      /\ (iterations <> [] -> new <> [])
      /\ map (fun pm => probe_id (snd pm)) new
         = map Z.of_nat (firstn (length new) iterations)
      /\ sprt st_final = fold_left (update alpha beta) llrs (sprt st)
      /\ (length new = length iterations
          \/ is_decided alpha beta (sprt st_final) = true)
      /\ (forall j, (0 < j < length new)%nat ->
                    is_decided alpha beta
                      (fold_left (update alpha beta) (firstn j llrs) (sprt st))
                    = false)
      /\ Forall (fun pm =>
                   probe_library.type (fst pm) <> probe_library.CUSTOM
                   /\ is_nan (correlation (snd pm)) = false
                   /\ raw_iq (snd pm) = None)
                new
      /\ (forall j p m, nth_error new j = Some (p, m) ->
                        p = select (probes self) sigma
                                   (session_history st ++ firstn j new)).
Proof.
  intros c alpha beta iterations.
  induction iterations as [| i rest IH]; intros st st_final E.
  - cbn in E. injection E as <-. exists [], [].
    cbn [map length firstn fold_left]. rewrite !app_nil_r.
    split; [reflexivity |]. split; [reflexivity |]. split; [constructor |].
    split; [lia |].
    split; [intro Hne; exfalso; apply Hne; reflexivity |].
    split; [reflexivity |]. split; [reflexivity |].
    split; [left; reflexivity |].
    split; [intros j Hj; lia |].
    split; [constructor |].
    intros j p m Hj. destruct j; discriminate Hj.
  - destruct (run_loop_cons self responses sigma i rest st st_final E)
      as [probe_iq [la [metrics [ll [llr [Hgen [Han [Hllr Hnext]]]]]]]].
    cbv zeta in Hnext. cbn [sprt] in Hnext.
    fold c in Hgen, Hnext. fold alpha in Hnext. fold beta in Hnext.
    set (probe := select (probes self) sigma (session_history st)) in *.
    set (state := update alpha beta (sprt st) llr) in *.
    assert (Hentry : probe_library.type probe <> probe_library.CUSTOM
                     /\ is_nan (correlation metrics) = false
                     /\ raw_iq metrics = None).
    { split; [exact (rendered_not_custom _ _ _ _ Hgen) |].
      destruct (analyze_inversion _ _ _ _ _ _ _ Han)
        as [psd [pk [cr [_ [_ [Hc [_ [_ [_ [_ [_ [Hcr [Hraw _]]]]]]]]]]]]].
      split; [| exact Hraw].
      rewrite Hcr. exact (correlation_never_nan _ _ _ _ Hc). }
    assert (Hid : probe_id metrics = Z.of_nat i).
    { destruct (analyze_inversion _ _ _ _ _ _ _ Han)
        as [psd [pk [cr [_ [_ [_ [Hpid _]]]]]]]. exact Hpid. }
    assert (Hl : snd (compute_llr_from_metrics (response_analyzer self) metrics)
                 = Ok llr) by (rewrite Hllr; reflexivity).
    destruct (is_decided alpha beta state) eqn:Hdec.
    + subst st_final. exists [(probe, metrics)], [llr].
      cbn [session_history probe_history sprt map fst snd length firstn
           fold_left].
      rewrite Hid.
      split; [reflexivity |]. split; [reflexivity |].
      split; [repeat constructor; exact Hl |].
      split; [lia |]. split; [discriminate |]. split; [reflexivity |].
      split; [reflexivity |]. split; [right; exact Hdec |].
      split; [intros j Hj; lia |].
      split; [repeat constructor; apply Hentry |].
      intros j p m Hj. destruct j as [| j]; cbn in Hj.
      * injection Hj as <- <-. cbn [firstn]. rewrite app_nil_r. reflexivity.
      * destruct j; discriminate Hj.
    + destruct (IH _ _ Hnext)
        as [new [llrs [Hh [Hp [Hf2 [Hlen [Hne [Hids [Hs [Hstop [Hpre [Hall Hsel]]]]]]]]]]]].
      cbn [session_history probe_history sprt] in Hh, Hp, Hs, Hpre, Hsel.
      exists ((probe, metrics) :: new), (llr :: llrs).
      cbn [map fst snd length firstn fold_left]. fold state.
      rewrite Hid, Hids.
      split; [rewrite Hh, <- app_assoc; reflexivity |].
      split; [rewrite Hp, <- app_assoc; reflexivity |].
      split; [constructor; assumption |].
      split; [lia |]. split; [discriminate |]. split; [reflexivity |].
      split; [exact Hs |].
      split; [destruct Hstop as [Hk | Hk]; [left; lia | right; exact Hk] |].
      split.
      { intros j Hj. destruct j as [| j]; [lia |].
        cbn [firstn fold_left]. fold state.
        destruct j as [| j]; [exact Hdec |].
        apply Hpre. lia. }
      split; [constructor; assumption |].
      intros j p m Hj. destruct j as [| j]; cbn [nth_error firstn] in *.
      * injection Hj as <- <-. rewrite app_nil_r. reflexivity.
      * rewrite (Hsel j p m Hj), <- app_assoc. reflexivity.
Qed.

Lemma capture_baseline_true (self self1 : ActiveBeacon) (n_samples : Z) :
  snd (capture_baseline self n_samples) = Ok (true, self1) ->
  let caps := valid_captures (monitor self) n_samples in
  is_available (monitor self) = true
  /\ (2 <= length caps)%nat
  /\ exists ps,
      power_samples_of (response_analyzer self) caps = Ok ps
      /\ self1 = mkBeacon (cfg self) (probe_lib self)
                          (mkAnalyzer (sr (response_analyzer self))
                                      (anomaly_threshold (response_analyzer self))
                                      (Some (np_mean ps)) (Some (np_std ps)))
                          (monitor self) (probes self) (history self).
Proof.
  intros E caps.
  pose proof (capture_baseline_outcome self n_samples) as Hout.
  cbv zeta in Hout. fold caps in Hout. rewrite Hout in E. clear Hout.
  destruct (is_available (monitor self)); cbn [negb] in E; [| discriminate].
  destruct (Nat.leb_spec 2 (length caps)) as [Hge | Hlt]; [| discriminate].
  rewrite set_baseline_outcome in E.
  destruct (power_samples_of (response_analyzer self) caps) as [ps | e];
    cbn [Py.rbind] in E; [| discriminate].
  injection E as <-.
  split; [reflexivity |]. split; [exact Hge |].
  exists ps. split; reflexivity.
Qed.

Lemma firstn_seq_le (k n start : nat) :
  (k <= n)%nat -> firstn k (seq start n) = seq start k.
Proof.
  revert n start. induction k as [| k IH]; intros n start Hk; [reflexivity |].
  destruct n as [| n]; [lia |].
  cbn [seq firstn]. rewrite IH by lia. reflexivity.
Qed.

(** A session that returns.  Both devices answered and at least two
    baseline captures succeeded; the beacon keeps its configuration, probe
    library, receiver and catalog and has both baseline attributes set.
    The loop ran [k] iterations with [k <= max_iterations], and [k >= 1]
    when [max_iterations >= 1]: the history grew by [k] entries with probe
    ids 0, ..., [k - 1], [probes_used] lists their probes, each one the
    policy's choice for the history before it, none of kind CUSTOM, each
    with a correlation that is not NaN and no raw samples kept.  The result
    reports the test state after folding the [k] log-likelihood ratios of
    these entries into a new state; the test was undecided after each of
    the first [k - 1], and the loop ended because the test decided or
    because [k = max_iterations]. *)
Theorem run_session_shape
        (self self' : ActiveBeacon) (hackrf_ok : bool)
        (responses : nat -> option (list Z)) (res : APDResult)
        (Hrun : snd (run self hackrf_ok responses) = Ok (res, self')) :
  let c := cfg self in
  let alpha := config.sprt_alpha c in
  let beta := config.sprt_beta c in
  hackrf_ok = true
  /\ is_available (monitor self) = true
  /\ (2 <= length (valid_captures (monitor self) (config.baseline_samples c)))%nat
  /\ cfg self' = c /\ probe_lib self' = probe_lib self
  /\ monitor self' = monitor self /\ probes self' = probes self
  /\ (exists bm bs, baseline_mean (response_analyzer self') = Some bm
                    /\ baseline_std (response_analyzer self') = Some bs)
  /\ exists (new : list (probe_library.Probe * ResponseMetrics))
            (llrs : list float),
      history self' = history self ++ new
      /\ probes_used res = map fst new
      /\ Forall2 (fun pm llr =>
                    snd (compute_llr_from_metrics (response_analyzer self')
                                                  (snd pm)) = Ok llr)
                 new llrs
      /\ (length new <= Z.to_nat (config.max_iterations c))%nat
      /\ ((1 <= config.max_iterations c)%Z -> (1 <= length new)%nat)
      /\ map (fun pm => probe_id (snd pm)) new
         = map Z.of_nat (seq 0 (length new))
      /\ (let final := fold_left (update alpha beta) llrs
                                 (new_state alpha beta) in
          result_decision res = decision final
          /\ result_steps res = steps final
          /\ log_odds_history res = state_history final
          /\ (length new = Z.to_nat (config.max_iterations c)
              \/ is_decided alpha beta final = true))
      /\ (forall j, (0 < j < length new)%nat ->
                    is_decided alpha beta
                      (fold_left (update alpha beta) (firstn j llrs)
                                 (new_state alpha beta))
                    = false)
      /\ Forall (fun pm =>
                   probe_library.type (fst pm) <> probe_library.CUSTOM
                   /\ is_nan (correlation (snd pm)) = false
                   /\ raw_iq (snd pm) = None)
                new
      /\ (forall j p m, nth_error new j = Some (p, m) ->
                        p = select (probes self)
                                   (policy_sigma (response_analyzer self'))
                                   (history self ++ firstn j new)).
Proof.
  intros c alpha beta.
  assert (Hhw : hackrf_ok && is_available (monitor self) = true).
  { destruct (hackrf_ok && is_available (monitor self)) eqn:Hhw;
      [reflexivity |].
    rewrite (run_hardware_missing self hackrf_ok responses Hhw) in Hrun.
    discriminate Hrun. }
  apply andb_prop in Hhw. destruct Hhw as [-> Hav].
  rewrite (run_outcome self responses Hav) in Hrun.
  destruct (snd (capture_baseline self (config.baseline_samples (cfg self))))
    as [[flag self1] | e] eqn:Hcal; cbn [Py.rbind fst snd] in Hrun;
    [| discriminate].
  destruct flag; cbn [negb] in Hrun; [| discriminate].
  cbv zeta in Hrun.
  destruct (capture_baseline_true self self1 _ Hcal) as [_ [Hge [ps [Hps ->]]]].
  cbn [cfg probe_lib monitor probes history active_beacon.response_analyzer]
    in Hrun.
  fold c in Hrun, Hge. fold alpha in Hrun. fold beta in Hrun.
  match type of Hrun with
  | Py.rbind (snd (run_loop ?b _ ?sg _ ?s0)) _ = _ =>
      set (self1 := b) in *; set (sigma := sg) in *; set (st0 := s0) in *
  end.
  destruct (snd (run_loop self1 responses sigma
                          (seq 0 (Z.to_nat (config.max_iterations c))) st0))
    as [st | e] eqn:Hloop; cbn [Py.rbind] in Hrun; [| discriminate].
  injection Hrun as <- <-.
  destruct (run_loop_inv self1 responses sigma _ _ _ Hloop)
    as [new [llrs [Hh [Hp [Hf2 [Hlen [Hne [Hids [Hs [Hstop [Hpre [Hall Hsel]]]]]]]]]]]].
  rewrite length_seq in Hlen, Hstop.
  cbn [cfg probe_lib monitor probes history active_beacon.response_analyzer
       self1 st0 session_history probe_history sprt
       baseline_mean baseline_std
       result_decision result_steps log_odds_history probes_used]
    in *.
  fold c in Hs, Hstop, Hpre. fold alpha in Hs, Hstop, Hpre.
  fold beta in Hs, Hstop, Hpre.
  split; [reflexivity |]. split; [exact Hav |]. split; [exact Hge |].
  do 4 (split; [reflexivity |]).
  split; [eexists; eexists; split; reflexivity |].
  exists new, llrs.
  split; [exact Hh |].
  split; [rewrite Hp; reflexivity |].
  split; [exact Hf2 |].
  split; [exact Hlen |].
  split.
  { intro Hmax.
    assert (Hnn : new <> []).
    { apply Hne. intro Hseq. apply (f_equal (@length nat)) in Hseq.
      rewrite length_seq in Hseq. cbn in Hseq. lia. }
    destruct new; [contradiction | cbn [length]; lia]. }
  split.
  { rewrite Hids, (firstn_seq_le _ _ _ Hlen). reflexivity. }
  split.
  { cbv zeta. rewrite Hs. repeat split.
    destruct Hstop as [Hk | Hk]; [left; exact Hk | right].
    rewrite Hs in Hk. exact Hk. }
  split; [exact Hpre |].
  split; [exact Hall |].
  exact Hsel.
Qed.

Lemma nan_duration_unrenderable
      (lib : probe_library.ProbeLibrary) (probe : probe_library.Probe)
      (duration : float) :
  is_nan duration = true ->
  In (probe_library.type probe)
     [probe_library.HYDROGEN_PULSE; probe_library.PRIME_SEQUENCE;
      probe_library.GOLDEN_RATIO; probe_library.SILENCE] ->
  probe_library.generate_iq lib probe duration
  = Py.rbind (PyFloat.of_int (probe_library.sr lib))
      (fun _ => Raise (ValueError "cannot convert float NaN to integer")).
Proof.
  intros Hnan Hk.
  assert (Hint : forall f,
             PyFloat.to_int (f * duration)
             = Raise (ValueError "cannot convert float NaN to integer"))
    by (intro f; exact (to_int_nan _ (mul_nan_r f duration Hnan))).
  unfold probe_library.generate_iq.
  cbn [In] in Hk.
  destruct Hk as [<- | [<- | [<- | [<- | []]]]]; cbn;
    unfold probe_library._hydrogen_pulse, probe_library._prime_sequence,
      probe_library._golden_ratio, probe_library._silence,
      PyFloat.int_mul;
    (destruct (PyFloat.of_int (probe_library.sr lib)) as [f | e];
     cbn [Py.rbind]; [rewrite Hint |]; reflexivity).
Qed.

(** A probe that cannot be rendered ends the session.  Whatever the
    library's sample rate and the probe's parameters, a NaN duration makes
    [generate_iq] raise for the kinds HYDROGEN_PULSE, PRIME_SEQUENCE,
    GOLDEN_RATIO and SILENCE: [ValueError] from [int()], preceded only by
    the [OverflowError] of [self.sr * duration] when the sample rate is an
    int beyond the binary64 range.  In a session whose hardware check and
    baseline capture succeeded and that allows at least one iteration, an
    exception of [generate_iq] on the first probe the policy selects leaves
    [run] unchanged: a CUSTOM probe gives [ValueError] for the unknown
    kind, and a NaN [probe_duration], which [validate] accepts, gives that
    same exception for each of the four kinds. *)
Theorem unrenderable_probe_aborts
        (self self1 : ActiveBeacon) (responses : nat -> option (list Z)) :
  let c := cfg self in
  let first := select (probes self) (policy_sigma (response_analyzer self1))
                      (history self) in
  let int_kinds := [probe_library.HYDROGEN_PULSE; probe_library.PRIME_SEQUENCE;
                    probe_library.GOLDEN_RATIO; probe_library.SILENCE] in
  (forall lib probe duration,
      is_nan duration = true ->
      In (probe_library.type probe) int_kinds ->
      probe_library.generate_iq lib probe duration
      = Py.rbind (PyFloat.of_int (probe_library.sr lib))
          (fun _ => Raise (ValueError "cannot convert float NaN to integer")))
  /\ (is_available (monitor self) = true ->
      snd (capture_baseline self (config.baseline_samples c)) = Ok (true, self1) ->
      (1 <= config.max_iterations c)%Z ->
      (forall e,
          probe_library.generate_iq (probe_lib self) first
                                    (config.probe_duration c) = Raise e ->
          snd (run self true responses) = Raise e)
      /\ (probe_library.type first = probe_library.CUSTOM ->
          snd (run self true responses)
          = Raise (ValueError "Unknown probe type: ProbeType.CUSTOM"))
      /\ (is_nan (config.probe_duration c) = true ->
          In (probe_library.type first) int_kinds ->
          snd (run self true responses)
          = Py.rbind (PyFloat.of_int (probe_library.sr (probe_lib self)))
              (fun _ => Raise (ValueError
                                 "cannot convert float NaN to integer")))).
Proof.
  intros c first int_kinds.
  split; [intros lib probe duration; apply nan_duration_unrenderable |].
  intros Hav Hcal Hmax.
  assert (Hfail : forall e,
             probe_library.generate_iq (probe_lib self) first
                                       (config.probe_duration c) = Raise e ->
             snd (run self true responses) = Raise e).
  { intros e Hgen.
    rewrite (run_outcome self responses Hav). fold c. rewrite Hcal.
    cbn [Py.rbind fst snd negb]. cbv zeta.
    destruct (capture_baseline_true self self1 _ Hcal) as [_ [_ [ps [_ E1]]]].
    assert (Hseq : seq 0 (Z.to_nat (config.max_iterations c))
                   = O :: seq 1 (Z.to_nat (config.max_iterations c) - 1)).
    { destruct (Z.to_nat (config.max_iterations c)) as [| k] eqn:Hk; [lia |].
      cbn [seq]. rewrite Nat.sub_succ, Nat.sub_0_r. reflexivity. }
    rewrite Hseq.
    rewrite (run_loop_render_fails self1 responses _ O _ _ e); [reflexivity |].
    cbn [session_history]. unfold first in Hgen.
    assert (Hpl : probe_lib self1 = probe_lib self) by (rewrite E1; reflexivity).
    assert (Hpr : probes self1 = probes self) by (rewrite E1; reflexivity).
    assert (Hh : history self1 = history self) by (rewrite E1; reflexivity).
    assert (Hc : cfg self1 = cfg self) by (rewrite E1; reflexivity).
    rewrite Hpl, Hpr, Hh, Hc. exact Hgen. }
  split; [exact Hfail |].
  split.
  - intro Ht. apply Hfail. unfold probe_library.generate_iq. rewrite Ht.
    reflexivity.
  - intros Hnan Hk.
    pose proof (nan_duration_unrenderable (probe_lib self) first _ Hnan Hk)
      as Hgen.
    destruct (PyFloat.of_int (probe_library.sr (probe_lib self)))
      as [f | e]; cbn [Py.rbind] in Hgen |- *; apply Hfail; exact Hgen.
Qed.

End Session.

Section Construction.
Context {H : Hlb}.
#[local] Open Scope float_scope.
Import response_analyzer active_beacon.

(** A beacon that [__init__] returns.  Validation passed without printing
    anything, so the first thing that happens is the logging set-up,
    followed by the two directories, the transmitter, the receiver and
    three INFO records, the last one counting nine probes.  The beacon
    holds the configuration as given, an empty history, the standard
    catalog (none of whose probes is of kind CUSTOM), a probe library and
    an analyzer at the configured sample rate, the analyzer with the
    configured threshold and no baseline; and its configuration allows at
    least one iteration and has durations that are not [<= 0]. *)
Theorem init_fresh_beacon
        (c : config.APDConfig) (verbose : bool) (mon : Monitor)
        (effects : list effect) (self : ActiveBeacon)
        (Hinit : init c verbose mon = (effects, Ok self)) :
  config.validate c = ([], Ok tt)
  /\ effects
     = [ LoggingConfigured verbose;
         DirectoryCreated (config.log_dir c);
         DirectoryCreated (config.temp_dir c);
         RFChannelCreated (config.carrier_freq c) (config.sample_rate c)
                          (config.tx_gain c);
         MonitorCreated (config.log_dir c);
         Logged (mkLog INFO "ActiveBeacon initialized. Session: {}" []);
         Logged (mkLog INFO "Carrier: {:.3f} MHz"
                       [AFloat (config.carrier_freq c / 1e6)]);
         Logged (mkLog INFO "Probe library: {} probes" [AInt 9]) ]
  /\ cfg self = c /\ monitor self = mon /\ history self = []
  /\ probes self = probe_library.get_standard_library (probe_lib self)
  /\ Forall (fun p => probe_library.type p <> probe_library.CUSTOM)
            (probes self)
  /\ probe_library.sr (probe_lib self) = config.sample_rate c
  /\ probe_library.seed (probe_lib self) = config.probe_library_seed c
  /\ sr (response_analyzer self) = config.sample_rate c
  /\ anomaly_threshold (response_analyzer self)
     = config.anomaly_threshold_sigma c
  /\ baseline_mean (response_analyzer self) = None
  /\ baseline_std (response_analyzer self) = None
  /\ (1 <= config.max_iterations c)%Z
  /\ (config.probe_duration c <=? 0) = false
  /\ (config.listen_duration c <=? 0) = false.
Proof.
  unfold init in Hinit.
  destruct (validate_cases c) as [[R [m E]] | [[R [G [m E]]] | [R [G E]]]];
    rewrite E in Hinit; try discriminate Hinit.
  injection Hinit as <- <-.
  unfold spec.rates_and_durations_ok in R.
  repeat (apply andb_prop in R; destruct R as [R ?]).
  split; [exact E |]. split; [reflexivity |].
  do 4 (split; [reflexivity |]).
  split.
  { cbn [probes]. unfold probe_library.get_standard_library.
    repeat (constructor; [cbn; discriminate |]). constructor. }
  do 6 (split; [reflexivity |]).
  split; [apply Z.leb_le; assumption |].
  split; apply negb_true_iff; assumption.
Qed.

End Construction.

Section SessionExamples.
#[local] Open Scope float_scope.
Import response_analyzer active_beacon.

(** Three captures on the slow beacon calibrate it; with the receiver
    unplugged nothing is attempted. *)
Lemma capture_baseline_frame_witness :
  (exists self',
      snd (capture_baseline (NL := sample.numlib) sample.slow_beacon 3)
      = Ok (true, self')
      /\ cfg self' = sample.slow_config
      /\ history self' = [])
  /\ length (fst (capture_baseline (NL := sample.numlib)
                    (mkBeacon sample.slow_config sample.slow_library
                              sample.fresh_analyzer sample.monitor_absent [] [])
                    3)) = 2%nat.
Proof.
  split.
  - destruct (snd (capture_baseline (NL := sample.numlib) sample.slow_beacon 3))
      as [[[|] self'] | e] eqn:E.
    + exists self'. split; [reflexivity |].
      destruct (proj1 (proj2 (capture_baseline_frame (NL := sample.numlib)
                                sample.slow_beacon 3)) true self' E)
        as [Hc [_ [_ [_ [Hh _]]]]].
      split; assumption.
    + vm_compute in E. discriminate E.
    + vm_compute in E. discriminate E.
  - rewrite (proj2 (proj2 (proj2 (capture_baseline_frame (NL := sample.numlib)
               (mkBeacon sample.slow_config sample.slow_library
                         sample.fresh_analyzer sample.monitor_absent [] [])
               3))) eq_refl).
    reflexivity.
Defined.

(** Five attempts on a receiver that delivers three captures: two
    warnings. *)
Lemma capture_baseline_log_witness :
  (length (filter (fun r => level_eqb (lvl r) WARNING)
                  (fst (capture_baseline (NL := sample.numlib) sample.beacon 5)))
   + length (valid_captures sample.monitor_three 5) = 5)%nat.
Proof.
  exact (proj1 (proj2 (capture_baseline_log (NL := sample.numlib)
                                            sample.beacon 5 eq_refl))).
Defined.

Lemma run_needs_hardware_witness :
  snd (run (NL := sample.numlib) (H := sample.hlb) (AP := sample.apd)
           sample.slow_beacon false sample.responses)
  = Raise (RuntimeError "Required hardware not available. Aborting.").
Proof.
  rewrite (proj2 (run_needs_hardware (NL := sample.numlib) (H := sample.hlb)
                    (AP := sample.apd) sample.slow_beacon false
                    sample.responses) eq_refl).
  reflexivity.
Defined.

(** One baseline capture is configured: the session cannot start. *)
Lemma run_needs_baseline_witness :
  snd (run (NL := sample.numlib) (H := sample.hlb) (AP := sample.apd)
           sample.beacon true sample.responses)
  = Raise (RuntimeError "Baseline capture failed. Aborting.").
Proof.
  assert (Hlt : (length (valid_captures sample.monitor_three 1) < 2)%nat)
    by (vm_compute; lia).
  rewrite (proj1 (proj2 (run_needs_baseline (NL := sample.numlib)
                           (H := sample.hlb) (AP := sample.apd)
                           sample.beacon sample.responses eq_refl)) Hlt).
  reflexivity.
Defined.

(** The slow session returns after the stand-in test decides. *)
Lemma run_session_shape_witness :
  exists res self' new,
    snd (run (NL := sample.numlib) (H := sample.hlb) (AP := sample.apd)
             sample.slow_beacon true sample.responses) = Ok (res, self')
    /\ history self' = [] ++ new
    /\ probes_used res = map fst new
    /\ (length new <= 3)%nat.
Proof.
  destruct (snd (run (NL := sample.numlib) (H := sample.hlb) (AP := sample.apd)
                     sample.slow_beacon true sample.responses))
    as [[res self'] | e] eqn:E.
  - destruct (run_session_shape (NL := sample.numlib) (H := sample.hlb)
                (AP := sample.apd) _ _ _ _ _ E)
      as [_ [_ [_ [_ [_ [_ [_ [_ [new [llrs [Hh [Hp [_ [Hl _]]]]]]]]]]]]]].
    exists res, self', new. repeat split; assumption.
  - vm_compute in E. discriminate E.
Defined.

(** A catalog holding only a custom probe: the first iteration raises. *)
Lemma unrenderable_probe_aborts_witness :
  let custom :=
    probe_library.custom_probe sample.slow_library "waveform_fn" 1.0
                               "Custom probe" 1.0 in
  let beacon := mkBeacon sample.slow_config sample.slow_library
                         sample.fresh_analyzer sample.monitor_three
                         [custom] [] in
  snd (run (NL := sample.numlib) (H := sample.hlb) (AP := sample.apd)
           beacon true sample.responses)
  = Raise (ValueError "Unknown probe type: ProbeType.CUSTOM").
Proof.
  intros custom beacon.
  destruct (snd (capture_baseline (NL := sample.numlib) beacon
                                  (config.baseline_samples (cfg beacon))))
    as [[[|] self1] | e] eqn:Hcal.
  - assert (Hmax : (1 <= config.max_iterations (cfg beacon))%Z)
      by (vm_compute; discriminate).
    exact (proj1 (proj2 (proj2 (unrenderable_probe_aborts
                                  (NL := sample.numlib) (H := sample.hlb)
                                  (AP := sample.apd) beacon self1
                                  sample.responses)
                               eq_refl Hcal Hmax))
                 eq_refl).
  - vm_compute in Hcal. discriminate Hcal.
  - vm_compute in Hcal. discriminate Hcal.
Defined.

Lemma init_fresh_beacon_witness :
  exists effects self,
    init (H := sample.hlb) sample.slow_config true sample.monitor_three
    = (effects, Ok self)
    /\ history self = []
    /\ baseline_mean (response_analyzer self) = None.
Proof.
  destruct (init (H := sample.hlb) sample.slow_config true sample.monitor_three)
    as [effects [self | e]] eqn:E.
  - exists effects, self. split; [reflexivity |].
    destruct (init_fresh_beacon (H := sample.hlb) _ _ _ _ _ E)
      as [_ [_ [_ [_ [Hh [_ [_ [_ [_ [_ [_ [Hb _]]]]]]]]]]]].
    split; assumption.
  - vm_compute in E. discriminate E.
Defined.

End SessionExamples.

(* ================================================================== *)
(** ** The mechanical and the RF channel *)

Section Channels.
Context {NL : NumLib} {PF : Platform}.
#[local] Open Scope float_scope.
Import em_dogwhistle.

Lemma np_linspace_ok (start stop : float) (num : Z) :
  (0 <= num)%Z ->
  exists t, probe_library.np_linspace start stop num = Ok t
            /\ length t = Z.to_nat num.
Proof.
  intro Hn. unfold probe_library.np_linspace.
  destruct (Z.ltb_spec num 0); [lia |].
  eexists. split; [reflexivity |]. rewrite length_map, length_seq. reflexivity.
Qed.

Lemma np_linspace_neg (start stop : float) (num : Z) :
  (num < 0)%Z ->
  probe_library.np_linspace start stop num
  = Raise (ValueError "Number of samples must be non-negative").
Proof.
  intro Hn. unfold probe_library.np_linspace.
  destruct (Z.ltb_spec num 0); [reflexivity | lia].
Qed.

Lemma cumsum_from_length (acc : float) (a : list float) :
  length (cumsum_from acc a) = length a.
Proof.
  revert acc. induction a as [| x a IH]; intro acc; [reflexivity |].
  cbn [cumsum_from length]. rewrite IH. reflexivity.
Qed.

Lemma np_cumsum_length (a : list float) : length (np_cumsum a) = length a.
Proof.
  destruct a as [| x a]; [reflexivity |].
  cbn [np_cumsum length]. rewrite cumsum_from_length. reflexivity.
Qed.

Lemma concat_repeat_length {A} (a : list A) (k : nat) :
  length (concat (repeat a k)) = (k * length a)%nat.
Proof.
  induction k as [| k IH]; [reflexivity |].
  cbn [repeat concat]. rewrite length_app, IH. reflexivity.
Qed.

Lemma concat_map_length {A B} (f : A -> list B) (l : list A) (n : nat) :
  (forall a, length (f a) = n) ->
  length (concat (map f l)) = (length l * n)%nat.
Proof.
  intro Hf. induction l as [| a l IH]; [reflexivity |].
  cbn [map concat length]. rewrite length_app, Hf, IH. reflexivity.
Qed.

(** The five plain generators return exactly [n] samples. *)
Lemma plain_generators (self : MechanicalChannel) (duration : Z)
      (f_start f_end base_freq breath_rate : float) :
  let n := (sr self * duration)%Z in
  ((0 <= n)%Z ->
   forall g,
     In g [schumann_fundamental self duration;
           schumann_second self duration;
           schumann_combined self duration;
           infrasound_chirp self duration f_start f_end;
           breathing_pattern self duration base_freq breath_rate] ->
     exists s, g = Ok s /\ length s = Z.to_nat n)
  /\ ((n < 0)%Z ->
      forall g,
        In g [schumann_fundamental self duration;
              schumann_second self duration;
              schumann_combined self duration;
              infrasound_chirp self duration f_start f_end;
              breathing_pattern self duration base_freq breath_rate] ->
        g = Raise (ValueError "Number of samples must be non-negative")).
Proof.
  intro n. split; intros Hn g Hg.
  - destruct (np_linspace_ok 0 (PyFloat.of_Z duration) n Hn) as [t [Ht Hl]].
    cbn [In] in Hg.
    destruct Hg as [<- | [<- | [<- | [<- | [<- | []]]]]];
      unfold schumann_combined, schumann_fundamental, schumann_second,
        infrasound_chirp, breathing_pattern, time_axis;
      fold n; rewrite Ht; cbn [Py.rbind];
      try (rewrite broadcast2_same_length by (rewrite !length_map; reflexivity));
      eexists; (split; [reflexivity |]);
      rewrite ?length_map, ?length_combine, ?length_map, ?np_cumsum_length,
        ?length_map, ?Nat.min_id; exact Hl.
  - pose proof (np_linspace_neg 0 (PyFloat.of_Z duration) n Hn) as Ht.
    cbn [In] in Hg.
    destruct Hg as [<- | [<- | [<- | [<- | [<- | []]]]]];
      unfold schumann_combined, schumann_fundamental, schumann_second,
        infrasound_chirp, breathing_pattern, time_axis;
      fold n; rewrite Ht; reflexivity.
Qed.

Lemma scan_programme_cases (self : MechanicalChannel) (duration num : Z) :
  PyFloat.to_int (PyFloat.of_Z (sr self) * PyFloat.int_quotient duration 5) = Ok num ->
  ((0 <= num)%Z ->
   exists s, _scan_programme self duration = Ok s
             /\ length s = (5 * Z.to_nat num)%nat)
  /\ ((num < 0)%Z ->
      _scan_programme self duration
      = Raise (ValueError "Number of samples must be non-negative")).
Proof.
  intro Hnum. unfold _scan_programme.
  cbn [scan_freqs length Z.of_nat Pos.of_succ_nat Pos.succ].
  rewrite (int_truediv_returns duration 5 _ num ltac:(discriminate) Hnum).
  cbn [Py.rbind]. sample_count_is Hnum. cbn [Py.rbind].
  split; intro Hn.
  - destruct (np_linspace_ok 0 (PyFloat.int_quotient duration 5) num Hn) as [t [Ht Hl]].
    rewrite Ht. cbn [Py.rbind]. eexists. split; [reflexivity |].
    rewrite (concat_map_length _ _ (Z.to_nat num)).
    + reflexivity.
    + intro a. rewrite length_map. exact Hl.
  - rewrite (np_linspace_neg _ _ _ Hn). reflexivity.
Qed.

(** Sample counts of the mechanical generators.  With [n = sr * duration]
    the generators [schumann_fundamental], [schumann_second],
    [schumann_combined], [infrasound_chirp] and [breathing_pattern] return
    exactly [n] samples when [n >= 0] and raise [ValueError] from
    [np.linspace] when [n < 0].  [_scan_programme] returns five segments of
    [int(sr * (duration / 5))] samples each, which can fall short of [n]:
    at 44100 samples per second a seven-second scan has 308695 samples, five
    fewer than 7 * 44100. *)
Theorem mechanical_sample_counts (self : MechanicalChannel) (duration : Z)
        (f_start f_end base_freq breath_rate : float) :
  let n := (sr self * duration)%Z in
  let plain := [schumann_fundamental self duration;
                schumann_second self duration;
                schumann_combined self duration;
                infrasound_chirp self duration f_start f_end;
                breathing_pattern self duration base_freq breath_rate] in
  ((0 <= n)%Z ->
   forall g, In g plain -> exists s, g = Ok s /\ length s = Z.to_nat n)
  /\ ((n < 0)%Z ->
      forall g, In g plain ->
                g = Raise (ValueError "Number of samples must be non-negative"))
  /\ (forall num,
         PyFloat.to_int (PyFloat.of_Z (sr self) * PyFloat.int_quotient duration 5)
         = Ok num ->
         ((0 <= num)%Z ->
          exists s, _scan_programme self duration = Ok s
                    /\ length s = (5 * Z.to_nat num)%nat)
         /\ ((num < 0)%Z ->
             _scan_programme self duration
             = Raise (ValueError "Number of samples must be non-negative")))
  /\ (exists s, _scan_programme (mkMechanical SAMPLE_RATE) 7 = Ok s
                /\ Z.of_nat (length s) = 308695%Z
                /\ (Z.of_nat (length s) < SAMPLE_RATE * 7)%Z).
Proof.
  intros n plain.
  destruct (plain_generators self duration f_start f_end base_freq breath_rate)
    as [Hok Hneg].
  split; [exact Hok |]. split; [exact Hneg |].
  split; [intros num Hnum; apply scan_programme_cases; exact Hnum |].
  assert (Hnum : PyFloat.to_int (PyFloat.of_Z (sr (mkMechanical SAMPLE_RATE))
                                 * PyFloat.int_quotient 7 5) = Ok 61739%Z)
    by (vm_compute; reflexivity).
  assert (Hpos : (0 <= 61739)%Z) by lia.
  destruct (proj1 (scan_programme_cases (mkMechanical SAMPLE_RATE) 7 61739
                                         Hnum) Hpos) as [s [Hs Hl]].
  exists s. split; [exact Hs |].
  assert (Hl' : Z.of_nat (length s) = 308695%Z).
  { rewrite Hl, Nat2Z.inj_mul, Z2Nat.id by lia. reflexivity. }
  split; [exact Hl' |]. rewrite Hl'. reflexivity.
Qed.

Lemma all_from_spec (P : Z -> bool) (count : nat) :
  forall lo, all_from P lo count = true ->
             forall d, (lo <= d < lo + Z.of_nat count)%Z -> P d = true.
Proof.
  induction count as [| c IH]; intros lo Hall d Hd; [lia |].
  cbn [all_from] in Hall. apply andb_prop in Hall. destruct Hall as [H0 Hrest].
  destruct (Z.eq_dec d lo) as [-> | Hne]; [exact H0 |].
  apply (IH (lo + 1)%Z Hrest). lia.
Qed.

Lemma repeats_cover_checked :
  all_from repeats_cover 1 (Z.to_nat 86400) = true
  /\ all_from repeats_cover (-600) (Z.to_nat 600) = true.
Proof. split; vm_compute; reflexivity. Qed.

Lemma repeats_cover_range (d : Z) :
  (-600 <= d <= 86400)%Z -> d <> 0%Z -> repeats_cover d = true.
Proof.
  intros Hd Hnz. destruct repeats_cover_checked as [Hpos Hneg].
  destruct (Z.ltb_spec 0 d).
  - apply (all_from_spec _ _ _ Hpos). rewrite Z2Nat.id; lia.
  - apply (all_from_spec _ _ _ Hneg). rewrite Z2Nat.id; lia.
Qed.

Lemma full_programme_unfold (self : MechanicalChannel) (duration : Z) :
  _full_programme self duration
  = Py.rbind (full_repeats duration)
      (fun repeats =>
         Py.rbind (schumann_fundamental self 30) (fun s1 =>
         Py.rbind (schumann_second self 30) (fun s2 =>
         Py.rbind (schumann_combined self 60) (fun s3 =>
         Py.rbind (infrasound_chirp self 60 1.0 20.0) (fun s4 =>
         Py.rbind (breathing_pattern self 120 7.83 0.25) (fun s5 =>
         Py.rbind (schumann_combined self 300) (fun s6 =>
         Py.rbind (np_tile (s1 ++ s2 ++ s3 ++ s4 ++ s5 ++ s6) repeats)
                  (fun full => Ok (slice_to full (sr self * duration)))))))))).
Proof.
  unfold _full_programme, full_repeats.
  destruct (PyFloat.int_truediv duration (Z.min duration 600)); reflexivity.
Qed.

(** One ten-minute cycle has [600 * sr] samples. *)
Lemma cycle_segments (self : MechanicalChannel) :
  (0 <= sr self)%Z ->
  exists s1 s2 s3 s4 s5 s6,
    schumann_fundamental self 30 = Ok s1
    /\ schumann_second self 30 = Ok s2
    /\ schumann_combined self 60 = Ok s3
    /\ infrasound_chirp self 60 1.0 20.0 = Ok s4
    /\ breathing_pattern self 120 7.83 0.25 = Ok s5
    /\ schumann_combined self 300 = Ok s6
    /\ Z.of_nat (length (s1 ++ s2 ++ s3 ++ s4 ++ s5 ++ s6)) = (600 * sr self)%Z.
Proof.
  intro Hsr.
  destruct (proj1 (plain_generators self 30 1.0 20.0 7.83 0.25) ltac:(lia)
                  (schumann_fundamental self 30)) as [s1 [E1 L1]];
    [left; reflexivity |].
  destruct (proj1 (plain_generators self 30 1.0 20.0 7.83 0.25) ltac:(lia)
                  (schumann_second self 30)) as [s2 [E2 L2]];
    [right; left; reflexivity |].
  destruct (proj1 (plain_generators self 60 1.0 20.0 7.83 0.25) ltac:(lia)
                  (schumann_combined self 60)) as [s3 [E3 L3]];
    [do 2 right; left; reflexivity |].
  destruct (proj1 (plain_generators self 60 1.0 20.0 7.83 0.25) ltac:(lia)
                  (infrasound_chirp self 60 1.0 20.0)) as [s4 [E4 L4]];
    [do 3 right; left; reflexivity |].
  destruct (proj1 (plain_generators self 120 1.0 20.0 7.83 0.25) ltac:(lia)
                  (breathing_pattern self 120 7.83 0.25)) as [s5 [E5 L5]];
    [do 4 right; left; reflexivity |].
  destruct (proj1 (plain_generators self 300 1.0 20.0 7.83 0.25) ltac:(lia)
                  (schumann_combined self 300)) as [s6 [E6 L6]];
    [do 2 right; left; reflexivity |].
  exists s1, s2, s3, s4, s5, s6.
  repeat (split; [assumption |]).
  rewrite !length_app, L1, L2, L3, L4, L5, L6. lia.
Qed.

(** Length of [_full_programme].  A zero duration raises
    [ZeroDivisionError] from [duration / cycle_duration] before any signal
    is generated.  For a sample rate [sr >= 0] and a duration from one
    second to one day the result has exactly [sr * duration] samples: the
    repeat count is large enough for the final slice to find them.  A
    negative duration down to -600 does not raise: the quotient is 1, one
    cycle is built, and the slice with its negative bound returns
    [sr * (600 + duration)] samples.  A negative sample rate raises
    [ValueError] from [np.linspace]. *)
Theorem full_programme_length (self : MechanicalChannel) (duration : Z) :
  (duration = 0%Z ->
   _full_programme self duration
   = Raise (ZeroDivisionError "division by zero"))
  /\ ((1 <= duration <= 86400)%Z -> (0 <= sr self)%Z ->
      exists s, _full_programme self duration = Ok s
                /\ Z.of_nat (length s) = (sr self * duration)%Z)
  /\ ((-600 <= duration <= -1)%Z -> (0 <= sr self)%Z ->
      exists s, _full_programme self duration = Ok s
                /\ Z.of_nat (length s) = (sr self * (600 + duration))%Z)
  /\ ((-600 <= duration <= 86400)%Z -> duration <> 0%Z -> (sr self < 0)%Z ->
      _full_programme self duration
      = Raise (ValueError "Number of samples must be non-negative")).
Proof.
  assert (Hrep : (-600 <= duration <= 86400)%Z -> duration <> 0%Z ->
                 exists r, full_repeats duration = Ok r
                           /\ (1 <= r)%Z /\ (duration <= 600 * r)%Z
                           /\ ((duration < 0)%Z -> r = 1%Z)).
  { intros Hd Hnz. pose proof (repeats_cover_range duration Hd Hnz) as Hc.
    unfold repeats_cover in Hc.
    destruct (full_repeats duration) as [r | e]; [| discriminate Hc].
    exists r. split; [reflexivity |].
    apply andb_prop in Hc. destruct Hc as [Hc H3].
    apply andb_prop in Hc. destruct Hc as [H1 H2].
    split; [lia |]. split; [lia |].
    intro Hneg. apply orb_prop in H3. destruct H3 as [H3 | H3]; lia. }
  assert (Hfull : (-600 <= duration <= 86400)%Z -> duration <> 0%Z ->
                  (0 <= sr self)%Z ->
                  exists r full,
                    (1 <= r)%Z /\ (duration <= 600 * r)%Z
                    /\ ((duration < 0)%Z -> r = 1%Z)
                    /\ Z.of_nat (length full) = (r * (600 * sr self))%Z
                    /\ _full_programme self duration
                       = Ok (slice_to full (sr self * duration))).
  { intros Hd Hnz Hsr.
    destruct (Hrep Hd Hnz) as [r [Hr [H1 [H2 H3]]]].
    destruct (cycle_segments self Hsr)
      as [s1 [s2 [s3 [s4 [s5 [s6 [E1 [E2 [E3 [E4 [E5 [E6 Hlen]]]]]]]]]]]].
    exists r, (concat (repeat (s1 ++ s2 ++ s3 ++ s4 ++ s5 ++ s6) (Z.to_nat r))).
    split; [exact H1 |]. split; [exact H2 |]. split; [exact H3 |].
    split.
    - rewrite concat_repeat_length, Nat2Z.inj_mul, Hlen, Z2Nat.id by lia.
      reflexivity.
    - rewrite full_programme_unfold, Hr, E1, E2, E3, E4, E5, E6.
      cbn [Py.rbind]. unfold np_tile.
      destruct (Z.ltb_spec r 0); [lia | reflexivity]. }
  split; [| split; [| split]].
  - intros ->. reflexivity.
  - intros Hd Hsr.
    destruct (Hfull ltac:(lia) ltac:(lia) Hsr)
      as [r [full [H1 [H2 [_ [Hlen E]]]]]].
    eexists. split; [exact E |].
    unfold slice_to. destruct (Z.ltb_spec (sr self * duration) 0); [nia |].
    rewrite length_firstn. nia.
  - intros Hd Hsr.
    destruct (Hfull ltac:(lia) ltac:(lia) Hsr)
      as [r [full [H1 [H2 [H3 [Hlen E]]]]]].
    rewrite (H3 ltac:(lia)) in Hlen.
    eexists. split; [exact E |].
    unfold slice_to. destruct (Z.ltb_spec (sr self * duration) 0).
    + rewrite length_firstn. nia.
    + rewrite length_firstn. nia.
  - intros Hd Hnz Hsr.
    destruct (Hrep Hd Hnz) as [r [Hr _]].
    rewrite full_programme_unfold, Hr. cbn [Py.rbind].
    rewrite (proj2 (plain_generators self 30 1.0 20.0 7.83 0.25) ltac:(lia)
                   (schumann_fundamental self 30));
      [reflexivity | left; reflexivity].
Qed.

Lemma programme_signal_fallback (self : MechanicalChannel) (programme : string)
      (duration : Z) :
  ~ In programme programme_names ->
  programme_signal self programme duration = schumann_fundamental self duration.
Proof.
  intro Hn. unfold programme_signal.
  repeat match goal with
         | |- context [String.eqb programme ?s] =>
             destruct (String.eqb_spec programme s) as [-> | _];
             [exfalso; apply Hn; cbn; tauto |]
         end.
  reflexivity.
Qed.

Lemma programme_signal_plain (self : MechanicalChannel) (programme : string)
      (duration : Z) :
  In programme ["schumann"; "combined"; "chirp"; "breathing"]
  \/ ~ In programme programme_names ->
  In (programme_signal self programme duration)
     [schumann_fundamental self duration;
      schumann_second self duration;
      schumann_combined self duration;
      infrasound_chirp self duration 1.0 20.0;
      breathing_pattern self duration 7.83 0.25].
Proof.
  intros [Hin | Hn].
  - cbn [In] in Hin.
    destruct Hin as [<- | [<- | [<- | [<- | []]]]]; cbn; tauto.
  - rewrite (programme_signal_fallback _ _ _ Hn). left. reflexivity.
Qed.

Lemma np_max_cons (x : float) (a : list float) :
  exists m, np_max (x :: a) = Ok m.
Proof. eexists. reflexivity. Qed.

Lemma generate_programme_signal (self : MechanicalChannel) (programme : string)
      (duration : Z) (s : list float) :
  programme_signal self programme duration = Ok s ->
  (s = [] ->
   generate_programme self programme duration
   = Raise (ValueError
              "zero-size array to reduction operation maximum which has no identity"))
  /\ (s <> [] ->
      exists out, generate_programme self programme duration = Ok out
                  /\ length out = length s).
Proof.
  intro Hs. unfold generate_programme. rewrite Hs. cbn [Py.rbind].
  split.
  - intros ->. reflexivity.
  - intro Hne. destruct s as [| x s]; [contradiction |].
    cbn [map]. destruct (np_max_cons (abs x) (map abs s)) as [m Hm].
    rewrite Hm. cbn [Py.rbind]. eexists. split; [reflexivity |].
    destruct (0 <? m); cbn [map length]; rewrite ?length_map; reflexivity.
Qed.

(** [generate_programme].  A programme name outside the six known ones is
    treated as "schumann".  The int16 array returned has as many samples as
    the programme's signal, which is then not empty; an empty signal makes
    [np.max] raise [ValueError], and an exception of the signal generator
    is passed on.  So for the plain programmes with [n = sr * duration]:
    [n < 0] raises [ValueError] from [np.linspace], [n = 0] (a zero
    duration, say) raises [ValueError] from [np.max], and [n > 0] returns
    [n] samples; the programme "full" with a zero duration raises
    [ZeroDivisionError]. *)
Theorem generate_programme_outcome
        (self : MechanicalChannel) (programme : string) (duration : Z) :
  let n := (sr self * duration)%Z in
  let empty :=
    ValueError
      "zero-size array to reduction operation maximum which has no identity" in
  (~ In programme programme_names ->
   generate_programme self programme duration
   = generate_programme self "schumann" duration)
  /\ (forall out,
         generate_programme self programme duration = Ok out ->
         exists s, programme_signal self programme duration = Ok s
                   /\ s <> [] /\ length out = length s)
  /\ (programme_signal self programme duration = Ok [] ->
      generate_programme self programme duration = Raise empty)
  /\ (forall e, programme_signal self programme duration = Raise e ->
                generate_programme self programme duration = Raise e)
  /\ (In programme ["schumann"; "combined"; "chirp"; "breathing"]
      \/ ~ In programme programme_names ->
      ((n < 0)%Z ->
       generate_programme self programme duration
       = Raise (ValueError "Number of samples must be non-negative"))
      /\ (n = 0%Z -> generate_programme self programme duration = Raise empty)
      /\ ((0 < n)%Z ->
          exists out, generate_programme self programme duration = Ok out
                      /\ Z.of_nat (length out) = n))
  /\ generate_programme self "full" 0
     = Raise (ZeroDivisionError "division by zero").
Proof.
  intros n empty.
  split; [| split; [| split; [| split; [| split]]]].
  - intro Hn. unfold generate_programme.
    rewrite (programme_signal_fallback _ _ _ Hn). reflexivity.
  - intros out E.
    destruct (programme_signal self programme duration) as [s | e] eqn:Hs.
    + destruct (generate_programme_signal _ _ _ _ Hs) as [Hempty Hfull].
      destruct s as [| x s].
      * rewrite (Hempty eq_refl) in E. discriminate E.
      * destruct (Hfull ltac:(discriminate)) as [out' [E' Hl]].
        rewrite E' in E. injection E as <-.
        eexists. split; [reflexivity |]. split; [discriminate | exact Hl].
    + unfold generate_programme in E. rewrite Hs in E. discriminate E.
  - intro Hs. apply (proj1 (generate_programme_signal _ _ _ _ Hs)). reflexivity.
  - intros e Hs. unfold generate_programme. rewrite Hs. reflexivity.
  - intro Hp. pose proof (programme_signal_plain self programme duration Hp) as Hin.
    destruct (plain_generators self duration 1.0 20.0 7.83 0.25) as [Hok Hneg].
    fold n in Hok, Hneg.
    split; [| split].
    + intro Hn. unfold generate_programme. rewrite (Hneg Hn _ Hin). reflexivity.
    + intro Hn. destruct (Hok ltac:(lia) _ Hin) as [s [Hs Hl]].
      rewrite Hn in Hl. destruct s; [| discriminate Hl].
      apply (proj1 (generate_programme_signal _ _ _ _ Hs)). reflexivity.
    + intro Hn. destruct (Hok ltac:(lia) _ Hin) as [s [Hs Hl]].
      assert (Hne : s <> []).
      { intros ->. cbn in Hl. lia. }
      destruct (proj2 (generate_programme_signal _ _ _ _ Hs) Hne)
        as [out [E Hlo]].
      exists out. split; [exact E |]. rewrite Hlo, Hl. lia.
  - reflexivity.
Qed.

Lemma interleave_carrier (k : nat) :
  hlb_waveforms.interleave (repeat 127%Z k) (repeat 0%Z k)
  = concat (repeat [127; 0]%Z k).
Proof.
  induction k as [| k IH]; [reflexivity |].
  cbn [repeat hlb_waveforms.interleave concat app]. rewrite IH. reflexivity.
Qed.

Lemma np_int8_levels : np_int8 (1 * 127) = 127%Z /\ np_int8 (0 * 127) = 0%Z.
Proof. split; reflexivity. Qed.

(** [generate_baseband] with [n = sr * duration].  A negative [n] raises
    [ValueError] from [np.linspace] whatever the modulation.  Otherwise the
    buffer has [2 n] bytes and every quadrature byte is 0; "cw" and every
    unknown modulation name give the same buffer, the pair (127, 0)
    repeated [n] times; "pulse" gives in-phase bytes that are 0 or 127. *)
Theorem generate_baseband_shape
        (self : RFChannel) (duration : Z) (mod_freq : float)
        (mod_type : string) :
  let n := (rf_sr self * duration)%Z in
  ((n < 0)%Z ->
   generate_baseband self duration mod_freq mod_type
   = Raise (ValueError "Number of samples must be non-negative"))
  /\ ((0 <= n)%Z ->
      (mod_type <> "am" -> mod_type <> "pulse" ->
       generate_baseband self duration mod_freq mod_type
       = Ok (concat (repeat [127; 0]%Z (Z.to_nat n))))
      /\ (exists b,
             generate_baseband self duration mod_freq "pulse" = Ok b
             /\ length b = (2 * Z.to_nat n)%nat
             /\ Forall (fun z => z = 0%Z \/ z = 127%Z) (stride2 b)
             /\ Forall (fun z => z = 0%Z) (stride2 (tl b)))
      /\ (exists b,
             generate_baseband self duration mod_freq "am" = Ok b
             /\ length b = (2 * Z.to_nat n)%nat
             /\ Forall (fun z => z = 0%Z) (stride2 (tl b)))).
Proof.
  intro n. destruct np_int8_levels as [Hone Hzero].
  assert (Hq : map (fun x => np_int8 (x * 127)) (repeat 0 (Z.to_nat n))
               = repeat 0%Z (Z.to_nat n)).
  { rewrite map_repeat, Hzero. reflexivity. }
  assert (Hz : Forall (fun z => z = 0%Z) (repeat 0%Z (Z.to_nat n))).
  { apply Forall_forall. intros z Hin. apply repeat_spec in Hin. exact Hin. }
  split.
  - intro Hn. unfold generate_baseband. fold n.
    rewrite (np_linspace_neg _ _ _ Hn). reflexivity.
  - intro Hn.
    destruct (np_linspace_ok 0 (PyFloat.of_Z duration) n Hn) as [t [Ht Hl]].
    assert (Hones : probe_library.np_ones n = Ok (repeat 1 (Z.to_nat n))).
    { unfold probe_library.np_ones.
      destruct (Z.ltb_spec n 0); [lia | reflexivity]. }
    assert (Hzeros : np_zeros n = Ok (repeat 0 (Z.to_nat n))).
    { unfold np_zeros. destruct (Z.ltb_spec n 0); [lia | reflexivity]. }
    split; [| split].
    + intros Ham Hpulse. unfold generate_baseband. fold n. rewrite Ht.
      cbn [Py.rbind].
      destruct (String.eqb_spec mod_type "am") as [E | _]; [contradiction |].
      destruct (String.eqb_spec mod_type "pulse") as [E | _]; [contradiction |].
      rewrite Hones, Hzeros. cbn [Py.rbind fst snd].
      rewrite Hq, map_repeat, Hone, interleave_carrier. reflexivity.
    + unfold generate_baseband. fold n. rewrite Ht. cbn [Py.rbind String.eqb
        Ascii.eqb Bool.eqb].
      rewrite Hzeros. cbn [Py.rbind fst snd]. rewrite Hq.
      eexists. split; [reflexivity |].
      set (i := map _ (map _ t)).
      assert (Hli : length i = length (repeat 0%Z (Z.to_nat n))).
      { unfold i. rewrite !length_map, repeat_length. exact Hl. }
      destruct (stride2_interleave _ _ Hli) as [Hsi Hsq].
      rewrite interleave_length, Hli, repeat_length, Nat.min_id, Hsi, Hsq.
      split; [reflexivity |]. split; [| exact Hz].
      unfold i. apply Forall_forall. intros z Hin.
      apply in_map_iff in Hin. destruct Hin as [x [<- Hx]].
      apply in_map_iff in Hx. destruct Hx as [y [<- _]].
      destruct (np_mod y 2 <? 1); [right; exact Hone | left; exact Hzero].
    + unfold generate_baseband. fold n. rewrite Ht. cbn [Py.rbind String.eqb
        Ascii.eqb Bool.eqb].
      rewrite Hones. cbn [Py.rbind].
      rewrite broadcast2_same_length
        by (rewrite length_map, repeat_length; exact Hl).
      cbn [Py.rbind]. rewrite Hzeros. cbn [Py.rbind fst snd]. rewrite Hq.
      eexists. split; [reflexivity |].
      set (i := map _ (map _ (combine _ _))).
      assert (Hli : length i = length (repeat 0%Z (Z.to_nat n))).
      { unfold i. rewrite !length_map, length_combine, length_map, !repeat_length.
        rewrite Hl. apply Nat.min_id. }
      destruct (stride2_interleave _ _ Hli) as [Hsi Hsq].
      rewrite interleave_length, Hli, repeat_length, Nat.min_id, Hsq.
      split; [reflexivity | exact Hz].
Qed.

End Channels.

Section ChannelExamples.
#[local] Open Scope float_scope.
Import em_dogwhistle.

(** Two seconds at four samples per second. *)
Lemma mechanical_sample_counts_witness :
  (exists s, schumann_combined (NL := sample.numlib) (mkMechanical 4) 2 = Ok s
             /\ length s = 8%nat)
  /\ infrasound_chirp (NL := sample.numlib) (mkMechanical 4) (-2) 1.0 20.0
     = Raise (ValueError "Number of samples must be non-negative").
Proof.
  assert (Hpos : (0 <= sr (mkMechanical 4) * 2)%Z) by (cbn; lia).
  assert (Hneg : (sr (mkMechanical 4) * -2 < 0)%Z) by (cbn; lia).
  split.
  - apply (proj1 (mechanical_sample_counts (NL := sample.numlib)
                    (mkMechanical 4) 2 1.0 20.0 7.83 0.25) Hpos).
    do 2 right. left. reflexivity.
  - apply (proj1 (proj2 (mechanical_sample_counts (NL := sample.numlib)
                           (mkMechanical 4) (-2) 1.0 20.0 7.83 0.25)) Hneg).
    do 3 right. left. reflexivity.
Defined.

(** Seven hundred seconds need two cycles; minus one hundred seconds give
    five hundred. *)
Lemma full_programme_length_witness :
  (exists s, _full_programme (NL := sample.numlib) (mkMechanical 1) 700 = Ok s
             /\ Z.of_nat (length s) = 700%Z)
  /\ (exists s, _full_programme (NL := sample.numlib) (mkMechanical 1) (-100) = Ok s
                /\ Z.of_nat (length s) = 500%Z).
Proof.
  assert (Hsr : (0 <= sr (mkMechanical 1))%Z) by (cbn; lia).
  split.
  - assert (Hd : (1 <= 700 <= 86400)%Z) by lia.
    exact (proj1 (proj2 (full_programme_length (NL := sample.numlib)
                           (mkMechanical 1) 700)) Hd Hsr).
  - assert (Hd : (-600 <= -100 <= -1)%Z) by lia.
    exact (proj1 (proj2 (proj2 (full_programme_length (NL := sample.numlib)
                                  (mkMechanical 1) (-100)))) Hd Hsr).
Defined.

Lemma generate_programme_outcome_witness :
  generate_programme (NL := sample.numlib) (PF := sample.platform)
                     (mkMechanical 4) "warble" 2
  = generate_programme (NL := sample.numlib) (PF := sample.platform)
                       (mkMechanical 4) "schumann" 2
  /\ generate_programme (NL := sample.numlib) (PF := sample.platform)
                        (mkMechanical SAMPLE_RATE) "chirp" 0
     = Raise (ValueError
                "zero-size array to reduction operation maximum which has no identity").
Proof.
  split.
  - apply (proj1 (generate_programme_outcome (NL := sample.numlib)
                    (PF := sample.platform) (mkMechanical 4) "warble" 2)).
    cbn. intuition discriminate.
  - apply (proj1 (proj2 (proj1 (proj2 (proj2 (proj2 (proj2
             (generate_programme_outcome (NL := sample.numlib)
                (PF := sample.platform) (mkMechanical SAMPLE_RATE) "chirp" 0)))))
             (or_introl (or_intror (or_intror (or_introl eq_refl))))))).
    reflexivity.
Defined.

Lemma generate_baseband_shape_witness :
  generate_baseband (NL := sample.numlib) (PF := sample.platform)
                    (mkRF 433e6 2) 3 7.83 "cw"
  = Ok [127; 0; 127; 0; 127; 0; 127; 0; 127; 0; 127; 0]%Z.
Proof.
  assert (Hn : (0 <= rf_sr (mkRF 433e6 2) * 3)%Z) by (cbn; lia).
  assert (H1 : "cw" <> "am") by discriminate.
  assert (H2 : "cw" <> "pulse") by discriminate.
  exact (proj1 (proj2 (generate_baseband_shape (NL := sample.numlib)
                         (PF := sample.platform) (mkRF 433e6 2) 3 7.83 "cw")
                      Hn) H1 H2).
Defined.

End ChannelExamples.
